(** * Traffic-filter resources of the serverless provider

    A shallow embedding of

    - [ec/ecresource/serverlesstrafficfilterassocresource/resource.go]
      (the association reconciler: Create, Read, Update, Delete,
      ImportState and the two helpers [getProjectTrafficFilters] and
      [patchProjectTrafficFilters]), and
    - the filter entity resource of package
      [serverlesstrafficfilterresource] (Read, Delete, modelFromResponse),

    together with the parts of the host framework and of the generated
    transport client that this code touches.  Calls to the transport
    client are recorded in a trace, so that what is sent to the server
    (and whether anything is sent at all) can be stated. *)

From Stdlib Require Import ZArith Ascii String DecimalString.
From stdpp Require Import base list strings gmap.

Local Open Scope string_scope.
Local Open Scope list_scope.

(** ** Go library functions used by the resources *)

Module strings.

(** [strings.Split(s, sep)] for a separator of one byte, the only way
    the resources call it ([strings.Split(req.ID, ",")]): the
    substrings between the occurrences of [sep], in order; a string
    with [n] separators yields [n + 1] substrings, the empty string
    yields one empty substring. *)
Fixpoint Split (s : string) (sep : ascii) : list string :=
  match s with
  | EmptyString => [EmptyString]
  | String c rest =>
      if Ascii.eqb c sep then EmptyString :: Split rest sep
      else match Split rest sep with
           | [] => [String c EmptyString]
           | part :: parts => String c part :: parts
           end
  end.

End strings.

Module fmt.

(** The verb [%d] on an [int]: decimal digits, a minus sign when
    negative. *)
Definition d (n : Z) : string := NilZero.string_of_int (Z.to_int n).

Definition newline : string := String (ascii_of_nat 10) EmptyString.

(** [fmt.Sprintf("The API request failed with: %d %s\n%s", code, status, body)] *)
Definition Sprintf_request_failed (code : Z) (status body : string) : string :=
  "The API request failed with: " ++ d code ++ " " ++ status ++ newline ++ body.

(** [fmt.Sprintf("%s-%s", a, b)] *)
Definition Sprintf_s_dash_s (a b : string) : string := a ++ "-" ++ b.

End fmt.

Module http.

Definition StatusOK : Z := 200.
Definition StatusNoContent : Z := 204.
Definition StatusNotFound : Z := 404.

(** [http.Response], the two fields the resources read. *)
Record Response := { StatusCode : Z; Status : string }.

(** [http.StatusText(0)]: no text is registered for code 0. *)
Definition StatusText0 : string := "".

End http.

(** ** Host framework: diagnostics, attribute values, state *)

Module diag.

Inductive Severity := SeverityError | SeverityWarning.

Record Diagnostic :=
  { severity : Severity; Summary : string; Detail : string }.

#[global] Instance Severity_eq_dec : EqDecision Severity.
Proof. solve_decision. Defined.

#[global] Instance Diagnostic_eq_dec : EqDecision Diagnostic.
Proof. solve_decision. Defined.

Definition Diagnostics := list Diagnostic.

Definition NewErrorDiagnostic (summary detail : string) : Diagnostic :=
  {| severity := SeverityError; Summary := summary; Detail := detail |}.

Definition is_error (dg : Diagnostic) : bool :=
  match severity dg with SeverityError => true | SeverityWarning => false end.

(** [Diagnostics.Contains]: some element equals [dg]. *)
Definition Contains (diags : Diagnostics) (dg : Diagnostic) : bool :=
  existsb (fun x => bool_decide (x = dg)) diags.

(** [Diagnostics.Append(in...)]: each new diagnostic is added at the
    end unless an equal one is already there. *)
Fixpoint Append (diags : Diagnostics) (new : Diagnostics) : Diagnostics :=
  match new with
  | [] => diags
  | dg :: rest =>
      if Contains diags dg then Append diags rest
      else Append (diags ++ [dg]) rest
  end.

Definition AddError (diags : Diagnostics) (summary detail : string) : Diagnostics :=
  Append diags [NewErrorDiagnostic summary detail].

Definition HasError (diags : Diagnostics) : bool := existsb is_error diags.

End diag.

Module types.

(** [types.String]: null, unknown, or a known value. *)
Inductive String := StringNull | StringUnknown | StringValue (s : string).

(** [ValueString]: the known value, the empty string otherwise. *)
Definition ValueString (v : String) : string :=
  match v with StringValue s => s | _ => "" end.

Inductive Bool := BoolNull | BoolUnknown | BoolValue (b : bool).

End types.

Module tfsdk.

(** A plan or a state over a resource model [M]: the null value, or an
    object holding the model's attributes. *)
Definition State (M : Type) := option M.
Definition Plan (M : Type) := option M.

(** [Get(ctx, &model)]: decodes the object into the target struct. A
    null value cannot be decoded into a struct: the target keeps its
    zero value and a conversion error is reported (its text stands for
    the framework's own). *)
Definition Get {M} (zero : M) (s : option M) : M * diag.Diagnostics :=
  match s with
  | Some m => (m, [])
  | None => (zero, [diag.NewErrorDiagnostic "Value Conversion Error"
                      "unhandled null value"])
  end.

(** [State.Set(ctx, &model)] with a model struct whose fields are the
    attributes of the schema, all of them strings (the association): the
    state becomes that object. The filter model, whose rules are a set,
    has a [State_Set] of its own. *)
Definition Set_ {M} (s : State M) (m : M) : State M * diag.Diagnostics :=
  (Some m, []).

(** [State.RemoveResource(ctx)]: the state becomes the null value. *)
Definition RemoveResource {M} (s : State M) : State M := None.

End tfsdk.

Module resource.

Record Response (M : Type) :=
  { State : tfsdk.State M; Diagnostics : diag.Diagnostics }.
Arguments State {M} _.
Arguments Diagnostics {M} _.
Arguments Build_Response {M} _ _.

Record CreateRequest (M : Type) := { Plan : tfsdk.Plan M }.
Arguments Plan {M} _.
Arguments Build_CreateRequest {M} _.

(** [ReadRequest], [UpdateRequest] and [DeleteRequest] carry the
    tracked state. *)
Record StateRequest (M : Type) := { PriorState : tfsdk.State M }.
Arguments PriorState {M} _.
Arguments Build_StateRequest {M} _.

Record ImportStateRequest := { ID : string }.

(** [resp.Diagnostics.Append(diags...)] *)
Definition AppendDiagnostics {M} (resp : Response M) (diags : diag.Diagnostics)
  : Response M :=
  {| State := State resp;
     Diagnostics := diag.Append (Diagnostics resp) diags |}.

(** [resp.Diagnostics.AddError(summary, detail)] *)
Definition AddError {M} (resp : Response M) (summary detail : string)
  : Response M :=
  {| State := State resp;
     Diagnostics := diag.AddError (Diagnostics resp) summary detail |}.

(** [resp.Diagnostics.Append(resp.State.Set(ctx, &model)...)] *)
Definition SetState {M} (resp : Response M) (model : M) : Response M :=
  let '(st, diags) := tfsdk.Set_ (State resp) model in
  AppendDiagnostics {| State := st; Diagnostics := Diagnostics resp |} diags.

(** [resp.State.RemoveResource(ctx)] *)
Definition RemoveResource {M} (resp : Response M) : Response M :=
  {| State := tfsdk.RemoveResource (State resp);
     Diagnostics := Diagnostics resp |}.

End resource.


(** ** Operations that talk to the server

    A lifecycle operation runs against a trace of transport events: each
    call to the client appends its event. A Go panic (a method call
    through a nil client interface) ends the run without a result. *)

Module op.

Definition Op (E A : Type) : Type := list E -> option (A * list E).

Definition ret {E A} (x : A) : Op E A := fun tr => Some (x, tr).

Definition bind {E A B} (m : Op E A) (k : A -> Op E B) : Op E B :=
  fun tr => match m tr with
            | Some (x, tr') => k x tr'
            | None => None
            end.

Definition panic {E A} : Op E A := fun _ => None.

(** One transport call: the event is logged, the answer handed back. *)
Definition emit {E A} (e : E) (answer : A) : Op E A :=
  fun tr => Some (answer, tr ++ [e]).

(** Using an interface value: nil panics. *)
Definition deref {E A} (o : option A) : Op E A :=
  match o with Some x => ret x | None => panic end.

End op.

Notation "x <- m ;; k" := (op.bind m (fun x => k))
  (at level 20, m at level 99, k at level 200, only parsing).
Notation "' p <- m ;; k" := (op.bind m (fun x => match x with p => k end))
  (at level 20, p pattern, m at level 99, k at level 200, only parsing).

(** ** The generated transport client (package [serverless]) *)

Module serverless.

Record TrafficFilter := { Id : string }.

Definition TrafficFilters := list TrafficFilter.
Definition OptionalTrafficFilters := list TrafficFilter.

#[global] Instance TrafficFilter_eq_dec : EqDecision TrafficFilter.
Proof. solve_decision. Defined.

(** Modelled from the spec: the project record of the generated client.
    The three kinds ([ElasticsearchProject], [ObservabilityProject],
    [SecurityProject]) have their own entity, "but structurally identical
    membership semantics": a project carries its id, its name and the
    optional embedded list of traffic filters, absent when the project
    never had any. *)
Record Project :=
  { Project_Id : string;
    Project_Name : string;
    Project_TrafficFilters : option TrafficFilters }.

(** Modelled from the spec: the typed response of a client operation, "a
    typed response with a status code, an optional decoded success
    payload, and a raw body for error formatting". [HTTPResponse] is the
    optional raw HTTP response that holds the status. *)
Record Response (T : Type) :=
  { Body : string;
    HTTPResponse : option http.Response;
    JSON200 : option T }.
Arguments Body {T} _.
Arguments HTTPResponse {T} _.
Arguments JSON200 {T} _.
Arguments Build_Response {T} _ _ _.

(** Modelled from the spec: the status code of a generated response, that
    of the raw HTTP response, 0 when there is none. *)
Definition StatusCode {T} (r : Response T) : Z :=
  match HTTPResponse r with
  | Some h => http.StatusCode h
  | None => 0%Z
  end.

(** Modelled from the spec: the status line of the raw HTTP response, the
    text of status 0 when there is none. *)
Definition Status {T} (r : Response T) : string :=
  match HTTPResponse r with
  | Some h => http.Status h
  | None => http.StatusText0
  end.

(** Modelled from the spec: the body of a project patch; of its optional
    fields the resources set the traffic filters only. *)
Record PatchProjectRequest :=
  { Patch_TrafficFilters : option OptionalTrafficFilters }.

Record TrafficFilterRule :=
  { Source : string; Rule_Description : option string }.

(** Modelled from the spec: the filter entity as the server returns it
    (id, name, region, kind, optional description, default-inclusion
    flag, rules). *)
Record TrafficFilterInfo :=
  { Info_Id : string;
    Info_Name : string;
    Info_Region : string;
    Info_Type : string;
    Info_IncludeByDefault : bool;
    Info_Description : option string;
    Info_Rules : list TrafficFilterRule }.

(** What a client method returns: the pair [(resp, err)], a response when
    [err == nil] and the error's text otherwise. *)
Inductive Result (A : Type) :=
| Ok (resp : A)
| Err (err : string).
Arguments Ok {A} _.
Arguments Err {A} _.

(** The server side of [ClientWithResponsesInterface]: what each
    operation answers to its arguments. A lifecycle operation calls each
    client method at most once, so an answer per call is all it can
    observe of the server. *)
Record Transport :=
  { getElasticsearchProject : string -> Result (Response Project);
    getObservabilityProject : string -> Result (Response Project);
    getSecurityProject : string -> Result (Response Project);
    patchElasticsearchProject :
      string -> PatchProjectRequest -> Result (Response Project);
    patchObservabilityProject :
      string -> PatchProjectRequest -> Result (Response Project);
    patchSecurityProject :
      string -> PatchProjectRequest -> Result (Response Project);
    getTrafficFilter : string -> Result (Response TrafficFilterInfo);
    deleteTrafficFilter : string -> Result (Response unit) }.

(** The transport events, one per client method. *)
Inductive Call :=
| GetElasticsearchProject (projectID : string)
| GetObservabilityProject (projectID : string)
| GetSecurityProject (projectID : string)
| PatchElasticsearchProject (projectID : string) (body : PatchProjectRequest)
| PatchObservabilityProject (projectID : string) (body : PatchProjectRequest)
| PatchSecurityProject (projectID : string) (body : PatchProjectRequest)
| GetTrafficFilter (id : string)
| DeleteTrafficFilter (id : string).

Definition ClientWithResponsesInterface := Transport.

Definition Op := op.Op Call.

Definition GetElasticsearchProjectWithResponse
    (c : ClientWithResponsesInterface) (projectID : string)
  : Op (Result (Response Project)) :=
  op.emit (GetElasticsearchProject projectID) (getElasticsearchProject c projectID).

Definition GetObservabilityProjectWithResponse
    (c : ClientWithResponsesInterface) (projectID : string)
  : Op (Result (Response Project)) :=
  op.emit (GetObservabilityProject projectID) (getObservabilityProject c projectID).

Definition GetSecurityProjectWithResponse
    (c : ClientWithResponsesInterface) (projectID : string)
  : Op (Result (Response Project)) :=
  op.emit (GetSecurityProject projectID) (getSecurityProject c projectID).

Definition PatchElasticsearchProjectWithResponse
    (c : ClientWithResponsesInterface) (projectID : string)
    (body : PatchProjectRequest)
  : Op (Result (Response Project)) :=
  op.emit (PatchElasticsearchProject projectID body)
          (patchElasticsearchProject c projectID body).

Definition PatchObservabilityProjectWithResponse
    (c : ClientWithResponsesInterface) (projectID : string)
    (body : PatchProjectRequest)
  : Op (Result (Response Project)) :=
  op.emit (PatchObservabilityProject projectID body)
          (patchObservabilityProject c projectID body).

Definition PatchSecurityProjectWithResponse
    (c : ClientWithResponsesInterface) (projectID : string)
    (body : PatchProjectRequest)
  : Op (Result (Response Project)) :=
  op.emit (PatchSecurityProject projectID body)
          (patchSecurityProject c projectID body).

Definition GetTrafficFilterWithResponse
    (c : ClientWithResponsesInterface) (id : string)
  : Op (Result (Response TrafficFilterInfo)) :=
  op.emit (GetTrafficFilter id) (getTrafficFilter c id).

Definition DeleteTrafficFilterWithResponse
    (c : ClientWithResponsesInterface) (id : string)
  : Op (Result (Response unit)) :=
  op.emit (DeleteTrafficFilter id) (deleteTrafficFilter c id).

End serverless.


(** ** The association resource
    ([ec/ecresource/serverlesstrafficfilterassocresource]) *)

Module serverlesstrafficfilterassocresource.

(** [modelV0] of [schema.go]; the attribute names are its [tfsdk] tags. *)
Record modelV0 :=
  { ID : types.String;
    ProjectID : types.String;
    ProjectType : types.String;
    TrafficFilterID : types.String }.

(** [var model modelV0] *)
Definition modelV0_zero : modelV0 :=
  {| ID := types.StringNull;
     ProjectID := types.StringNull;
     ProjectType := types.StringNull;
     TrafficFilterID := types.StringNull |}.

(** [model.ID = v] *)
Definition set_ID (model : modelV0) (v : types.String) : modelV0 :=
  {| ID := v;
     ProjectID := ProjectID model;
     ProjectType := ProjectType model;
     TrafficFilterID := TrafficFilterID model |}.

(** [State.SetAttribute(ctx, path.Root(name), val)] on a state of this
    resource: the string attribute [name] of the schema takes the value
    [val], the other attributes keep theirs (null in a null state). A
    name outside the schema is reported as an error. *)
Definition SetAttribute (s : tfsdk.State modelV0) (name : string) (val : string)
  : tfsdk.State modelV0 * diag.Diagnostics :=
  let m := match s with Some m => m | None => modelV0_zero end in
  if String.eqb name "id" then
    (Some (set_ID m (types.StringValue val)), [])
  else if String.eqb name "project_id" then
    (Some {| ID := ID m; ProjectID := types.StringValue val;
             ProjectType := ProjectType m;
             TrafficFilterID := TrafficFilterID m |}, [])
  else if String.eqb name "project_type" then
    (Some {| ID := ID m; ProjectID := ProjectID m;
             ProjectType := types.StringValue val;
             TrafficFilterID := TrafficFilterID m |}, [])
  else if String.eqb name "traffic_filter_id" then
    (Some {| ID := ID m; ProjectID := ProjectID m;
             ProjectType := ProjectType m;
             TrafficFilterID := types.StringValue val |}, [])
  else
    (s, [diag.NewErrorDiagnostic "State Write Error"
           ("no attribute " ++ name ++ " in the schema")]).

(** [resp.Diagnostics.Append(resp.State.SetAttribute(ctx, path.Root(name), val)...)] *)
Definition SetStateAttribute (resp : resource.Response modelV0)
    (name val : string) : resource.Response modelV0 :=
  let '(st, diags) := SetAttribute (resource.State resp) name val in
  resource.AppendDiagnostics
    {| resource.State := st;
       resource.Diagnostics := resource.Diagnostics resp |} diags.

Record Resource :=
  { client : option serverless.ClientWithResponsesInterface }.

Definition resourceReady (r : Resource) (dg : diag.Diagnostics)
  : bool * diag.Diagnostics :=
  match client r with
  | None =>
      (false,
       diag.AddError dg "Unconfigured API Client"
         "Expected configured API client. Please report this issue to the provider developers.")
  | Some _ => (true, dg)
  end.

(** getProjectTrafficFilters retrieves the current traffic filters for a
    project. *)
Definition getProjectTrafficFilters (r : Resource)
    (projectID projectType : string)
  : serverless.Op (list serverless.TrafficFilter * diag.Diagnostics) :=
  let diags : diag.Diagnostics := [] in
  if String.eqb projectType "elasticsearch" then
    c <- op.deref (client r) ;;
    res <- serverless.GetElasticsearchProjectWithResponse c projectID ;;
    match res with
    | serverless.Err err =>
        op.ret ([], diag.AddError diags "Failed to read project" err)
    | serverless.Ok resp =>
        if match serverless.HTTPResponse resp with
           | Some h => Z.eqb (http.StatusCode h) http.StatusNotFound
           | None => false
           end
        then
          op.ret ([], diag.AddError diags "Project not found"
                        ("Elasticsearch project " ++ projectID ++ " not found"))
        else
          match serverless.JSON200 resp with
          | None =>
              op.ret ([], diag.AddError diags "Failed to read project"
                            (fmt.Sprintf_request_failed
                               (serverless.StatusCode resp)
                               (serverless.Status resp)
                               (serverless.Body resp)))
          | Some project =>
              match serverless.Project_TrafficFilters project with
              | None => op.ret ([], [])
              | Some filters => op.ret (filters, [])
              end
          end
    end
  else if String.eqb projectType "observability" then
    c <- op.deref (client r) ;;
    res <- serverless.GetObservabilityProjectWithResponse c projectID ;;
    match res with
    | serverless.Err err =>
        op.ret ([], diag.AddError diags "Failed to read project" err)
    | serverless.Ok resp =>
        if match serverless.HTTPResponse resp with
           | Some h => Z.eqb (http.StatusCode h) http.StatusNotFound
           | None => false
           end
        then
          op.ret ([], diag.AddError diags "Project not found"
                        ("Observability project " ++ projectID ++ " not found"))
        else
          match serverless.JSON200 resp with
          | None =>
              op.ret ([], diag.AddError diags "Failed to read project"
                            (fmt.Sprintf_request_failed
                               (serverless.StatusCode resp)
                               (serverless.Status resp)
                               (serverless.Body resp)))
          | Some project =>
              match serverless.Project_TrafficFilters project with
              | None => op.ret ([], [])
              | Some filters => op.ret (filters, [])
              end
          end
    end
  else if String.eqb projectType "security" then
    c <- op.deref (client r) ;;
    res <- serverless.GetSecurityProjectWithResponse c projectID ;;
    match res with
    | serverless.Err err =>
        op.ret ([], diag.AddError diags "Failed to read project" err)
    | serverless.Ok resp =>
        if match serverless.HTTPResponse resp with
           | Some h => Z.eqb (http.StatusCode h) http.StatusNotFound
           | None => false
           end
        then
          op.ret ([], diag.AddError diags "Project not found"
                        ("Security project " ++ projectID ++ " not found"))
        else
          match serverless.JSON200 resp with
          | None =>
              op.ret ([], diag.AddError diags "Failed to read project"
                            (fmt.Sprintf_request_failed
                               (serverless.StatusCode resp)
                               (serverless.Status resp)
                               (serverless.Body resp)))
          | Some project =>
              match serverless.Project_TrafficFilters project with
              | None => op.ret ([], [])
              | Some filters => op.ret (filters, [])
              end
          end
    end
  else
    op.ret ([], diag.AddError diags "Invalid project type"
                  ("Unknown project type: " ++ projectType)).

(** patchProjectTrafficFilters updates the traffic filters for a
    project. *)
Definition patchProjectTrafficFilters (r : Resource)
    (projectID projectType : string)
    (filters : list serverless.TrafficFilter)
  : serverless.Op diag.Diagnostics :=
  let diags : diag.Diagnostics := [] in
  let trafficFilters : serverless.OptionalTrafficFilters := filters in
  if String.eqb projectType "elasticsearch" then
    let patchReq :=
      {| serverless.Patch_TrafficFilters := Some trafficFilters |} in
    c <- op.deref (client r) ;;
    res <- serverless.PatchElasticsearchProjectWithResponse c projectID patchReq ;;
    match res with
    | serverless.Err err =>
        op.ret (diag.AddError diags "Failed to update project" err)
    | serverless.Ok resp =>
        match serverless.JSON200 resp with
        | None =>
            op.ret (diag.AddError diags "Failed to update project"
                      (fmt.Sprintf_request_failed
                         (serverless.StatusCode resp)
                         (serverless.Status resp)
                         (serverless.Body resp)))
        | Some _ => op.ret diags
        end
    end
  else if String.eqb projectType "observability" then
    let patchReq :=
      {| serverless.Patch_TrafficFilters := Some trafficFilters |} in
    c <- op.deref (client r) ;;
    res <- serverless.PatchObservabilityProjectWithResponse c projectID patchReq ;;
    match res with
    | serverless.Err err =>
        op.ret (diag.AddError diags "Failed to update project" err)
    | serverless.Ok resp =>
        match serverless.JSON200 resp with
        | None =>
            op.ret (diag.AddError diags "Failed to update project"
                      (fmt.Sprintf_request_failed
                         (serverless.StatusCode resp)
                         (serverless.Status resp)
                         (serverless.Body resp)))
        | Some _ => op.ret diags
        end
    end
  else if String.eqb projectType "security" then
    let patchReq :=
      {| serverless.Patch_TrafficFilters := Some trafficFilters |} in
    c <- op.deref (client r) ;;
    res <- serverless.PatchSecurityProjectWithResponse c projectID patchReq ;;
    match res with
    | serverless.Err err =>
        op.ret (diag.AddError diags "Failed to update project" err)
    | serverless.Ok resp =>
        match serverless.JSON200 resp with
        | None =>
            op.ret (diag.AddError diags "Failed to update project"
                      (fmt.Sprintf_request_failed
                         (serverless.StatusCode resp)
                         (serverless.Status resp)
                         (serverless.Body resp)))
        | Some _ => op.ret diags
        end
    end
  else
    op.ret (diag.AddError diags "Invalid project type"
              ("Unknown project type: " ++ projectType)).

Definition Create (r : Resource) (req : resource.CreateRequest modelV0)
    (resp : resource.Response modelV0)
  : serverless.Op (resource.Response modelV0) :=
  let '(ready, dg) := resourceReady r (resource.Diagnostics resp) in
  let resp := {| resource.State := resource.State resp;
                 resource.Diagnostics := dg |} in
  if negb ready then op.ret resp else
  let '(model, diags) := tfsdk.Get modelV0_zero (resource.Plan req) in
  let resp := resource.AppendDiagnostics resp diags in
  if diag.HasError (resource.Diagnostics resp) then op.ret resp else
  let projectID := types.ValueString (ProjectID model) in
  let projectType := types.ValueString (ProjectType model) in
  let trafficFilterID := types.ValueString (TrafficFilterID model) in
  (* Get current traffic filters from the project *)
  '(currentFilters, diags) <- getProjectTrafficFilters r projectID projectType ;;
  let resp := resource.AppendDiagnostics resp diags in
  if diag.HasError (resource.Diagnostics resp) then op.ret resp else
  (* Check if filter is already associated *)
  if existsb (fun f => String.eqb (serverless.Id f) trafficFilterID)
       currentFilters
  then
    (* Already associated, just set state *)
    let model :=
      set_ID model
        (types.StringValue (fmt.Sprintf_s_dash_s projectID trafficFilterID)) in
    op.ret (resource.SetState resp model)
  else
    (* Add the new filter *)
    let newFilters :=
      currentFilters ++ [ {| serverless.Id := trafficFilterID |} ] in
    (* Patch the project with updated filters *)
    diags <- patchProjectTrafficFilters r projectID projectType newFilters ;;
    let resp := resource.AppendDiagnostics resp diags in
    if diag.HasError (resource.Diagnostics resp) then op.ret resp else
    let model :=
      set_ID model
        (types.StringValue (fmt.Sprintf_s_dash_s projectID trafficFilterID)) in
    op.ret (resource.SetState resp model).

Definition Read (r : Resource) (req : resource.StateRequest modelV0)
    (resp : resource.Response modelV0)
  : serverless.Op (resource.Response modelV0) :=
  let '(ready, dg) := resourceReady r (resource.Diagnostics resp) in
  let resp := {| resource.State := resource.State resp;
                 resource.Diagnostics := dg |} in
  if negb ready then op.ret resp else
  let '(model, diags) := tfsdk.Get modelV0_zero (resource.PriorState req) in
  let resp := resource.AppendDiagnostics resp diags in
  if diag.HasError (resource.Diagnostics resp) then op.ret resp else
  let projectID := types.ValueString (ProjectID model) in
  let projectType := types.ValueString (ProjectType model) in
  let trafficFilterID := types.ValueString (TrafficFilterID model) in
  (* Get current traffic filters from the project *)
  '(currentFilters, diags) <- getProjectTrafficFilters r projectID projectType ;;
  let resp := resource.AppendDiagnostics resp diags in
  if diag.HasError (resource.Diagnostics resp) then op.ret resp else
  (* Check if the association still exists *)
  let found :=
    existsb (fun f => String.eqb (serverless.Id f) trafficFilterID)
      currentFilters in
  if negb found then
    (* Association no longer exists *)
    op.ret (resource.RemoveResource resp)
  else
    op.ret (resource.SetState resp model).

Definition Update (r : Resource) (req : resource.StateRequest modelV0)
    (resp : resource.Response modelV0)
  : serverless.Op (resource.Response modelV0) :=
  (* All attributes require replacement, so Update should never be called *)
  op.ret (resource.AddError resp "Update not supported"
            "All attributes of this resource require replacement. This is a bug in the provider.").

Definition Delete (r : Resource) (req : resource.StateRequest modelV0)
    (resp : resource.Response modelV0)
  : serverless.Op (resource.Response modelV0) :=
  let '(ready, dg) := resourceReady r (resource.Diagnostics resp) in
  let resp := {| resource.State := resource.State resp;
                 resource.Diagnostics := dg |} in
  if negb ready then op.ret resp else
  let '(model, diags) := tfsdk.Get modelV0_zero (resource.PriorState req) in
  let resp := resource.AppendDiagnostics resp diags in
  if diag.HasError (resource.Diagnostics resp) then op.ret resp else
  let projectID := types.ValueString (ProjectID model) in
  let projectType := types.ValueString (ProjectType model) in
  let trafficFilterID := types.ValueString (TrafficFilterID model) in
  (* Get current traffic filters from the project *)
  '(currentFilters, diags) <- getProjectTrafficFilters r projectID projectType ;;
  let resp := resource.AppendDiagnostics resp diags in
  if diag.HasError (resource.Diagnostics resp) then op.ret resp else
  (* Remove the filter from the list *)
  let newFilters :=
    List.filter (fun f => negb (String.eqb (serverless.Id f) trafficFilterID))
      currentFilters in
  (* Patch the project with updated filters *)
  diags <- patchProjectTrafficFilters r projectID projectType newFilters ;;
  op.ret (resource.AppendDiagnostics resp diags).

Definition ImportState (r : Resource) (req : resource.ImportStateRequest)
    (resp : resource.Response modelV0)
  : serverless.Op (resource.Response modelV0) :=
  (* Expected format: project_id,project_type,traffic_filter_id *)
  let parts := strings.Split (resource.ID req) "," in
  if negb (Nat.eqb (length parts) 3) then
    op.ret (resource.AddError resp "Invalid import ID"
              ("Expected format: project_id,project_type,traffic_filter_id. Got: "
                 ++ resource.ID req))
  else
  let projectID := nth 0 parts "" in
  let projectType := nth 1 parts "" in
  let trafficFilterID := nth 2 parts "" in
  (* Validate project type *)
  if negb (String.eqb projectType "elasticsearch")
     && negb (String.eqb projectType "observability")
     && negb (String.eqb projectType "security")
  then
    op.ret (resource.AddError resp "Invalid project type"
              ("project_type must be one of: elasticsearch, observability, security. Got: "
                 ++ projectType))
  else
  let resp :=
    SetStateAttribute resp "id"
      (fmt.Sprintf_s_dash_s projectID trafficFilterID) in
  let resp := SetStateAttribute resp "project_id" projectID in
  let resp := SetStateAttribute resp "project_type" projectType in
  let resp := SetStateAttribute resp "traffic_filter_id" trafficFilterID in
  op.ret resp.

End serverlesstrafficfilterassocresource.


(** ** The filter entity resource
    ([ec/ecresource/serverlesstrafficfilterresource]) *)

Module serverlesstrafficfilterresource.

Record TrafficFilterRuleModel :=
  { Source : types.String; Rule_Description : types.String }.

Record TrafficFilterModel :=
  { ID : types.String;
    Name : types.String;
    Type_ : types.String;
    Region : types.String;
    Description : types.String;
    IncludeByDefault : types.Bool;
    Rules : list TrafficFilterRuleModel }.

(** [var model TrafficFilterModel], [TrafficFilterModel{}] *)
Definition TrafficFilterModel_zero : TrafficFilterModel :=
  {| ID := types.StringNull;
     Name := types.StringNull;
     Type_ := types.StringNull;
     Region := types.StringNull;
     Description := types.StringNull;
     IncludeByDefault := types.BoolNull;
     Rules := [] |}.

Definition stringValue (s : string) : types.String := types.StringValue s.

#[global] Instance String_eq_dec : EqDecision types.String.
Proof. solve_decision. Defined.

#[global] Instance TrafficFilterRuleModel_eq_dec :
  EqDecision TrafficFilterRuleModel.
Proof. solve_decision. Defined.

(** No two of the rules are equal. *)
Fixpoint distinct (rules : list TrafficFilterRuleModel) : bool :=
  match rules with
  | [] => true
  | rule :: rest =>
      negb (existsb (fun other => bool_decide (other = rule)) rest)
      && distinct rest
  end.

(** [State.Set(ctx, &model)] on the filter model. The [rule] block of the
    schema is a set, and the framework refuses a set value with two equal
    elements: "Duplicate Set Element" is reported (the detail stands for
    the framework's own) and the state is left as it was. *)
Definition State_Set (s : tfsdk.State TrafficFilterModel)
    (m : TrafficFilterModel)
  : tfsdk.State TrafficFilterModel * diag.Diagnostics :=
  if distinct (Rules m) then (Some m, [])
  else (s, [diag.NewErrorDiagnostic "Duplicate Set Element"
              "This attribute contains duplicate values"]).

(** [resp.Diagnostics.Append(resp.State.Set(ctx, &model)...)] *)
Definition SetState (resp : resource.Response TrafficFilterModel)
    (model : TrafficFilterModel) : resource.Response TrafficFilterModel :=
  let '(st, diags) := State_Set (resource.State resp) model in
  resource.AppendDiagnostics
    {| resource.State := st;
       resource.Diagnostics := resource.Diagnostics resp |} diags.

Definition boolValue (b : bool) : types.Bool := types.BoolValue b.

Record Resource :=
  { client : option serverless.ClientWithResponsesInterface }.

Definition modelFromResponse (info : serverless.TrafficFilterInfo)
  : TrafficFilterModel :=
  {| ID := stringValue (serverless.Info_Id info);
     Name := stringValue (serverless.Info_Name info);
     Region := stringValue (serverless.Info_Region info);
     Type_ := stringValue (serverless.Info_Type info);
     IncludeByDefault := boolValue (serverless.Info_IncludeByDefault info);
     Description :=
       match serverless.Info_Description info with
       | Some desc =>
           if negb (String.eqb desc "") then stringValue desc
           else types.StringNull
       | None => types.StringNull
       end;
     Rules :=
       if Nat.ltb 0 (length (serverless.Info_Rules info)) then
         map (fun rule =>
                {| Source := stringValue (serverless.Source rule);
                   Rule_Description :=
                     match serverless.Rule_Description rule with
                     | Some desc =>
                         if negb (String.eqb desc "") then stringValue desc
                         else types.StringNull
                     | None => types.StringNull
                     end |})
             (serverless.Info_Rules info)
       else [] |}.

Definition Read (r : Resource) (req : resource.StateRequest TrafficFilterModel)
    (resp : resource.Response TrafficFilterModel)
  : serverless.Op (resource.Response TrafficFilterModel) :=
  let '(model, diags) :=
    tfsdk.Get TrafficFilterModel_zero (resource.PriorState req) in
  let resp := resource.AppendDiagnostics resp diags in
  if diag.HasError (resource.Diagnostics resp) then op.ret resp else
  c <- op.deref (client r) ;;
  res <- serverless.GetTrafficFilterWithResponse c (types.ValueString (ID model)) ;;
  match res with
  | serverless.Err err =>
      op.ret (resource.AddError resp "Failed to read traffic filter" err)
  | serverless.Ok readResp =>
      if match serverless.HTTPResponse readResp with
         | Some h => Z.eqb (http.StatusCode h) http.StatusNotFound
         | None => false
         end
      then op.ret (resource.RemoveResource resp)
      else
        match serverless.JSON200 readResp with
        | None =>
            op.ret (resource.AddError resp "Failed to read traffic filter"
                      (fmt.Sprintf_request_failed
                         (serverless.StatusCode readResp)
                         (serverless.Status readResp)
                         (serverless.Body readResp)))
        | Some info =>
            let model := modelFromResponse info in
            op.ret (SetState resp model)
        end
  end.

Definition Delete (r : Resource) (req : resource.StateRequest TrafficFilterModel)
    (resp : resource.Response TrafficFilterModel)
  : serverless.Op (resource.Response TrafficFilterModel) :=
  let '(model, diags) :=
    tfsdk.Get TrafficFilterModel_zero (resource.PriorState req) in
  let resp := resource.AppendDiagnostics resp diags in
  if diag.HasError (resource.Diagnostics resp) then op.ret resp else
  c <- op.deref (client r) ;;
  res <- serverless.DeleteTrafficFilterWithResponse c (types.ValueString (ID model)) ;;
  match res with
  | serverless.Err err =>
      op.ret (resource.AddError resp "Failed to delete traffic filter" err)
  | serverless.Ok deleteResp =>
      let statusCode := serverless.StatusCode deleteResp in
      if negb (Z.eqb statusCode http.StatusOK)
         && negb (Z.eqb statusCode http.StatusNoContent)
         && negb (Z.eqb statusCode http.StatusNotFound)
      then
        op.ret (resource.AddError resp "Failed to delete traffic filter"
                  (fmt.Sprintf_request_failed
                     (serverless.StatusCode deleteResp)
                     (serverless.Status deleteResp)
                     (serverless.Body deleteResp)))
      else op.ret resp
  end.

End serverlesstrafficfilterresource.

Module Assoc := serverlesstrafficfilterassocresource.
Module Filter := serverlesstrafficfilterresource.


(** ** Kind dispatch as the specification words it

    "One polymorphic operation over a capability set {GetMembership,
    PatchMembership} with three concrete implementations selected by
    projectKind": a tagged variant over the three kinds, the transport
    operation each kind selects, and one copy of the control flow that
    the three branches of the source repeat. *)

Module Dispatch.

Inductive Kind := Elasticsearch | Observability | Security.

(** The value of [project_type] that selects the kind. *)
Definition name (k : Kind) : string :=
  match k with
  | Elasticsearch => "elasticsearch"
  | Observability => "observability"
  | Security => "security"
  end.

(** The kind as the "Project not found" message spells it. *)
Definition title (k : Kind) : string :=
  match k with
  | Elasticsearch => "Elasticsearch"
  | Observability => "Observability"
  | Security => "Security"
  end.

Definition of_string (projectType : string) : option Kind :=
  if String.eqb projectType "elasticsearch" then Some Elasticsearch
  else if String.eqb projectType "observability" then Some Observability
  else if String.eqb projectType "security" then Some Security
  else None.

(** The transport operation a kind selects, as event and as answer. *)
Definition GetCall (k : Kind) (projectID : string) : serverless.Call :=
  match k with
  | Elasticsearch => serverless.GetElasticsearchProject projectID
  | Observability => serverless.GetObservabilityProject projectID
  | Security => serverless.GetSecurityProject projectID
  end.

Definition PatchCall (k : Kind) (projectID : string)
    (body : serverless.PatchProjectRequest) : serverless.Call :=
  match k with
  | Elasticsearch => serverless.PatchElasticsearchProject projectID body
  | Observability => serverless.PatchObservabilityProject projectID body
  | Security => serverless.PatchSecurityProject projectID body
  end.

Definition get_answer (k : Kind) (c : serverless.Transport) (projectID : string)
  : serverless.Result (serverless.Response serverless.Project) :=
  match k with
  | Elasticsearch => serverless.getElasticsearchProject c projectID
  | Observability => serverless.getObservabilityProject c projectID
  | Security => serverless.getSecurityProject c projectID
  end.

Definition patch_answer (k : Kind) (c : serverless.Transport)
    (projectID : string) (body : serverless.PatchProjectRequest)
  : serverless.Result (serverless.Response serverless.Project) :=
  match k with
  | Elasticsearch => serverless.patchElasticsearchProject c projectID body
  | Observability => serverless.patchObservabilityProject c projectID body
  | Security => serverless.patchSecurityProject c projectID body
  end.

Definition is_not_found {T} (resp : serverless.Response T) : bool :=
  match serverless.HTTPResponse resp with
  | Some h => Z.eqb (http.StatusCode h) http.StatusNotFound
  | None => false
  end.

(** What a membership read makes of the transport's answer; [kindTitle]
    is used in the text of the 404 diagnostic and nowhere else. *)
Definition read_outcome (kindTitle projectID : string)
    (res : serverless.Result (serverless.Response serverless.Project))
  : list serverless.TrafficFilter * diag.Diagnostics :=
  match res with
  | serverless.Err err => ([], diag.AddError [] "Failed to read project" err)
  | serverless.Ok resp =>
      if is_not_found resp then
        ([], diag.AddError [] "Project not found"
               (kindTitle ++ " project " ++ projectID ++ " not found"))
      else
        match serverless.JSON200 resp with
        | None =>
            ([], diag.AddError [] "Failed to read project"
                   (fmt.Sprintf_request_failed
                      (serverless.StatusCode resp)
                      (serverless.Status resp)
                      (serverless.Body resp)))
        | Some project =>
            match serverless.Project_TrafficFilters project with
            | None => ([], [])
            | Some filters => (filters, [])
            end
        end
  end.

(** What a membership patch makes of the transport's answer. *)
Definition patch_outcome
    (res : serverless.Result (serverless.Response serverless.Project))
  : diag.Diagnostics :=
  match res with
  | serverless.Err err => diag.AddError [] "Failed to update project" err
  | serverless.Ok resp =>
      match serverless.JSON200 resp with
      | None =>
          diag.AddError [] "Failed to update project"
            (fmt.Sprintf_request_failed
               (serverless.StatusCode resp)
               (serverless.Status resp)
               (serverless.Body resp))
      | Some _ => []
      end
  end.

Definition GetMembership (client : option serverless.ClientWithResponsesInterface)
    (k : Kind) (projectID : string)
  : serverless.Op (list serverless.TrafficFilter * diag.Diagnostics) :=
  c <- op.deref client ;;
  res <- op.emit (GetCall k projectID) (get_answer k c projectID) ;;
  op.ret (read_outcome (title k) projectID res).

Definition PatchMembership (client : option serverless.ClientWithResponsesInterface)
    (k : Kind) (projectID : string) (filters : list serverless.TrafficFilter)
  : serverless.Op diag.Diagnostics :=
  let body := {| serverless.Patch_TrafficFilters := Some filters |} in
  c <- op.deref client ;;
  res <- op.emit (PatchCall k projectID body) (patch_answer k c projectID body) ;;
  op.ret (patch_outcome res).

End Dispatch.

(** ** Observations on traces and memberships *)

(** The membership write a transport event carries, if it is one. *)
Definition patch_of (e : serverless.Call)
  : option (string * serverless.PatchProjectRequest) :=
  match e with
  | serverless.PatchElasticsearchProject p body
  | serverless.PatchObservabilityProject p body
  | serverless.PatchSecurityProject p body => Some (p, body)
  | _ => None
  end.

(** The membership writes of a trace, in order. *)
Definition patches (tr : list serverless.Call)
  : list (string * serverless.PatchProjectRequest) :=
  omap patch_of tr.

(** The filter ids of a membership list, and the set they form. *)
Definition ids (l : list serverless.TrafficFilter) : list string :=
  map serverless.Id l.

Definition members (l : list serverless.TrafficFilter) : gset string :=
  list_to_set (ids l).

(** The three recognized project types. *)
Definition recognized (projectType : string) : Prop :=
  projectType = "elasticsearch" \/ projectType = "observability"
  \/ projectType = "security".

(** No comma occurs in [s]. *)
Fixpoint comma_free (s : string) : bool :=
  match s with
  | EmptyString => true
  | String c rest => negb (Ascii.eqb c ",") && comma_free rest
  end.

(** The number of commas of [s]. *)
Fixpoint commas (s : string) : nat :=
  match s with
  | EmptyString => 0
  | String c rest => (if Ascii.eqb c "," then 1 else 0) + commas rest
  end.

(** The components written one after the other with a comma between
    neighbours. *)
Fixpoint join (parts : list string) : string :=
  match parts with
  | [] => ""
  | [part] => part
  | part :: rest => part ++ "," ++ join rest
  end.

(** The tracked attributes of an association given by its three
    components. *)
Definition imported (projectID projectType filterID : string) : Assoc.modelV0 :=
  {| Assoc.ID := types.StringValue (projectID ++ "-" ++ filterID);
     Assoc.ProjectID := types.StringValue projectID;
     Assoc.ProjectType := types.StringValue projectType;
     Assoc.TrafficFilterID := types.StringValue filterID |}.

(** ** Fixtures: canned transports, in the manner of the mock client of
    [resource_test.go] *)

Module Fixture.

Definition project (filters : option serverless.TrafficFilters)
  : serverless.Project :=
  {| serverless.Project_Id := "proj1";
     serverless.Project_Name := "test-project";
     serverless.Project_TrafficFilters := filters |}.

Definition ok200 (filters : option serverless.TrafficFilters)
  : serverless.Result (serverless.Response serverless.Project) :=
  serverless.Ok
    {| serverless.Body := "";
       serverless.HTTPResponse :=
         Some {| http.StatusCode := 200; http.Status := "200 OK" |};
       serverless.JSON200 := Some (project filters) |}.

(** A response without decoded payload. *)
Definition response {T} (code : Z) (line body : string)
  : serverless.Response T :=
  {| serverless.Body := body;
     serverless.HTTPResponse :=
       Some {| http.StatusCode := code; http.Status := line |};
     serverless.JSON200 := None |}.

Definition status {T} (code : Z) (line body : string)
  : serverless.Result (serverless.Response T) :=
  serverless.Ok (response code line body).

(** A transport that gives the same answer to the three kinds. *)
Definition transport
    (get patch : serverless.Result (serverless.Response serverless.Project))
    (getFilter : serverless.Result (serverless.Response serverless.TrafficFilterInfo))
    (deleteFilter : serverless.Result (serverless.Response unit))
  : serverless.Transport :=
  {| serverless.getElasticsearchProject := fun _ => get;
     serverless.getObservabilityProject := fun _ => get;
     serverless.getSecurityProject := fun _ => get;
     serverless.patchElasticsearchProject := fun _ _ => patch;
     serverless.patchObservabilityProject := fun _ _ => patch;
     serverless.patchSecurityProject := fun _ _ => patch;
     serverless.getTrafficFilter := fun _ => getFilter;
     serverless.deleteTrafficFilter := fun _ => deleteFilter |}.

(** A project transport: the filter entity operations fail. *)
Definition projects
    (get patch : serverless.Result (serverless.Response serverless.Project))
  : Assoc.Resource :=
  {| Assoc.client :=
       Some (transport get patch (serverless.Err "unused") (serverless.Err "unused")) |}.

(** A filter transport: the project operations fail. *)
Definition filters
    (getFilter : serverless.Result (serverless.Response serverless.TrafficFilterInfo))
    (deleteFilter : serverless.Result (serverless.Response unit))
  : Filter.Resource :=
  {| Filter.client :=
       Some (transport (serverless.Err "unused") (serverless.Err "unused")
               getFilter deleteFilter) |}.

Definition association (projectID projectType filterID : string)
  : Assoc.modelV0 :=
  {| Assoc.ID := types.StringUnknown;
     Assoc.ProjectID := types.StringValue projectID;
     Assoc.ProjectType := types.StringValue projectType;
     Assoc.TrafficFilterID := types.StringValue filterID |}.

Definition tf (id : string) : serverless.TrafficFilter :=
  {| serverless.Id := id |}.

(** A tracked filter entity. *)
Definition office : Filter.TrafficFilterModel :=
  Filter.modelFromResponse
    {| serverless.Info_Id := "filt1";
       serverless.Info_Name := "office";
       serverless.Info_Region := "aws-us-east-1";
       serverless.Info_Type := "ip";
       serverless.Info_IncludeByDefault := false;
       serverless.Info_Description := None;
       serverless.Info_Rules :=
         [ {| serverless.Source := "192.0.2.0/24";
              serverless.Rule_Description := None |} ] |}.

(** The response a lifecycle operation starts from. *)
Definition fresh {M} (st : tfsdk.State M) : resource.Response M :=
  {| resource.State := st; resource.Diagnostics := [] |}.

End Fixture.

(** ** Further framework values (package [basetypes], the home of the
    [types] values) *)

Module basetypes.

(** [ValueStringPointer]: nil for a null value, otherwise a pointer to
    the value (the empty string for an unknown value). *)
Definition ValueStringPointer (v : types.String) : option string :=
  match v with
  | types.StringNull => None
  | types.StringUnknown => Some ""
  | types.StringValue s => Some s
  end.

(** [ValueBoolPointer]: nil for a null value, otherwise a pointer to the
    value (false for an unknown value). *)
Definition ValueBoolPointer (v : types.Bool) : option bool :=
  match v with
  | types.BoolNull => None
  | types.BoolUnknown => Some false
  | types.BoolValue b => Some b
  end.

(** [types.Set] with string elements: null, unknown, or the elements. *)
Inductive SetValue :=
| SetNull
| SetUnknown
| SetKnown (elements : list types.String).

Definition IsNull (s : SetValue) : bool :=
  match s with SetNull => true | _ => false end.

Definition IsUnknown (s : SetValue) : bool :=
  match s with SetUnknown => true | _ => false end.

(** Decoding one element into a Go [string]: a null or unknown element
    cannot be held by a [string]. *)
Definition element_as_string (v : types.String) : option string :=
  match v with
  | types.StringValue s => Some s
  | _ => None
  end.

(** [ElementsAs(ctx, &ids, false)] into a [[]string]: the values of the
    elements in order; with an element that is null or unknown the
    target stays nil and a conversion error is reported (its text stands
    for the framework's own). *)
Definition ElementsAs (s : SetValue) : list string * diag.Diagnostics :=
  match s with
  | SetKnown elements =>
      match mapM element_as_string elements with
      | Some ids => (ids, [])
      | None => ([], [diag.NewErrorDiagnostic "Value Conversion Error"
                        "unhandled null or unknown element"])
      end
  | _ => ([], [diag.NewErrorDiagnostic "Value Conversion Error"
                 "unhandled null or unknown set"])
  end.

(** No two of the ids are equal. *)
Fixpoint distinct (ids : list string) : bool :=
  match ids with
  | [] => true
  | id :: rest => negb (existsb (String.eqb id) rest) && distinct rest
  end.

(** [types.SetValueFrom(ctx, types.StringType, ids)]: the set of the
    known strings, in the order given. Ids that repeat are refused:
    "Duplicate Set Element" is reported (the detail stands for the
    framework's own) and the set returned is unknown. *)
Definition SetValueFrom (ids : list string) : SetValue * diag.Diagnostics :=
  if distinct ids then (SetKnown (map types.StringValue ids), [])
  else (SetUnknown,
        [diag.NewErrorDiagnostic "Duplicate Set Element"
           "This attribute contains duplicate values"]).

End basetypes.

(** ** Inline filter sets of the project resource
    ([ec/ecresource/projectresource/traffic_filters.go]) *)

Module projectresource.

(** trafficFiltersFromModel converts a Terraform Set of traffic filter
    IDs to the API format. *)
Definition trafficFiltersFromModel (tfSet : basetypes.SetValue)
  : option serverless.TrafficFilters * diag.Diagnostics :=
  if basetypes.IsNull tfSet || basetypes.IsUnknown tfSet then (None, [])
  else
    let '(ids, diags) := basetypes.ElementsAs tfSet in
    if diag.HasError diags then (None, diags)
    else if Nat.eqb (length ids) 0 then (None, [])
    else
      (Some (map (fun id => {| serverless.Id := id |}) ids), []).

(** trafficFiltersToModel converts API traffic filters to a Terraform Set
    of strings. *)
Definition trafficFiltersToModel (filters : option serverless.TrafficFilters)
  : basetypes.SetValue * diag.Diagnostics :=
  match filters with
  | None => (basetypes.SetNull, [])
  | Some l =>
      if Nat.eqb (length l) 0 then (basetypes.SetNull, [])
      else basetypes.SetValueFrom (map serverless.Id l)
  end.

End projectresource.

(** ** The validator of [project_type] in the association's schema
    ([serverlesstrafficfilterassocresource/schema.go]) *)

Module stringvalidator.

(** [stringvalidator.OneOf(values...)] on a configured value: a null or
    unknown value is not checked; a known value passes when it equals
    one of [values]. *)
Definition OneOf (values : list string) (v : types.String) : bool :=
  match v with
  | types.StringValue s => existsb (String.eqb s) values
  | _ => true
  end.

End stringvalidator.

(** The [Validators] of the attribute [project_type]. *)
Definition project_type_validator : types.String -> bool :=
  stringvalidator.OneOf ["elasticsearch"; "observability"; "security"].

(** ** Create and Update of the filter entity resource

    The two client methods they call, [CreateTrafficFilterWithResponse]
    and [PatchTrafficFilterWithResponse], with their request and
    response types and their transport events. *)

Module serverlesstrafficfilterresource_writes.

(** Modelled from the spec: the body of a filter creation, "id
    (server-assigned)", name, region, kind, optional description,
    optional default-inclusion flag, optional rules. *)
Record CreateTrafficFilterRequest :=
  { Create_Name : string;
    Create_Region : string;
    Create_Type : string;
    Create_Description : option string;
    Create_IncludeByDefault : option bool;
    Create_Rules : option (list serverless.TrafficFilterRule) }.

(** Modelled from the spec: the body of a filter patch, "updatable (name,
    description, include-by-default, rule set) without replacement". *)
Record PatchTrafficFilterRequest :=
  { Patch_Name : option string;
    Patch_Description : option string;
    Patch_IncludeByDefault : option bool;
    Patch_Rules : option (list serverless.TrafficFilterRule) }.

(** Modelled from the spec: the response of a creation, whose decoded
    success payload is that of status 201. *)
Record CreateTrafficFilterResponse :=
  { Body : string;
    HTTPResponse : option http.Response;
    JSON201 : option serverless.TrafficFilterInfo }.

(** Modelled from the spec: the status code of a creation response, 0
    when there is no raw HTTP response. *)
Definition StatusCode (r : CreateTrafficFilterResponse) : Z :=
  match HTTPResponse r with
  | Some h => http.StatusCode h
  | None => 0%Z
  end.

(** Modelled from the spec: its status line, the text of status 0 when
    there is no raw HTTP response. *)
Definition Status (r : CreateTrafficFilterResponse) : string :=
  match HTTPResponse r with
  | Some h => http.Status h
  | None => http.StatusText0
  end.

(** The server side of the two methods. *)
Record ClientWithResponsesInterface :=
  { createTrafficFilter :
      CreateTrafficFilterRequest
      -> serverless.Result CreateTrafficFilterResponse;
    patchTrafficFilter :
      string -> PatchTrafficFilterRequest
      -> serverless.Result (serverless.Response serverless.TrafficFilterInfo) }.

Inductive Call :=
| CreateTrafficFilter (body : CreateTrafficFilterRequest)
| PatchTrafficFilter (id : string) (body : PatchTrafficFilterRequest).

Definition Op := op.Op Call.

Definition CreateTrafficFilterWithResponse
    (c : ClientWithResponsesInterface) (body : CreateTrafficFilterRequest)
  : Op (serverless.Result CreateTrafficFilterResponse) :=
  op.emit (CreateTrafficFilter body) (createTrafficFilter c body).

Definition PatchTrafficFilterWithResponse
    (c : ClientWithResponsesInterface) (id : string)
    (body : PatchTrafficFilterRequest)
  : Op (serverless.Result (serverless.Response serverless.TrafficFilterInfo)) :=
  op.emit (PatchTrafficFilter id body) (patchTrafficFilter c id body).

Record Resource := { client : option ClientWithResponsesInterface }.

Definition Create (r : Resource)
    (req : resource.CreateRequest Filter.TrafficFilterModel)
    (resp : resource.Response Filter.TrafficFilterModel)
  : Op (resource.Response Filter.TrafficFilterModel) :=
  let '(model, diags) :=
    tfsdk.Get Filter.TrafficFilterModel_zero (resource.Plan req) in
  let resp := resource.AppendDiagnostics resp diags in
  if diag.HasError (resource.Diagnostics resp) then op.ret resp else
  let createReq :=
    {| Create_Name := types.ValueString (Filter.Name model);
       Create_Region := types.ValueString (Filter.Region model);
       Create_Type := types.ValueString (Filter.Type_ model);
       Create_Description :=
         basetypes.ValueStringPointer (Filter.Description model);
       Create_IncludeByDefault :=
         basetypes.ValueBoolPointer (Filter.IncludeByDefault model);
       Create_Rules :=
         if Nat.ltb 0 (length (Filter.Rules model)) then
           Some (map (fun rule =>
                        {| serverless.Source :=
                             types.ValueString (Filter.Source rule);
                           serverless.Rule_Description :=
                             basetypes.ValueStringPointer
                               (Filter.Rule_Description rule) |})
                     (Filter.Rules model))
         else None |} in
  c <- op.deref (client r) ;;
  res <- CreateTrafficFilterWithResponse c createReq ;;
  match res with
  | serverless.Err err =>
      op.ret (resource.AddError resp "Failed to create traffic filter" err)
  | serverless.Ok createResp =>
      match JSON201 createResp with
      | None =>
          op.ret (resource.AddError resp "Failed to create traffic filter"
                    (fmt.Sprintf_request_failed
                       (StatusCode createResp)
                       (Status createResp)
                       (Body createResp)))
      | Some info =>
          let model := Filter.modelFromResponse info in
          op.ret (Filter.SetState resp model)
      end
  end.

(** Update reads its request through the plan only ([req.Plan.Get]). *)
Definition Update (r : Resource)
    (req : resource.CreateRequest Filter.TrafficFilterModel)
    (resp : resource.Response Filter.TrafficFilterModel)
  : Op (resource.Response Filter.TrafficFilterModel) :=
  let '(model, diags) :=
    tfsdk.Get Filter.TrafficFilterModel_zero (resource.Plan req) in
  let resp := resource.AppendDiagnostics resp diags in
  if diag.HasError (resource.Diagnostics resp) then op.ret resp else
  let patchReq :=
    {| Patch_Name := basetypes.ValueStringPointer (Filter.Name model);
       Patch_Description :=
         basetypes.ValueStringPointer (Filter.Description model);
       Patch_IncludeByDefault :=
         basetypes.ValueBoolPointer (Filter.IncludeByDefault model);
       Patch_Rules :=
         if Nat.ltb 0 (length (Filter.Rules model)) then
           Some (map (fun rule =>
                        {| serverless.Source :=
                             types.ValueString (Filter.Source rule);
                           serverless.Rule_Description :=
                             basetypes.ValueStringPointer
                               (Filter.Rule_Description rule) |})
                     (Filter.Rules model))
         else None |} in
  c <- op.deref (client r) ;;
  res <- PatchTrafficFilterWithResponse c
           (types.ValueString (Filter.ID model)) patchReq ;;
  match res with
  | serverless.Err err =>
      op.ret (resource.AddError resp "Failed to update traffic filter" err)
  | serverless.Ok patchResp =>
      match serverless.JSON200 patchResp with
      | None =>
          op.ret (resource.AddError resp "Failed to update traffic filter"
                    (fmt.Sprintf_request_failed
                       (serverless.StatusCode patchResp)
                       (serverless.Status patchResp)
                       (serverless.Body patchResp)))
      | Some info =>
          let model := Filter.modelFromResponse info in
          op.ret (Filter.SetState resp model)
      end
  end.

End serverlesstrafficfilterresource_writes.

Module FilterW := serverlesstrafficfilterresource_writes.

(** ** A server that keeps what is written

    The membership list of one project as the provider's server holds it:
    a read answers with the list, a patch with a traffic-filters field
    replaces the list by the one sent. *)

Module Server.

(** The transport of a server whose project holds [S]; a patch is
    answered with the project as patched. The filter entity operations
    are not served. *)
Definition transport (S : list serverless.TrafficFilter)
  : serverless.Transport :=
  let get := fun _ : string => Fixture.ok200 (Some S) in
  let patch := fun (_ : string) (body : serverless.PatchProjectRequest) =>
    Fixture.ok200
      (Some (default S (serverless.Patch_TrafficFilters body))) in
  {| serverless.getElasticsearchProject := get;
     serverless.getObservabilityProject := get;
     serverless.getSecurityProject := get;
     serverless.patchElasticsearchProject := patch;
     serverless.patchObservabilityProject := patch;
     serverless.patchSecurityProject := patch;
     serverless.getTrafficFilter := fun _ => serverless.Err "not served";
     serverless.deleteTrafficFilter := fun _ => serverless.Err "not served" |}.

Definition resource (S : list serverless.TrafficFilter) : Assoc.Resource :=
  {| Assoc.client := Some (transport S) |}.

(** The list the server holds after the calls of a trace, from [S]. *)
Definition stored (S : list serverless.TrafficFilter)
    (tr : list serverless.Call) : list serverless.TrafficFilter :=
  fold_left
    (fun held e =>
       match patch_of e with
       | Some (_, body) => default held (serverless.Patch_TrafficFilters body)
       | None => held
       end)
    tr S.

(** The filter entity as a server returns it for a creation request: the
    fields of the request under the id the server assigns, the
    default-inclusion flag false and the rules empty when not sent. *)
Definition created (id : string) (body : FilterW.CreateTrafficFilterRequest)
  : serverless.TrafficFilterInfo :=
  {| serverless.Info_Id := id;
     serverless.Info_Name := FilterW.Create_Name body;
     serverless.Info_Region := FilterW.Create_Region body;
     serverless.Info_Type := FilterW.Create_Type body;
     serverless.Info_IncludeByDefault :=
       default false (FilterW.Create_IncludeByDefault body);
     serverless.Info_Description := FilterW.Create_Description body;
     serverless.Info_Rules := default [] (FilterW.Create_Rules body) |}.

End Server.

(** ** The calls of a lifecycle operation *)

(** The calls of a run of an association operation: none; the read; or
    the read and then the write, to the same project under the same
    kind. *)
Definition call_discipline (tr tr' : list serverless.Call) : Prop :=
  tr' = tr
  \/ (exists k projectID, tr' = tr ++ [Dispatch.GetCall k projectID])
  \/ (exists k projectID body,
        tr' = tr ++ [Dispatch.GetCall k projectID;
                     Dispatch.PatchCall k projectID body]).

(** ** A server for the filter entity *)

Module FilterServer.

(** The filter entity after a patch: the fields the patch sends replace
    those held, the others stay. *)
Definition patched (held : serverless.TrafficFilterInfo)
    (body : FilterW.PatchTrafficFilterRequest)
  : serverless.TrafficFilterInfo :=
  {| serverless.Info_Id := serverless.Info_Id held;
     serverless.Info_Name :=
       default (serverless.Info_Name held) (FilterW.Patch_Name body);
     serverless.Info_Region := serverless.Info_Region held;
     serverless.Info_Type := serverless.Info_Type held;
     serverless.Info_IncludeByDefault :=
       default (serverless.Info_IncludeByDefault held)
         (FilterW.Patch_IncludeByDefault body);
     serverless.Info_Description :=
       match FilterW.Patch_Description body with
       | Some text => Some text
       | None => serverless.Info_Description held
       end;
     serverless.Info_Rules :=
       default (serverless.Info_Rules held) (FilterW.Patch_Rules body) |}.

(** A server that assigns [id] to what is created and holds [held] under
    that id: a creation is answered 201 with the entity created, a patch
    200 with the entity patched. *)
Definition client (id : string) (held : serverless.TrafficFilterInfo)
  : FilterW.ClientWithResponsesInterface :=
  {| FilterW.createTrafficFilter := fun body =>
       serverless.Ok
         {| FilterW.Body := "";
            FilterW.HTTPResponse :=
              Some {| http.StatusCode := 201; http.Status := "201 Created" |};
            FilterW.JSON201 := Some (Server.created id body) |};
     FilterW.patchTrafficFilter := fun _ body =>
       serverless.Ok
         {| serverless.Body := "";
            serverless.HTTPResponse :=
              Some {| http.StatusCode := 200; http.Status := "200 OK" |};
            serverless.JSON200 := Some (patched held body) |} |}.

Definition resource (id : string) (held : serverless.TrafficFilterInfo)
  : FilterW.Resource :=
  {| FilterW.client := Some (client id held) |}.

End FilterServer.

(** ** Filter models that a plan holds once it is settled *)

(** A known string. *)
Definition known_text (v : types.String) : bool :=
  match v with types.StringValue _ => true | _ => false end.

(** Null, or a known string that is not empty. *)
Definition null_or_text (v : types.String) : bool :=
  match v with
  | types.StringNull => true
  | types.StringValue s => negb (String.eqb s "")
  | types.StringUnknown => false
  end.

Definition known_flag (v : types.Bool) : bool :=
  match v with types.BoolValue _ => true | _ => false end.

Definition settled_rule (rule : Filter.TrafficFilterRuleModel) : bool :=
  known_text (Filter.Source rule)
  && null_or_text (Filter.Rule_Description rule).

(** Name, type and region known, the flag known, the description and the
    rule descriptions null or not empty, the rules a set (no two equal):
    the id apart, what a model read from the server looks like. *)
Definition settled (m : Filter.TrafficFilterModel) : bool :=
  known_text (Filter.Name m)
  && known_text (Filter.Type_ m)
  && known_text (Filter.Region m)
  && null_or_text (Filter.Description m)
  && known_flag (Filter.IncludeByDefault m)
  && forallb settled_rule (Filter.Rules m)
  && Filter.distinct (Filter.Rules m).

(** [model.ID = v] on a filter model. *)
Definition with_ID (m : Filter.TrafficFilterModel) (v : types.String)
  : Filter.TrafficFilterModel :=
  {| Filter.ID := v;
     Filter.Name := Filter.Name m;
     Filter.Type_ := Filter.Type_ m;
     Filter.Region := Filter.Region m;
     Filter.Description := Filter.Description m;
     Filter.IncludeByDefault := Filter.IncludeByDefault m;
     Filter.Rules := Filter.Rules m |}.

(** The filter entity behind [Fixture.office], as the server holds it. *)
Definition office_info : serverless.TrafficFilterInfo :=
  {| serverless.Info_Id := "filt1";
     serverless.Info_Name := "office";
     serverless.Info_Region := "aws-us-east-1";
     serverless.Info_Type := "ip";
     serverless.Info_IncludeByDefault := false;
     serverless.Info_Description := None;
     serverless.Info_Rules :=
       [ {| serverless.Source := "192.0.2.0/24";
            serverless.Rule_Description := None |} ] |}.

(** The server's answer that carries [office_info]. *)
Definition office_response
  : serverless.Response serverless.TrafficFilterInfo :=
  {| serverless.Body := "";
     serverless.HTTPResponse :=
       Some {| http.StatusCode := 200; http.Status := "200 OK" |};
     serverless.JSON200 := Some office_info |}.


Definition bare_office : Filter.TrafficFilterModel :=
  {| Filter.ID := types.StringValue "filt1";
     Filter.Name := types.StringValue "office";
     Filter.Type_ := types.StringValue "ip";
     Filter.Region := types.StringValue "aws-us-east-1";
     Filter.Description := types.StringNull;
     Filter.IncludeByDefault := types.BoolValue false;
     Filter.Rules := [] |}.

(** A plan for a new filter with an empty description and no flag. *)
Definition blank_office : Filter.TrafficFilterModel :=
  {| Filter.ID := types.StringUnknown;
     Filter.Name := types.StringValue "office";
     Filter.Type_ := types.StringValue "ip";
     Filter.Region := types.StringValue "aws-us-east-1";
     Filter.Description := types.StringValue "";
     Filter.IncludeByDefault := types.BoolNull;
     Filter.Rules := [] |}.

(** Two rules of one source that differ in their description only: null
    in the first, the empty string in the second. *)
Definition twin_rules (source : types.String)
  : list Filter.TrafficFilterRuleModel :=
  [ {| Filter.Source := source;
       Filter.Rule_Description := types.StringNull |};
    {| Filter.Source := source;
       Filter.Rule_Description := types.StringValue "" |} ].

(** A plan for a new filter with such a pair of rules. *)
Definition twin_office : Filter.TrafficFilterModel :=
  {| Filter.ID := types.StringUnknown;
     Filter.Name := types.StringValue "office";
     Filter.Type_ := types.StringValue "ip";
     Filter.Region := types.StringValue "aws-us-east-1";
     Filter.Description := types.StringNull;
     Filter.IncludeByDefault := types.BoolValue false;
     Filter.Rules := twin_rules (types.StringValue "192.0.2.0/24") |}.

(** The filter entity as the server holds it once it has stored such a
    pair: the two rules are one JSON object twice. *)
Definition twin_info : serverless.TrafficFilterInfo :=
  {| serverless.Info_Id := "filt1";
     serverless.Info_Name := "office";
     serverless.Info_Region := "aws-us-east-1";
     serverless.Info_Type := "ip";
     serverless.Info_IncludeByDefault := false;
     serverless.Info_Description := None;
     serverless.Info_Rules :=
       [ {| serverless.Source := "192.0.2.0/24";
            serverless.Rule_Description := None |};
         {| serverless.Source := "192.0.2.0/24";
            serverless.Rule_Description := None |} ] |}.

(** The server's answer that carries [twin_info]. *)
Definition twin_response
  : serverless.Response serverless.TrafficFilterInfo :=
  {| serverless.Body := "";
     serverless.HTTPResponse :=
       Some {| http.StatusCode := 200; http.Status := "200 OK" |};
     serverless.JSON200 := Some twin_info |}.

(** The diagnostic of a refused set. *)
Definition duplicate_set_element : diag.Diagnostic :=
  diag.NewErrorDiagnostic "Duplicate Set Element"
    "This attribute contains duplicate values".

(** * Properties *)

(** ** Diagnostics *)

Section Diagnostics.

Lemma Contains_spec diags dg : diag.Contains diags dg = true <-> dg ∈ diags.
Proof.
  unfold diag.Contains. rewrite existsb_exists. split.
  - intros (x & Hin & Heq). apply bool_decide_eq_true in Heq. subst.
    by apply list_elem_of_In.
  - intros Hin. exists dg. split; [by apply list_elem_of_In|].
    by apply bool_decide_eq_true.
Qed.

Lemma HasError_app d1 d2 :
  diag.HasError (d1 ++ d2) = diag.HasError d1 || diag.HasError d2.
Proof. unfold diag.HasError. apply existsb_app. Qed.

Lemma HasError_elem diags dg :
  dg ∈ diags -> diag.is_error dg = true -> diag.HasError diags = true.
Proof.
  intros Hin He. unfold diag.HasError. apply existsb_exists.
  exists dg. split; [by apply list_elem_of_In|done].
Qed.

(** Appending reports an error exactly when one of the two sides has
    one, duplicates or not. *)
Lemma HasError_Append new : forall diags,
  diag.HasError (diag.Append diags new)
  = diag.HasError diags || diag.HasError new.
Proof.
  induction new as [|dg rest IH]; intros diags; simpl.
  - by rewrite orb_false_r.
  - destruct (diag.Contains diags dg) eqn:Hc.
    + rewrite IH. apply Contains_spec in Hc.
      destruct (diag.is_error dg) eqn:He; simpl; [|done].
      rewrite (HasError_elem _ _ Hc He). by rewrite orb_true_r.
    + rewrite IH, HasError_app. simpl. rewrite orb_false_r.
      by rewrite orb_assoc.
Qed.

(** An error added to diagnostics free of errors is never a duplicate. *)
Lemma Contains_fresh diags summary detail :
  diag.HasError diags = false ->
  diag.Contains diags (diag.NewErrorDiagnostic summary detail) = false.
Proof.
  intros Hno. destruct (diag.Contains diags _) eqn:Hc; [|done].
  apply Contains_spec in Hc.
  by rewrite (HasError_elem _ _ Hc eq_refl) in Hno.
Qed.

Lemma AddError_fresh diags summary detail :
  diag.HasError diags = false ->
  diag.AddError diags summary detail
  = diags ++ [diag.NewErrorDiagnostic summary detail].
Proof.
  intros Hno. unfold diag.AddError. simpl.
  by rewrite (Contains_fresh _ _ _ Hno).
Qed.

Lemma HasError_AddError diags summary detail :
  diag.HasError (diag.AddError diags summary detail) = true.
Proof.
  unfold diag.AddError. rewrite HasError_Append. simpl. by rewrite orb_true_r.
Qed.

End Diagnostics.

(** ** The helpers against the dispatch of the specification *)

Section Helpers.

Import Dispatch.

Lemma of_string_Some projectType k :
  of_string projectType = Some k -> projectType = name k.
Proof.
  unfold of_string.
  destruct (String.eqb_spec projectType "elasticsearch") as [->|_];
    [by intros [= <-]|].
  destruct (String.eqb_spec projectType "observability") as [->|_];
    [by intros [= <-]|].
  destruct (String.eqb_spec projectType "security") as [->|_];
    [by intros [= <-]|done].
Qed.

(** Each branch of the read helper is the one polymorphic read at its
    kind. *)
Lemma getProjectTrafficFilters_dispatch r k projectID tr :
  Assoc.getProjectTrafficFilters r projectID (name k) tr
  = GetMembership (Assoc.client r) k projectID tr.
Proof.
  destruct k; cbn; unfold GetMembership, op.bind;
    (destruct (Assoc.client r) as [c|]; cbn; [|done]);
    unfold read_outcome, is_not_found;
    (match goal with
     | |- context [match ?a with serverless.Ok _ => _ | serverless.Err _ => _ end] =>
         destruct a as [resp|err]; [|done]
     end);
    (destruct (serverless.HTTPResponse resp) as [h|];
       [destruct (Z.eqb (http.StatusCode h) http.StatusNotFound); [done|]|]);
    (destruct (serverless.JSON200 resp) as [project|]; [|done]);
    by destruct (serverless.Project_TrafficFilters project).
Qed.

Lemma getProjectTrafficFilters_unknown r projectID projectType :
  of_string projectType = None ->
  Assoc.getProjectTrafficFilters r projectID projectType
  = op.ret ([], diag.AddError [] "Invalid project type"
                 ("Unknown project type: " ++ projectType)).
Proof.
  unfold of_string, Assoc.getProjectTrafficFilters.
  destruct (String.eqb projectType "elasticsearch"); [done|].
  destruct (String.eqb projectType "observability"); [done|].
  destruct (String.eqb projectType "security"); done.
Qed.

Lemma patchProjectTrafficFilters_dispatch r k projectID filters tr :
  Assoc.patchProjectTrafficFilters r projectID (name k) filters tr
  = PatchMembership (Assoc.client r) k projectID filters tr.
Proof.
  destruct k; cbn; unfold PatchMembership, op.bind;
    (destruct (Assoc.client r) as [c|]; cbn; [|done]);
    unfold patch_outcome, serverless.OptionalTrafficFilters;
    (match goal with
     | |- context [match ?a with serverless.Ok _ => _ | serverless.Err _ => _ end] =>
         destruct a as [resp|err]; [|done]
     end);
    by destruct (serverless.JSON200 resp).
Qed.

Lemma GetMembership_run c k projectID tr :
  GetMembership (Some c) k projectID tr
  = Some (read_outcome (title k) projectID (get_answer k c projectID),
          tr ++ [GetCall k projectID]).
Proof. reflexivity. Qed.

Lemma PatchMembership_run c k projectID filters tr :
  PatchMembership (Some c) k projectID filters tr
  = Some (patch_outcome
            (patch_answer k c projectID
               {| serverless.Patch_TrafficFilters := Some filters |}),
          tr ++ [PatchCall k projectID
                   {| serverless.Patch_TrafficFilters := Some filters |}]).
Proof. reflexivity. Qed.

(** A read outcome without error carries no diagnostic at all. *)
Lemma read_outcome_ok kindTitle projectID res S d :
  read_outcome kindTitle projectID res = (S, d) ->
  diag.HasError d = false -> d = [].
Proof.
  unfold read_outcome. intros H Hd.
  destruct res as [resp|err].
  - destruct (is_not_found resp).
    + injection H as <- <-. by rewrite HasError_AddError in Hd.
    + destruct (serverless.JSON200 resp) as [project|].
      * destruct (serverless.Project_TrafficFilters project);
          by injection H as <- <-.
      * injection H as <- <-. by rewrite HasError_AddError in Hd.
  - injection H as <- <-. by rewrite HasError_AddError in Hd.
Qed.

(** A membership read that ends without error went through a configured
    client to the get operation of a recognized kind, once. *)
Lemma getProjectTrafficFilters_ok r projectID projectType tr S d tr1 :
  Assoc.getProjectTrafficFilters r projectID projectType tr = Some ((S, d), tr1) ->
  diag.HasError d = false ->
  exists k c,
    projectType = name k /\ Assoc.client r = Some c /\ d = []
    /\ tr1 = tr ++ [GetCall k projectID]
    /\ read_outcome (title k) projectID (get_answer k c projectID) = (S, []).
Proof.
  intros Hrun Hd.
  destruct (of_string projectType) as [k|] eqn:Hk.
  - apply of_string_Some in Hk. subst projectType.
    rewrite getProjectTrafficFilters_dispatch in Hrun.
    destruct (Assoc.client r) as [c|] eqn:Hc; [|done].
    rewrite GetMembership_run in Hrun. injection Hrun as Hout <-.
    pose proof (read_outcome_ok _ _ _ _ _ Hout Hd) as ->.
    by exists k, c.
  - rewrite (getProjectTrafficFilters_unknown _ _ _ Hk) in Hrun.
    injection Hrun as <- <- <-. by rewrite HasError_AddError in Hd.
Qed.

Lemma patches_app tr1 tr2 : patches (tr1 ++ tr2) = patches tr1 ++ patches tr2.
Proof. unfold patches. apply omap_app. Qed.

Lemma patches_GetCall k projectID : patches [GetCall k projectID] = [].
Proof. by destruct k. Qed.

Lemma ids_existsb F S :
  existsb (fun f => String.eqb (serverless.Id f) F) S = true <-> F ∈ ids S.
Proof.
  unfold ids. rewrite existsb_exists, list_elem_of_fmap. split.
  - intros (f & Hin & Heq). apply String.eqb_eq in Heq.
    exists f. split; [done|by apply list_elem_of_In].
  - intros (f & -> & Hin). exists f.
    split; [by apply list_elem_of_In|apply String.eqb_refl].
Qed.

Lemma ids_existsb_false F S :
  existsb (fun f => String.eqb (serverless.Id f) F) S = false <-> F ∉ ids S.
Proof.
  rewrite <- ids_existsb. by destruct (existsb _ S).
Qed.

End Helpers.

(** ** Association Create *)

Section Create.

Import Dispatch.

Local Opaque Assoc.getProjectTrafficFilters Assoc.patchProjectTrafficFilters.

Lemma ids_snoc S F : ids (S ++ [ {| serverless.Id := F |} ]) = ids S ++ [F].
Proof. unfold ids. by rewrite map_app. Qed.

Lemma members_snoc S F :
  members (S ++ [ {| serverless.Id := F |} ]) = members S ∪ {[ F ]}.
Proof.
  unfold members. rewrite ids_snoc, list_to_set_app_L. simpl.
  by rewrite union_empty_r_L.
Qed.

(** Whenever Create ends without error, it has left the diagnostics as
    they were and has stored the planned model with the identity
    [projectID-filterID]. *)
Lemma Create_success r req resp model tr resp' tr' :
  resource.Plan req = Some model ->
  diag.HasError (resource.Diagnostics resp) = false ->
  Assoc.Create r req resp tr = Some (resp', tr') ->
  diag.HasError (resource.Diagnostics resp') = false ->
  resp' =
    {| resource.State :=
         Some (Assoc.set_ID model
                 (types.StringValue
                    (types.ValueString (Assoc.ProjectID model) ++ "-"
                       ++ types.ValueString (Assoc.TrafficFilterID model))));
       resource.Diagnostics := resource.Diagnostics resp |}.
Proof.
  intros Hplan Hno Hrun Hok. destruct resp as [st dg]. simpl in Hno.
  unfold Assoc.Create, Assoc.resourceReady in Hrun.
  destruct (Assoc.client r) as [c|] eqn:Hc; simpl in Hrun.
  2:{ injection Hrun as <- <-. simpl in Hok.
      by rewrite HasError_AddError in Hok. }
  rewrite Hplan in Hrun. simpl in Hrun. rewrite Hno in Hrun.
  unfold op.bind at 1 in Hrun.
  destruct (Assoc.getProjectTrafficFilters _ _ _ tr)
    as [[[S d] tr1]|] eqn:Hget; [|done].
  simpl in Hrun.
  destruct (diag.HasError (diag.Append dg d)) eqn:Hd.
  { injection Hrun as <- <-. simpl in Hok. congruence. }
  rewrite HasError_Append, Hno in Hd. simpl in Hd.
  destruct (getProjectTrafficFilters_ok _ _ _ _ _ _ _ Hget Hd)
    as (k & c' & Hk & _ & -> & _ & _).
  simpl in Hrun.
  destruct (existsb _ S).
  { by injection Hrun as <- <-. }
  unfold op.bind in Hrun.
  destruct (Assoc.patchProjectTrafficFilters _ _ _ _ tr1)
    as [[d2 tr2]|] eqn:Hpatch; [|done].
  simpl in Hrun.
  destruct (diag.HasError (diag.Append dg d2)) eqn:Hd2.
  { injection Hrun as <- <-. simpl in Hok. congruence. }
  injection Hrun as <- <-.
  rewrite HasError_Append, Hno in Hd2. simpl in Hd2.
  rewrite Hk, patchProjectTrafficFilters_dispatch, Hc,
    PatchMembership_run in Hpatch.
  injection Hpatch as <- _.
  unfold patch_outcome in Hd2 |- *.
  destruct (patch_answer _ _ _ _) as [presp|err];
    [|by rewrite HasError_AddError in Hd2].
  destruct (serverless.JSON200 presp);
    [done|by rewrite HasError_AddError in Hd2].
Qed.

(** The run of Create on a membership list that lacks the target id: one
    read, then one write of the list with the id appended. *)
Lemma Create_writes_appended r req resp model tr S d tr1 :
  let projectID := types.ValueString (Assoc.ProjectID model) in
  let projectType := types.ValueString (Assoc.ProjectType model) in
  let F := types.ValueString (Assoc.TrafficFilterID model) in
  resource.Plan req = Some model ->
  diag.HasError (resource.Diagnostics resp) = false ->
  Assoc.getProjectTrafficFilters r projectID projectType tr
  = Some ((S, d), tr1) ->
  diag.HasError d = false ->
  F ∉ ids S ->
  exists k resp',
    projectType = name k
    /\ Assoc.Create r req resp tr
       = Some (resp',
               tr ++ [GetCall k projectID;
                      PatchCall k projectID
                        {| serverless.Patch_TrafficFilters :=
                             Some (S ++ [ {| serverless.Id := F |} ]) |}]).
Proof.
  intros projectID projectType F Hplan Hno Hget Hd Hnotin.
  destruct (getProjectTrafficFilters_ok _ _ _ _ _ _ _ Hget Hd)
    as (k & c & Hk & Hc & -> & -> & Hout).
  exists k. destruct resp as [st dg]. simpl in Hno.
  unfold Assoc.Create, Assoc.resourceReady. rewrite Hc, Hplan.
  simpl. rewrite Hno. unfold op.bind at 1.
  fold projectID projectType F. rewrite Hget. simpl. rewrite Hno.
  apply ids_existsb_false in Hnotin. rewrite Hnotin.
  unfold op.bind. rewrite Hk, patchProjectTrafficFilters_dispatch, Hc,
    PatchMembership_run. rewrite <- Hk. rewrite <- app_assoc. cbn [app].
  match goal with |- context [if ?b then _ else _] => destruct b end;
    (eexists; split; [done|reflexivity]).
Qed.

(** C1. Membership preservation: when Create reads the membership list
    [S] of the project and the target filter id [F] is not among its ids,
    Create issues exactly one write after the read, and the list it
    writes is [S] with [F] appended: every member of [S] is kept, [F] is
    the only member added, none is removed. For [S = A, B] the written
    list is [A, B, F]. *)
Theorem create_appends_filter r req resp model tr S d tr1 :
  let projectID := types.ValueString (Assoc.ProjectID model) in
  let projectType := types.ValueString (Assoc.ProjectType model) in
  let F := types.ValueString (Assoc.TrafficFilterID model) in
  let patched := S ++ [ {| serverless.Id := F |} ] in
  resource.Plan req = Some model ->
  diag.HasError (resource.Diagnostics resp) = false ->
  Assoc.getProjectTrafficFilters r projectID projectType tr
  = Some ((S, d), tr1) ->
  diag.HasError d = false ->
  F ∉ ids S ->
  exists k resp',
    projectType = name k
    /\ Assoc.Create r req resp tr
       = Some (resp',
               tr ++ [GetCall k projectID;
                      PatchCall k projectID
                        {| serverless.Patch_TrafficFilters := Some patched |}])
    /\ ids patched = ids S ++ [F]
    /\ (forall x, x ∈ ids patched <-> x ∈ ids S \/ x = F)
    /\ members patched = members S ∪ {[ F ]}
    /\ (forall A B,
          S = [ {| serverless.Id := A |}; {| serverless.Id := B |} ] ->
          patched = [ {| serverless.Id := A |}; {| serverless.Id := B |};
                      {| serverless.Id := F |} ]).
Proof.
  intros projectID projectType F patched Hplan Hno Hget Hd Hnotin.
  assert (Hpure :
    ids patched = ids S ++ [F]
    /\ (forall x, x ∈ ids patched <-> x ∈ ids S \/ x = F)
    /\ members patched = members S ∪ {[ F ]}
    /\ (forall A B,
          S = [ {| serverless.Id := A |}; {| serverless.Id := B |} ] ->
          patched = [ {| serverless.Id := A |}; {| serverless.Id := B |};
                      {| serverless.Id := F |} ])).
  { unfold patched. split; [apply ids_snoc|]. split.
    - intros x. by rewrite ids_snoc, elem_of_app, list_elem_of_singleton.
    - split; [apply members_snoc|]. by intros A B ->. }
  destruct (Create_writes_appended _ _ _ _ _ _ _ _ Hplan Hno Hget Hd Hnotin)
    as (k & resp' & Hk & Hrun).
  by exists k, resp'.
Qed.

Lemma create_appends_filter_witness :
  exists resp',
    Assoc.Create
      (Fixture.projects
         (Fixture.ok200 (Some [Fixture.tf "A"; Fixture.tf "B"]))
         (Fixture.ok200 (Some [Fixture.tf "A"; Fixture.tf "B"; Fixture.tf "C"])))
      {| resource.Plan := Some (Fixture.association "proj1" "elasticsearch" "C") |}
      (Fixture.fresh None) []
    = Some (resp',
            [serverless.GetElasticsearchProject "proj1";
             serverless.PatchElasticsearchProject "proj1"
               {| serverless.Patch_TrafficFilters :=
                    Some [Fixture.tf "A"; Fixture.tf "B"; Fixture.tf "C"] |}]).
Proof.
  destruct (create_appends_filter
              (Fixture.projects
                 (Fixture.ok200 (Some [Fixture.tf "A"; Fixture.tf "B"]))
                 (Fixture.ok200
                    (Some [Fixture.tf "A"; Fixture.tf "B"; Fixture.tf "C"])))
              {| resource.Plan :=
                   Some (Fixture.association "proj1" "elasticsearch" "C") |}
              (Fixture.fresh None)
              (Fixture.association "proj1" "elasticsearch" "C")
              [] [Fixture.tf "A"; Fixture.tf "B"] []
              [serverless.GetElasticsearchProject "proj1"])
    as (k & resp' & Hk & Hrun & _).
  - reflexivity.
  - reflexivity.
  - vm_compute. reflexivity.
  - reflexivity.
  - apply ids_existsb_false. vm_compute. reflexivity.
  - exists resp'. destruct k; [exact Hrun|discriminate Hk|discriminate Hk].
Defined.

(** C2. Idempotent create: when the membership list Create reads already
    holds the target filter id, Create ends without adding a diagnostic,
    makes no transport call after the read (so no write at all), and
    stores the plan's project id, project type and filter id under the
    identity [projectID ++ "-" ++ filterID]; a create of the same plan
    that had to write the membership and succeeded stores the same
    model, so the same identity. *)
Theorem create_idempotent r req resp model tr S d tr1 :
  let projectID := types.ValueString (Assoc.ProjectID model) in
  let projectType := types.ValueString (Assoc.ProjectType model) in
  let F := types.ValueString (Assoc.TrafficFilterID model) in
  let stored :=
    {| Assoc.ID := types.StringValue (projectID ++ "-" ++ F);
       Assoc.ProjectID := Assoc.ProjectID model;
       Assoc.ProjectType := Assoc.ProjectType model;
       Assoc.TrafficFilterID := Assoc.TrafficFilterID model |} in
  resource.Plan req = Some model ->
  diag.HasError (resource.Diagnostics resp) = false ->
  Assoc.getProjectTrafficFilters r projectID projectType tr
  = Some ((S, d), tr1) ->
  diag.HasError d = false ->
  F ∈ ids S ->
  Assoc.Create r req resp tr
  = Some ({| resource.State := Some stored;
             resource.Diagnostics := resource.Diagnostics resp |}, tr1)
  /\ patches tr1 = patches tr
  /\ (exists k, tr1 = tr ++ [GetCall k projectID])
  /\ (forall r' tr0 S' d' tr0' fresh tr0'',
        Assoc.getProjectTrafficFilters r' projectID projectType tr0
        = Some ((S', d'), tr0') ->
        F ∉ ids S' ->
        Assoc.Create r' req resp tr0 = Some (fresh, tr0'') ->
        diag.HasError (resource.Diagnostics fresh) = false ->
        resource.State fresh = Some stored).
Proof.
  intros projectID projectType F stored Hplan Hno Hget Hd Hin.
  destruct (getProjectTrafficFilters_ok _ _ _ _ _ _ _ Hget Hd)
    as (k & c & Hk & Hc & -> & -> & Hout).
  split; [|split; [|split]].
  - destruct resp as [st dg]. simpl in Hno.
    unfold Assoc.Create, Assoc.resourceReady. rewrite Hc, Hplan.
    simpl. rewrite Hno. unfold op.bind at 1.
    fold projectID projectType F. rewrite Hget. simpl. rewrite Hno.
    apply ids_existsb in Hin. by rewrite Hin.
  - by rewrite patches_app, patches_GetCall, app_nil_r.
  - by exists k.
  - intros r' tr0 S' d' tr0' fresh tr0'' _ _ Hrun Hok.
    by rewrite (Create_success _ _ _ _ _ _ _ Hplan Hno Hrun Hok).
Qed.

Lemma create_idempotent_witness :
  Assoc.Create
    (Fixture.projects
       (Fixture.ok200 (Some [Fixture.tf "A"; Fixture.tf "C"]))
       (serverless.Err "no write expected"))
    {| resource.Plan := Some (Fixture.association "proj1" "security" "C") |}
    (Fixture.fresh None) []
  = Some ({| resource.State :=
               Some {| Assoc.ID := types.StringValue "proj1-C";
                       Assoc.ProjectID := types.StringValue "proj1";
                       Assoc.ProjectType := types.StringValue "security";
                       Assoc.TrafficFilterID := types.StringValue "C" |};
             resource.Diagnostics := [] |},
          [serverless.GetSecurityProject "proj1"]).
Proof.
  refine (proj1 (create_idempotent
                   (Fixture.projects
                      (Fixture.ok200 (Some [Fixture.tf "A"; Fixture.tf "C"]))
                      (serverless.Err "no write expected"))
                   {| resource.Plan :=
                        Some (Fixture.association "proj1" "security" "C") |}
                   (Fixture.fresh None)
                   (Fixture.association "proj1" "security" "C")
                   [] [Fixture.tf "A"; Fixture.tf "C"] []
                   [serverless.GetSecurityProject "proj1"] _ _ _ _ _)).
  - reflexivity.
  - reflexivity.
  - vm_compute. reflexivity.
  - reflexivity.
  - apply ids_existsb. vm_compute. reflexivity.
Defined.

End Create.

(** ** Association Delete *)

Section Delete.

Import Dispatch.

Local Opaque Assoc.getProjectTrafficFilters Assoc.patchProjectTrafficFilters.

Lemma removed_sublist F (S : list serverless.TrafficFilter) :
  List.filter (fun f => negb (String.eqb (serverless.Id f) F)) S
    `sublist_of` S.
Proof.
  induction S as [|f S IH]; simpl; [constructor|].
  destruct (negb _); by constructor.
Qed.

Lemma removed_elem F (S : list serverless.TrafficFilter) f :
  f ∈ List.filter (fun f => negb (String.eqb (serverless.Id f) F)) S
  <-> f ∈ S /\ serverless.Id f <> F.
Proof.
  rewrite !list_elem_of_In, filter_In, negb_true_iff.
  by rewrite String.eqb_neq.
Qed.

Lemma removed_absent F (S : list serverless.TrafficFilter) :
  F ∉ ids S ->
  List.filter (fun f => negb (String.eqb (serverless.Id f) F)) S = S.
Proof.
  induction S as [|f S IH]; simpl; [done|]. intros Hnotin.
  apply not_elem_of_cons in Hnotin as [Hne Hnotin].
  destruct (String.eqb_spec (serverless.Id f) F) as [Heq|_]; simpl.
  - by destruct Hne.
  - by rewrite (IH Hnotin).
Qed.

(** C3. Delete: when Delete reads the membership list [S], it issues one
    write after the read, and the list it writes is [S] without the
    entries whose id is the target filter id, the other entries kept in
    their order; when the id is absent from [S] the list written is [S]
    itself; and when the transport answers the write with a decoded
    payload, Delete ends with the response it started from, no diagnostic
    added. *)
Theorem delete_removes_filter r req resp model tr S d tr1 :
  let projectID := types.ValueString (Assoc.ProjectID model) in
  let projectType := types.ValueString (Assoc.ProjectType model) in
  let F := types.ValueString (Assoc.TrafficFilterID model) in
  let kept :=
    List.filter (fun f => negb (String.eqb (serverless.Id f) F)) S in
  let body := {| serverless.Patch_TrafficFilters := Some kept |} in
  resource.PriorState req = Some model ->
  diag.HasError (resource.Diagnostics resp) = false ->
  Assoc.getProjectTrafficFilters r projectID projectType tr
  = Some ((S, d), tr1) ->
  diag.HasError d = false ->
  exists k c resp',
    projectType = name k
    /\ Assoc.client r = Some c
    /\ Assoc.Delete r req resp tr
       = Some (resp', tr ++ [GetCall k projectID; PatchCall k projectID body])
    /\ (kept `sublist_of` S)
    /\ (forall f, f ∈ kept <-> f ∈ S /\ serverless.Id f <> F)
    /\ (F ∉ ids kept)
    /\ (F ∉ ids S -> kept = S)
    /\ (forall presp,
          patch_answer k c projectID body = serverless.Ok presp ->
          is_Some (serverless.JSON200 presp) ->
          resp' = resp).
Proof.
  intros projectID projectType F kept body Hstate Hno Hget Hd.
  destruct (getProjectTrafficFilters_ok _ _ _ _ _ _ _ Hget Hd)
    as (k & c & Hk & Hc & -> & -> & Hout).
  exists k, c. destruct resp as [st dg]. simpl in Hno.
  unfold Assoc.Delete, Assoc.resourceReady. rewrite Hc, Hstate.
  simpl. rewrite Hno. unfold op.bind at 1.
  fold projectID projectType F. rewrite Hget. simpl. rewrite Hno.
  unfold op.bind. rewrite Hk, patchProjectTrafficFilters_dispatch, Hc,
    PatchMembership_run. rewrite <- Hk, <- app_assoc. cbn [app].
  fold kept. fold body.
  eexists. split; [done|]. split; [done|]. split; [reflexivity|].
  split; [apply removed_sublist|]. split; [apply removed_elem|].
  split; [|split; [apply removed_absent|]].
  - unfold ids. rewrite list_elem_of_fmap. intros (f & Hf & Hin).
    apply removed_elem in Hin as [_ Hne]. by destruct Hne.
  - intros presp Hans [p Hp]. unfold patch_outcome.
    rewrite Hans, Hp. reflexivity.
Qed.

Lemma delete_removes_filter_witness :
  exists resp',
    Assoc.Delete
      (Fixture.projects
         (Fixture.ok200
            (Some [Fixture.tf "A"; Fixture.tf "C"; Fixture.tf "B"]))
         (Fixture.ok200 (Some [Fixture.tf "A"; Fixture.tf "B"])))
      {| resource.PriorState :=
           Some (Fixture.association "proj1" "observability" "C") |}
      (Fixture.fresh (Some (Fixture.association "proj1" "observability" "C")))
      []
    = Some (resp',
            [serverless.GetObservabilityProject "proj1";
             serverless.PatchObservabilityProject "proj1"
               {| serverless.Patch_TrafficFilters :=
                    Some [Fixture.tf "A"; Fixture.tf "B"] |}]).
Proof.
  destruct (delete_removes_filter
              (Fixture.projects
                 (Fixture.ok200
                    (Some [Fixture.tf "A"; Fixture.tf "C"; Fixture.tf "B"]))
                 (Fixture.ok200 (Some [Fixture.tf "A"; Fixture.tf "B"])))
              {| resource.PriorState :=
                   Some (Fixture.association "proj1" "observability" "C") |}
              (Fixture.fresh
                 (Some (Fixture.association "proj1" "observability" "C")))
              (Fixture.association "proj1" "observability" "C")
              [] [Fixture.tf "A"; Fixture.tf "C"; Fixture.tf "B"] []
              [serverless.GetObservabilityProject "proj1"])
    as (k & c & resp' & Hk & _ & Hrun & _).
  - reflexivity.
  - reflexivity.
  - vm_compute. reflexivity.
  - reflexivity.
  - exists resp'. destruct k; [discriminate Hk|exact Hrun|discriminate Hk].
Defined.

End Delete.

(** ** Read *)

Section Read.

Import Dispatch.

Local Opaque Assoc.getProjectTrafficFilters.

(** C5. Drop-on-missing: when the association Read reads the membership
    list [S] without error, then if the tracked filter id is not among
    the ids of [S] the state is removed and no diagnostic is added, and
    if it is among them the tracked model is stored back as it was read;
    either way nothing is sent after the read. *)
Theorem read_drops_missing_association r req resp model tr S d tr1 :
  let projectID := types.ValueString (Assoc.ProjectID model) in
  let projectType := types.ValueString (Assoc.ProjectType model) in
  let F := types.ValueString (Assoc.TrafficFilterID model) in
  resource.PriorState req = Some model ->
  diag.HasError (resource.Diagnostics resp) = false ->
  Assoc.getProjectTrafficFilters r projectID projectType tr
  = Some ((S, d), tr1) ->
  diag.HasError d = false ->
  (F ∉ ids S ->
   Assoc.Read r req resp tr
   = Some ({| resource.State := None;
              resource.Diagnostics := resource.Diagnostics resp |}, tr1))
  /\ (F ∈ ids S ->
      Assoc.Read r req resp tr
      = Some ({| resource.State := resource.PriorState req;
                 resource.Diagnostics := resource.Diagnostics resp |}, tr1)).
Proof.
  intros projectID projectType F Hstate Hno Hget Hd.
  destruct (getProjectTrafficFilters_ok _ _ _ _ _ _ _ Hget Hd)
    as (k & c & Hk & Hc & -> & -> & Hout).
  destruct resp as [st dg]. simpl in Hno.
  unfold Assoc.Read, Assoc.resourceReady. rewrite Hc, Hstate.
  simpl. rewrite Hno. unfold op.bind.
  fold projectID projectType F. rewrite Hget. simpl. rewrite Hno.
  split; intros Hmem.
  - apply ids_existsb_false in Hmem. by rewrite Hmem.
  - apply ids_existsb in Hmem. by rewrite Hmem.
Qed.

Lemma read_drops_missing_association_witness :
  Assoc.Read
    (Fixture.projects (Fixture.ok200 (Some [Fixture.tf "A"; Fixture.tf "B"]))
       (serverless.Err "no write expected"))
    {| resource.PriorState :=
         Some (Fixture.association "proj1" "elasticsearch" "C") |}
    (Fixture.fresh (Some (Fixture.association "proj1" "elasticsearch" "C")))
    []
  = Some (Fixture.fresh None, [serverless.GetElasticsearchProject "proj1"]).
Proof.
  refine (proj1 (read_drops_missing_association
                   (Fixture.projects
                      (Fixture.ok200 (Some [Fixture.tf "A"; Fixture.tf "B"]))
                      (serverless.Err "no write expected"))
                   {| resource.PriorState :=
                        Some (Fixture.association "proj1" "elasticsearch" "C") |}
                   (Fixture.fresh
                      (Some (Fixture.association "proj1" "elasticsearch" "C")))
                   (Fixture.association "proj1" "elasticsearch" "C")
                   [] [Fixture.tf "A"; Fixture.tf "B"] []
                   [serverless.GetElasticsearchProject "proj1"] _ _ _ _) _).
  - reflexivity.
  - reflexivity.
  - vm_compute. reflexivity.
  - reflexivity.
  - apply ids_existsb_false. vm_compute. reflexivity.
Defined.

End Read.

(** ** NotFound during Read *)

Section NotFound.

Import Dispatch.

(** The claim that every Read turns a NotFound of the underlying entity
    into a dropped state without error fails for the association: a 404
    on the project read leaves the tracked association in place and
    reports "Project not found". *)
Lemma association_read_project_not_found_counterexample :
  let tracked := Fixture.association "proj1" "elasticsearch" "filt1" in
  let r := Fixture.projects (Fixture.status 404 "404 Not Found" "")
             (serverless.Err "no write expected") in
  Assoc.Read r {| resource.PriorState := Some tracked |}
    (Fixture.fresh (Some tracked)) []
  = Some ({| resource.State := Some tracked;
             resource.Diagnostics :=
               [diag.NewErrorDiagnostic "Project not found"
                  "Elasticsearch project proj1 not found"] |},
          [serverless.GetElasticsearchProject "proj1"])
  /\ ~ (exists resp' tr',
          Assoc.Read r {| resource.PriorState := Some tracked |}
            (Fixture.fresh (Some tracked)) [] = Some (resp', tr')
          /\ resource.State resp' = None
          /\ diag.HasError (resource.Diagnostics resp') = false).
Proof.
  split; [vm_compute; reflexivity|].
  intros (resp' & tr' & Hrun & Hstate & _).
  vm_compute in Hrun. injection Hrun as <- _. discriminate Hstate.
Qed.

(** C4, amended. A 404 answer to the filter entity's Read removes the
    filter from the tracked state and adds no diagnostic. A 404 answer to
    the project read of the association's Read is reported as the error
    "Project not found", naming the kind and the project id, and the
    tracked state is left as it was. *)
Theorem read_not_found :
  (forall r c req resp model tr readResp h,
     Filter.client r = Some c ->
     resource.PriorState req = Some model ->
     diag.HasError (resource.Diagnostics resp) = false ->
     serverless.getTrafficFilter c (types.ValueString (Filter.ID model))
     = serverless.Ok readResp ->
     serverless.HTTPResponse readResp = Some h ->
     http.StatusCode h = http.StatusNotFound ->
     Filter.Read r req resp tr
     = Some ({| resource.State := None;
                resource.Diagnostics := resource.Diagnostics resp |},
             tr ++ [serverless.GetTrafficFilter
                      (types.ValueString (Filter.ID model))]))
  /\ (forall r c k req resp model tr getResp h,
        Assoc.client r = Some c ->
        resource.PriorState req = Some model ->
        diag.HasError (resource.Diagnostics resp) = false ->
        types.ValueString (Assoc.ProjectType model) = name k ->
        get_answer k c (types.ValueString (Assoc.ProjectID model))
        = serverless.Ok getResp ->
        serverless.HTTPResponse getResp = Some h ->
        http.StatusCode h = http.StatusNotFound ->
        Assoc.Read r req resp tr
        = Some ({| resource.State := resource.State resp;
                   resource.Diagnostics :=
                     resource.Diagnostics resp
                     ++ [diag.NewErrorDiagnostic "Project not found"
                           (title k ++ " project "
                              ++ types.ValueString (Assoc.ProjectID model)
                              ++ " not found")] |},
                tr ++ [GetCall k (types.ValueString (Assoc.ProjectID model))])).
Proof.
  split.
  - intros r c req [st dg] model tr readResp h Hc Hstate Hno Hans Hh H404.
    simpl in Hno. unfold Filter.Read. rewrite Hstate. simpl. rewrite Hno.
    rewrite Hc. unfold op.bind, serverless.GetTrafficFilterWithResponse.
    simpl. rewrite Hans, Hh, H404. reflexivity.
  - intros r c k req [st dg] model tr getResp h Hc Hstate Hno Hk Hans Hh H404.
    simpl in Hno. unfold Assoc.Read, Assoc.resourceReady.
    rewrite Hc, Hstate. simpl. rewrite Hno. unfold op.bind at 1.
    rewrite Hk, getProjectTrafficFilters_dispatch, Hc, GetMembership_run.
    unfold read_outcome, is_not_found. rewrite Hans, Hh, H404. simpl.
    unfold resource.AppendDiagnostics. simpl.
    rewrite (Contains_fresh _ _ _ Hno), HasError_app. simpl.
    by rewrite orb_true_r.
Qed.

Lemma read_not_found_witness :
  Filter.Read
    (Fixture.filters (Fixture.status 404 "404 Not Found" "")
       (serverless.Err "unused"))
    {| resource.PriorState := Some Fixture.office |}
    (Fixture.fresh (Some Fixture.office)) []
  = Some (Fixture.fresh None, [serverless.GetTrafficFilter "filt1"])
  /\ Assoc.Read
       (Fixture.projects (Fixture.status 404 "404 Not Found" "")
          (serverless.Err "no write expected"))
       {| resource.PriorState :=
            Some (Fixture.association "proj1" "security" "filt1") |}
       (Fixture.fresh (Some (Fixture.association "proj1" "security" "filt1")))
       []
     = Some ({| resource.State :=
                  Some (Fixture.association "proj1" "security" "filt1");
                resource.Diagnostics :=
                  [diag.NewErrorDiagnostic "Project not found"
                     "Security project proj1 not found"] |},
             [serverless.GetSecurityProject "proj1"]).
Proof.
  destruct read_not_found as [Hfilter Hassoc]. split.
  - apply (Hfilter
             (Fixture.filters (Fixture.status 404 "404 Not Found" "")
                (serverless.Err "unused"))
             (Fixture.transport (serverless.Err "unused")
                (serverless.Err "unused")
                (Fixture.status 404 "404 Not Found" "")
                (serverless.Err "unused"))
             {| resource.PriorState := Some Fixture.office |}
             (Fixture.fresh (Some Fixture.office)) Fixture.office []
             (Fixture.response 404 "404 Not Found" "")
             {| http.StatusCode := 404; http.Status := "404 Not Found" |});
      reflexivity.
  - apply (Hassoc
             (Fixture.projects (Fixture.status 404 "404 Not Found" "")
                (serverless.Err "no write expected"))
             (Fixture.transport (Fixture.status 404 "404 Not Found" "")
                (serverless.Err "no write expected")
                (serverless.Err "unused") (serverless.Err "unused"))
             Security
             {| resource.PriorState :=
                  Some (Fixture.association "proj1" "security" "filt1") |}
             (Fixture.fresh
                (Some (Fixture.association "proj1" "security" "filt1")))
             (Fixture.association "proj1" "security" "filt1") []
             (Fixture.response 404 "404 Not Found" "")
             {| http.StatusCode := 404; http.Status := "404 Not Found" |});
      reflexivity.
Defined.

End NotFound.

(** ** Kind dispatch *)

Section KindDispatch.

Import Dispatch.

(** The three branches do not compute the same diagnostics from the same
    response: to one and the same 404 answer the observability branch and
    the security branch each report the project as not found under its
    own kind. *)
Lemma kind_branches_differ_on_not_found_counterexample :
  let r := Fixture.projects (Fixture.status 404 "404 Not Found" "")
             (serverless.Err "no write expected") in
  (forall c, Assoc.client r = Some c ->
     serverless.getObservabilityProject c "proj1"
     = serverless.getSecurityProject c "proj1")
  /\ fst <$> Assoc.getProjectTrafficFilters r "proj1" "observability" []
     <> fst <$> Assoc.getProjectTrafficFilters r "proj1" "security" [].
Proof.
  split.
  - by intros c [= <-].
  - vm_compute. discriminate.
Qed.

(** C9, amended. Each branch of the membership read and of the
    membership patch is the one polymorphic operation at its kind: it
    invokes the transport operation of the kind once and turns the answer
    into result and diagnostics by one function of the answer. For the
    patch that function does not depend on the kind, and the body sent is
    the given filter list whatever the kind. For the read the function
    depends on the kind through the text of the "Project not found"
    diagnostic only: two kinds compute the same filter list, diagnostics
    of the same severities and summaries, and the same diagnostics
    whenever the answer is not a 404. *)
Theorem kind_dispatch :
  (forall r k projectID tr,
     Assoc.getProjectTrafficFilters r projectID (name k) tr
     = match Assoc.client r with
       | Some c =>
           Some (read_outcome (title k) projectID (get_answer k c projectID),
                 tr ++ [GetCall k projectID])
       | None => None
       end)
  /\ (forall r k projectID filters tr,
        let body := {| serverless.Patch_TrafficFilters := Some filters |} in
        Assoc.patchProjectTrafficFilters r projectID (name k) filters tr
        = match Assoc.client r with
          | Some c =>
              Some (patch_outcome (patch_answer k c projectID body),
                    tr ++ [PatchCall k projectID body])
          | None => None
          end)
  /\ (forall k1 k2 projectID res,
        let out1 := read_outcome (title k1) projectID res in
        let out2 := read_outcome (title k2) projectID res in
        fst out1 = fst out2
        /\ diag.HasError (snd out1) = diag.HasError (snd out2)
        /\ map (fun dg => (diag.severity dg, diag.Summary dg)) (snd out1)
           = map (fun dg => (diag.severity dg, diag.Summary dg)) (snd out2)
        /\ ((forall resp, res = serverless.Ok resp -> is_not_found resp = false)
            -> out1 = out2)).
Proof.
  split; [|split].
  - intros r k projectID tr. rewrite getProjectTrafficFilters_dispatch.
    by destruct (Assoc.client r).
  - intros r k projectID filters tr body.
    rewrite patchProjectTrafficFilters_dispatch.
    by destruct (Assoc.client r).
  - intros k1 k2 projectID res. simpl. unfold read_outcome.
    destruct res as [resp|err]; [|done].
    destruct (is_not_found resp) eqn:H404.
    + repeat split; try done. intros Hnot. by rewrite (Hnot resp eq_refl) in H404.
    + destruct (serverless.JSON200 resp) as [project|]; [|done].
      by destruct (serverless.Project_TrafficFilters project).
Qed.

Lemma kind_dispatch_witness :
  read_outcome (title Observability) "proj1"
    (Fixture.ok200 (Some [Fixture.tf "A"]))
  = read_outcome (title Security) "proj1"
      (Fixture.ok200 (Some [Fixture.tf "A"])).
Proof.
  apply (proj2 (proj2 kind_dispatch) Observability Security "proj1"
           (Fixture.ok200 (Some [Fixture.tf "A"]))).
  intros resp [= <-]. reflexivity.
Defined.

(** C10. A project without filters field: for each kind, a decoded
    payload whose traffic filters are absent makes the membership read
    return the empty list and no diagnostic, the very outcome of a
    payload with an explicitly empty list; Create on such a project
    writes the list that holds the new filter id alone. *)
Theorem absent_filters_read_as_empty :
  (forall r c k projectID tr resp project,
     Assoc.client r = Some c ->
     get_answer k c projectID = serverless.Ok resp ->
     is_not_found resp = false ->
     serverless.JSON200 resp = Some project ->
     serverless.Project_TrafficFilters project = None ->
     Assoc.getProjectTrafficFilters r projectID (name k) tr
     = Some (([], []), tr ++ [GetCall k projectID]))
  /\ (forall r c k projectID tr resp project,
        Assoc.client r = Some c ->
        get_answer k c projectID = serverless.Ok resp ->
        is_not_found resp = false ->
        serverless.JSON200 resp = Some project ->
        serverless.Project_TrafficFilters project = Some [] ->
        Assoc.getProjectTrafficFilters r projectID (name k) tr
        = Some (([], []), tr ++ [GetCall k projectID]))
  /\ (forall r c k req resp0 model tr resp project,
        let projectID := types.ValueString (Assoc.ProjectID model) in
        let F := types.ValueString (Assoc.TrafficFilterID model) in
        Assoc.client r = Some c ->
        resource.Plan req = Some model ->
        diag.HasError (resource.Diagnostics resp0) = false ->
        types.ValueString (Assoc.ProjectType model) = name k ->
        get_answer k c projectID = serverless.Ok resp ->
        is_not_found resp = false ->
        serverless.JSON200 resp = Some project ->
        serverless.Project_TrafficFilters project = None ->
        exists resp',
          Assoc.Create r req resp0 tr
          = Some (resp',
                  tr ++ [GetCall k projectID;
                         PatchCall k projectID
                           {| serverless.Patch_TrafficFilters :=
                                Some [ {| serverless.Id := F |} ] |}])).
Proof.
  assert (Hread : forall r c k projectID tr resp project filters,
     Assoc.client r = Some c ->
     get_answer k c projectID = serverless.Ok resp ->
     is_not_found resp = false ->
     serverless.JSON200 resp = Some project ->
     serverless.Project_TrafficFilters project = filters ->
     Assoc.getProjectTrafficFilters r projectID (name k) tr
     = Some ((default [] filters, []), tr ++ [GetCall k projectID])).
  { intros r c k projectID tr resp project filters Hc Hans H404 Hjson Hf.
    rewrite getProjectTrafficFilters_dispatch, Hc, GetMembership_run.
    unfold read_outcome. rewrite Hans, H404, Hjson, Hf.
    by destruct filters. }
  split; [|split].
  - intros r c k projectID tr resp project Hc Hans H404 Hjson Hf.
    by rewrite (Hread _ _ _ _ _ _ _ _ Hc Hans H404 Hjson Hf).
  - intros r c k projectID tr resp project Hc Hans H404 Hjson Hf.
    by rewrite (Hread _ _ _ _ _ _ _ _ Hc Hans H404 Hjson Hf).
  - intros r c k req resp0 model tr resp project projectID F
      Hc Hplan Hno Hk Hans H404 Hjson Hf.
    pose proof (Hread r c k projectID tr _ _ _ Hc Hans H404 Hjson Hf) as Hget.
    rewrite <- Hk in Hget.
    destruct (Create_writes_appended r req resp0 model tr [] [] _
                Hplan Hno Hget eq_refl) as (k' & resp' & Hk' & Hrun).
    { apply not_elem_of_nil. }
    exists resp'. rewrite Hk in Hk'.
    assert (k' = k) as -> by (by destruct k, k').
    exact Hrun.
Qed.

Lemma absent_filters_read_as_empty_witness :
  Assoc.getProjectTrafficFilters
    (Fixture.projects (Fixture.ok200 None) (Fixture.ok200 None))
    "test-project-id" "elasticsearch" []
  = Some (([], []), [serverless.GetElasticsearchProject "test-project-id"])
  /\ Assoc.getProjectTrafficFilters
       (Fixture.projects (Fixture.ok200 (Some [])) (Fixture.ok200 None))
       "test-project-id" "observability" []
     = Some (([], []), [serverless.GetObservabilityProject "test-project-id"])
  /\ exists resp',
       Assoc.Create
         (Fixture.projects (Fixture.ok200 None)
            (Fixture.ok200 (Some [Fixture.tf "filt1"])))
         {| resource.Plan :=
              Some (Fixture.association "proj1" "security" "filt1") |}
         (Fixture.fresh None) []
       = Some (resp',
               [serverless.GetSecurityProject "proj1";
                serverless.PatchSecurityProject "proj1"
                  {| serverless.Patch_TrafficFilters :=
                       Some [Fixture.tf "filt1"] |}]).
Proof.
  destruct absent_filters_read_as_empty as (Habsent & Hempty & Hcreate).
  split; [|split].
  - apply (Habsent
             (Fixture.projects (Fixture.ok200 None) (Fixture.ok200 None))
             (Fixture.transport (Fixture.ok200 None) (Fixture.ok200 None)
                (serverless.Err "unused") (serverless.Err "unused"))
             Elasticsearch "test-project-id" []
             {| serverless.Body := "";
                serverless.HTTPResponse :=
                  Some {| http.StatusCode := 200; http.Status := "200 OK" |};
                serverless.JSON200 := Some (Fixture.project None) |}
             (Fixture.project None));
      reflexivity.
  - apply (Hempty
             (Fixture.projects (Fixture.ok200 (Some [])) (Fixture.ok200 None))
             (Fixture.transport (Fixture.ok200 (Some [])) (Fixture.ok200 None)
                (serverless.Err "unused") (serverless.Err "unused"))
             Observability "test-project-id" []
             {| serverless.Body := "";
                serverless.HTTPResponse :=
                  Some {| http.StatusCode := 200; http.Status := "200 OK" |};
                serverless.JSON200 := Some (Fixture.project (Some [])) |}
             (Fixture.project (Some [])));
      reflexivity.
  - apply (Hcreate
             (Fixture.projects (Fixture.ok200 None)
                (Fixture.ok200 (Some [Fixture.tf "filt1"])))
             (Fixture.transport (Fixture.ok200 None)
                (Fixture.ok200 (Some [Fixture.tf "filt1"]))
                (serverless.Err "unused") (serverless.Err "unused"))
             Security
             {| resource.Plan :=
                  Some (Fixture.association "proj1" "security" "filt1") |}
             (Fixture.fresh None)
             (Fixture.association "proj1" "security" "filt1") []
             {| serverless.Body := "";
                serverless.HTTPResponse :=
                  Some {| http.StatusCode := 200; http.Status := "200 OK" |};
                serverless.JSON200 := Some (Fixture.project None) |}
             (Fixture.project None));
      reflexivity.
Defined.

End KindDispatch.

(** ** Import *)

Section ImportKey.

Import Dispatch.

Example Split_import_key :
  strings.Split "proj1,elasticsearch,filt1" ","
  = ["proj1"; "elasticsearch"; "filt1"].
Proof. reflexivity. Qed.

Example Split_edge_cases :
  strings.Split "" "," = [""]
  /\ strings.Split "," "," = [""; ""]
  /\ strings.Split "a,,b" "," = ["a"; ""; "b"]
  /\ strings.Split "proj1" "," = ["proj1"].
Proof. repeat split; reflexivity. Qed.

Example fmt_d_digits :
  fmt.d 404 = "404" /\ fmt.d 0 = "0" /\ fmt.d (-7) = "-7".
Proof. repeat split; reflexivity. Qed.

(** The import keys of the specification's examples. *)
Example import_two_components :
  Assoc.ImportState {| Assoc.client := None |}
    {| resource.ID := "proj1,filt1" |} (Fixture.fresh None) []
  = Some ({| resource.State := None;
             resource.Diagnostics :=
               [diag.NewErrorDiagnostic "Invalid import ID"
                  "Expected format: project_id,project_type,traffic_filter_id. Got: proj1,filt1"] |},
          []).
Proof. reflexivity. Qed.

Example import_bogus_type :
  Assoc.ImportState {| Assoc.client := None |}
    {| resource.ID := "proj1,bogus,filt1" |} (Fixture.fresh None) []
  = Some ({| resource.State := None;
             resource.Diagnostics :=
               [diag.NewErrorDiagnostic "Invalid project type"
                  "project_type must be one of: elasticsearch, observability, security. Got: bogus"] |},
          []).
Proof. reflexivity. Qed.

Lemma Split_cons_inv s : exists part parts, strings.Split s "," = part :: parts.
Proof.
  induction s as [|c s (part & parts & IH)]; simpl; [by eexists _, _|].
  destruct (Ascii.eqb c ","); [by eexists _, _|].
  rewrite IH. by eexists _, _.
Qed.

(** Splitting loses nothing: the components joined by commas give the
    string back. *)
Lemma join_Split s : join (strings.Split s ",") = s.
Proof.
  induction s as [|c s IH]; simpl; [done|].
  destruct (Ascii.eqb_spec c ",") as [->|_].
  - destruct (Split_cons_inv s) as (part & parts & Hs).
    rewrite Hs in IH |- *. simpl in IH |- *. by rewrite IH.
  - destruct (strings.Split s ",") as [|part [|part' parts]];
      simpl in IH |- *; by rewrite <- IH.
Qed.

Lemma Split_comma_free s :
  Forall (fun part => comma_free part = true) (strings.Split s ",").
Proof.
  induction s as [|c s IH]; simpl; [by repeat constructor|].
  destruct (Ascii.eqb c ",") eqn:Hc; [by constructor|].
  destruct (strings.Split s ",") as [|part parts].
  { constructor; [simpl; by rewrite Hc|constructor]. }
  apply Forall_cons in IH as [Hpart Hparts].
  constructor; [|done]. simpl. by rewrite Hc.
Qed.

Lemma Split_length s : length (strings.Split s ",") = S (commas s).
Proof.
  induction s as [|c s IH]; simpl; [done|].
  destruct (Ascii.eqb c ","); simpl; [by rewrite IH|].
  destruct (strings.Split s ","); simpl in *; done.
Qed.

Lemma Split_comma_free_one s :
  comma_free s = true -> strings.Split s "," = [s].
Proof.
  induction s as [|c s IH]; simpl; [done|].
  intros [Hc Hs]%andb_true_iff. apply negb_true_iff in Hc.
  by rewrite Hc, (IH Hs).
Qed.

Lemma Split_app_comma part rest :
  comma_free part = true ->
  strings.Split (part ++ "," ++ rest) "," = part :: strings.Split rest ",".
Proof.
  induction part as [|c part IH]; simpl; [done|].
  intros [Hc Hs]%andb_true_iff. apply negb_true_iff in Hc.
  by rewrite Hc, (IH Hs).
Qed.

(** The keys that split into exactly three components. *)
Lemma Split_three s P T F :
  strings.Split s "," = [P; T; F]
  <-> s = (P ++ "," ++ T ++ "," ++ F)%string
      /\ comma_free P = true /\ comma_free T = true /\ comma_free F = true.
Proof.
  split.
  - intros Hs. pose proof (join_Split s) as Hjoin.
    pose proof (Split_comma_free s) as Hfree. rewrite Hs in Hjoin, Hfree.
    simpl in Hjoin.
    apply Forall_cons in Hfree as [HP Hfree].
    apply Forall_cons in Hfree as [HT Hfree].
    apply Forall_cons in Hfree as [HF _]. done.
  - intros (-> & HP & HT & HF).
    by rewrite (Split_app_comma _ _ HP), (Split_app_comma _ _ HT),
      (Split_comma_free_one _ HF).
Qed.

Lemma recognized_eqb projectType :
  negb (String.eqb projectType "elasticsearch")
  && negb (String.eqb projectType "observability")
  && negb (String.eqb projectType "security") = false
  <-> recognized projectType.
Proof.
  unfold recognized.
  destruct (String.eqb_spec projectType "elasticsearch");
    destruct (String.eqb_spec projectType "observability");
    destruct (String.eqb_spec projectType "security"); simpl;
    intuition congruence.
Qed.

(** What ImportState does, by the shape of the key: it never fails to
    return and never talks to the server. *)
Lemma ImportState_run r req resp tr :
  diag.HasError (resource.Diagnostics resp) = false ->
  Assoc.ImportState r req resp tr
  = Some
      (match strings.Split (resource.ID req) "," with
       | [P; T; F] =>
           if negb (String.eqb T "elasticsearch")
              && negb (String.eqb T "observability")
              && negb (String.eqb T "security")
           then
             {| resource.State := resource.State resp;
                resource.Diagnostics :=
                  resource.Diagnostics resp
                  ++ [diag.NewErrorDiagnostic "Invalid project type"
                        ("project_type must be one of: elasticsearch, observability, security. Got: "
                           ++ T)] |}
           else
             {| resource.State := Some (imported P T F);
                resource.Diagnostics := resource.Diagnostics resp |}
       | _ =>
           {| resource.State := resource.State resp;
              resource.Diagnostics :=
                resource.Diagnostics resp
                ++ [diag.NewErrorDiagnostic "Invalid import ID"
                      ("Expected format: project_id,project_type,traffic_filter_id. Got: "
                         ++ resource.ID req)] |}
       end, tr).
Proof.
  intros Hno. destruct resp as [st dg]. simpl in Hno |- *.
  unfold Assoc.ImportState, resource.AddError.
  cbn [resource.Diagnostics resource.State].
  rewrite !(AddError_fresh _ _ _ Hno).
  destruct (strings.Split (resource.ID req) ",") as [|P [|T [|F [|X parts]]]];
    simpl; try reflexivity.
  destruct (negb (String.eqb T "elasticsearch")
            && negb (String.eqb T "observability")
            && negb (String.eqb T "security")); [done|].
  unfold Assoc.SetStateAttribute, resource.AppendDiagnostics. simpl.
  by destruct st.
Qed.

(** The claim that an import key succeeds only with three non-empty
    components fails: the key [,elasticsearch,] has two commas and a
    recognized middle component, and is imported with an empty project id
    and an empty filter id. *)
Lemma import_accepts_empty_components_counterexample :
  Assoc.ImportState {| Assoc.client := None |}
    {| resource.ID := ",elasticsearch," |} (Fixture.fresh None) []
  = Some ({| resource.State := Some (imported "" "elasticsearch" "");
             resource.Diagnostics := [] |}, [])
  /\ ~ (exists P T F,
          ",elasticsearch," = (P ++ "," ++ T ++ "," ++ F)%string
          /\ P <> "" /\ T <> "" /\ F <> ""
          /\ comma_free P = true /\ comma_free T = true
          /\ comma_free F = true).
Proof.
  split; [reflexivity|].
  intros (P & T & F & Hkey & HP & _ & _ & Hfree & _).
  destruct P as [|c P]; [done|]. simpl in Hkey, Hfree.
  injection Hkey as <- _. discriminate Hfree.
Qed.

(** C6, amended. Import parsing succeeds exactly when the key has exactly
    two commas, that is three comma-separated components, of which the
    first and the last may be empty, and the middle one is one of
    elasticsearch, observability, security; with another number of
    components it fails with "Invalid import ID", with an unrecognized
    middle component with "Invalid project type"; on success the four
    tracked attributes are set from the components (the id to
    [projectID-filterID]) and no transport call is made. *)
Theorem import_state_parsing r req resp tr :
  diag.HasError (resource.Diagnostics resp) = false ->
  exists resp',
    Assoc.ImportState r req resp tr = Some (resp', tr)
    /\ (diag.HasError (resource.Diagnostics resp') = false
        <-> exists P T F,
              resource.ID req = (P ++ "," ++ T ++ "," ++ F)%string
              /\ comma_free P = true /\ comma_free T = true
              /\ comma_free F = true /\ recognized T)
    /\ (diag.HasError (resource.Diagnostics resp') = false
        <-> commas (resource.ID req) = 2
            /\ recognized (nth 1 (strings.Split (resource.ID req) ",") ""))
    /\ (forall P T F,
          strings.Split (resource.ID req) "," = [P; T; F] ->
          recognized T ->
          resp' = {| resource.State := Some (imported P T F);
                     resource.Diagnostics := resource.Diagnostics resp |})
    /\ (length (strings.Split (resource.ID req) ",") <> 3 ->
        resp' = {| resource.State := resource.State resp;
                   resource.Diagnostics :=
                     resource.Diagnostics resp
                     ++ [diag.NewErrorDiagnostic "Invalid import ID"
                           ("Expected format: project_id,project_type,traffic_filter_id. Got: "
                              ++ resource.ID req)] |})
    /\ (forall P T F,
          strings.Split (resource.ID req) "," = [P; T; F] ->
          ~ recognized T ->
          resp' = {| resource.State := resource.State resp;
                     resource.Diagnostics :=
                       resource.Diagnostics resp
                       ++ [diag.NewErrorDiagnostic "Invalid project type"
                             ("project_type must be one of: elasticsearch, observability, security. Got: "
                                ++ T)] |}).
Proof.
  intros Hno. eexists. split; [apply (ImportState_run _ _ _ _ Hno)|].
  pose proof (Split_length (resource.ID req)) as Hlen.
  assert (Herr : forall summary detail,
    diag.HasError (resource.Diagnostics resp
                   ++ [diag.NewErrorDiagnostic summary detail]) = false
    <-> False).
  { intros. rewrite HasError_app. simpl. by rewrite orb_true_r. }
  destruct (strings.Split (resource.ID req) ",")
    as [|P [|T [|F [|X parts]]]] eqn:Hsplit; simpl in Hlen |- *.
  1,2,3,5:
    (split;
       [rewrite Herr; split; [done|];
        intros (P' & T' & F' & Hkey & HP & HT & HF & _);
        pose proof (proj2 (Split_three _ _ _ _)
                      (conj Hkey (conj HP (conj HT HF)))) as Hs;
        rewrite Hsplit in Hs; discriminate Hs|]);
    (split;
       [rewrite Herr; split; [done|];
        intros [Hcm _]; rewrite Hcm in Hlen; discriminate Hlen|]);
    (split; [intros P' T' F' Heq; discriminate Heq|]);
    (split; [done|]);
    intros P' T' F' Heq; discriminate Heq.
  destruct (negb (String.eqb T "elasticsearch")
            && negb (String.eqb T "observability")
            && negb (String.eqb T "security")) eqn:Hrec.
  - assert (Hnot : ~ recognized T).
    { intros Hr. apply recognized_eqb in Hr. congruence. }
    simpl. rewrite !Herr.
    split; [|split; [|split; [|split]]].
    + split; [done|].
      intros (P' & T' & F' & Hkey & HP & HT & HF & Hr).
      pose proof (proj2 (Split_three _ _ _ _)
                    (conj Hkey (conj HP (conj HT HF)))) as Hs.
      rewrite Hsplit in Hs. injection Hs as -> -> ->. done.
    + split; [done|]. by intros [_ Hr].
    + by intros P' T' F' [= <- <- <-] Hr.
    + done.
    + by intros P' T' F' [= <- <- <-] _.
  - apply recognized_eqb in Hrec. simpl. rewrite Hno.
    apply Split_three in Hsplit as Hkey.
    split; [|split; [|split; [|split]]].
    + split; [|done]. intros _. exists P, T, F. tauto.
    + split; [|done]. intros _. split; [|done]. by injection Hlen as <-.
    + by intros P' T' F' [= <- <- <-] _.
    + done.
    + by intros P' T' F' [= <- <- <-] Hnot.
Qed.

Lemma import_state_parsing_witness :
  Assoc.ImportState {| Assoc.client := None |}
    {| resource.ID := "proj1,elasticsearch,filt1" |} (Fixture.fresh None) []
  = Some ({| resource.State := Some (imported "proj1" "elasticsearch" "filt1");
             resource.Diagnostics := [] |}, []).
Proof.
  destruct (import_state_parsing {| Assoc.client := None |}
              {| resource.ID := "proj1,elasticsearch,filt1" |}
              (Fixture.fresh None) [] eq_refl)
    as (resp' & Hrun & _ & _ & Hok & _).
  rewrite Hrun.
  rewrite (Hok "proj1" "elasticsearch" "filt1" eq_refl (or_introl eq_refl)).
  reflexivity.
Defined.

End ImportKey.

(** ** Identity of an association *)

Section Identity.



End Identity.

(** ** Filter entity Delete *)

Section FilterDelete.

(** C8. Delete of a filter entity, once the transport has answered:
    with status 200, 204 or 404 the response is returned as it was, and
    these are the only statuses without error; with any other status one
    error diagnostic "Failed to delete traffic filter" is added whose
    detail holds the status code, the status line and the raw body. *)
Theorem filter_delete_status r c req resp model tr deleteResp :
  let id := types.ValueString (Filter.ID model) in
  let code := serverless.StatusCode deleteResp in
  let tolerated := (code = 200 \/ code = 204 \/ code = 404)%Z in
  Filter.client r = Some c ->
  resource.PriorState req = Some model ->
  diag.HasError (resource.Diagnostics resp) = false ->
  serverless.deleteTrafficFilter c id = serverless.Ok deleteResp ->
  exists resp',
    Filter.Delete r req resp tr
    = Some (resp', tr ++ [serverless.DeleteTrafficFilter id])
    /\ (diag.HasError (resource.Diagnostics resp') = false <-> tolerated)
    /\ (tolerated -> resp' = resp)
    /\ (~ tolerated ->
        resp' =
          {| resource.State := resource.State resp;
             resource.Diagnostics :=
               resource.Diagnostics resp
               ++ [diag.NewErrorDiagnostic "Failed to delete traffic filter"
                     ("The API request failed with: " ++ fmt.d code ++ " "
                        ++ serverless.Status deleteResp ++ fmt.newline
                        ++ serverless.Body deleteResp)] |}).
Proof.
  intros id code tolerated Hc Hstate Hno Hans.
  destruct resp as [st dg]. simpl in Hno.
  unfold Filter.Delete. rewrite Hstate. simpl. rewrite Hno, Hc.
  unfold op.bind, serverless.DeleteTrafficFilterWithResponse. simpl.
  fold id. rewrite Hans. fold code.
  unfold resource.AddError. cbn [resource.Diagnostics resource.State].
  rewrite (AddError_fresh _ _ _ Hno).
  unfold tolerated, http.StatusOK, http.StatusNoContent, http.StatusNotFound.
  destruct (Z.eqb_spec code 200) as [->|H200]; simpl.
  { eexists. split; [reflexivity|]. simpl. intuition done. }
  destruct (Z.eqb_spec code 204) as [->|H204]; simpl.
  { eexists. split; [reflexivity|]. simpl. intuition done. }
  destruct (Z.eqb_spec code 404) as [->|H404]; simpl.
  { eexists. split; [reflexivity|]. simpl. intuition done. }
  eexists. split; [reflexivity|]. simpl.
  rewrite HasError_app. simpl. rewrite orb_true_r.
  split; [|split]; intuition done.
Qed.

Lemma filter_delete_status_witness :
  Filter.Delete
    (Fixture.filters (serverless.Err "unused")
       (Fixture.status 404 "404 Not Found" "gone"))
    {| resource.PriorState := Some Fixture.office |}
    (Fixture.fresh (Some Fixture.office)) []
  = Some (Fixture.fresh (Some Fixture.office),
          [serverless.DeleteTrafficFilter "filt1"])
  /\ Filter.Delete
       (Fixture.filters (serverless.Err "unused")
          (Fixture.status 500 "500 Internal Server Error" "boom"))
       {| resource.PriorState := Some Fixture.office |}
       (Fixture.fresh (Some Fixture.office)) []
     = Some ({| resource.State := Some Fixture.office;
                resource.Diagnostics :=
                  [diag.NewErrorDiagnostic "Failed to delete traffic filter"
                     ("The API request failed with: 500 500 Internal Server Error"
                        ++ fmt.newline ++ "boom")] |},
             [serverless.DeleteTrafficFilter "filt1"]).
Proof.
  split.
  - destruct (filter_delete_status
                (Fixture.filters (serverless.Err "unused")
                   (Fixture.status 404 "404 Not Found" "gone"))
                (Fixture.transport (serverless.Err "unused")
                   (serverless.Err "unused") (serverless.Err "unused")
                   (Fixture.status 404 "404 Not Found" "gone"))
                {| resource.PriorState := Some Fixture.office |}
                (Fixture.fresh (Some Fixture.office)) Fixture.office []
                (Fixture.response 404 "404 Not Found" "gone")
                eq_refl eq_refl eq_refl eq_refl)
      as (resp' & Hrun & _ & Hok & _).
    rewrite Hrun, Hok; [reflexivity|]. right. right. reflexivity.
  - destruct (filter_delete_status
                (Fixture.filters (serverless.Err "unused")
                   (Fixture.status 500 "500 Internal Server Error" "boom"))
                (Fixture.transport (serverless.Err "unused")
                   (serverless.Err "unused") (serverless.Err "unused")
                   (Fixture.status 500 "500 Internal Server Error" "boom"))
                {| resource.PriorState := Some Fixture.office |}
                (Fixture.fresh (Some Fixture.office)) Fixture.office []
                (Fixture.response 500 "500 Internal Server Error" "boom")
                eq_refl eq_refl eq_refl eq_refl)
      as (resp' & Hrun & _ & _ & Herr).
    rewrite Hrun, Herr; [reflexivity|].
    intros [H|[H|H]]; discriminate H.
Defined.

End FilterDelete.

(** * Further properties of the association resource *)

Section AssociationRuns.

Import Dispatch.

(** The membership read ends in one of two ways: a list and no
    diagnostic, or no list and one error; it has then made no call (the
    project type is not recognized) or the one get call of its kind. *)
Lemma getProjectTrafficFilters_shape r projectID projectType tr S d tr1 :
  Assoc.getProjectTrafficFilters r projectID projectType tr
  = Some ((S, d), tr1) ->
  (d = [] \/ (S = [] /\ exists summary detail,
                d = [diag.NewErrorDiagnostic summary detail]))
  /\ ((~ recognized projectType /\ tr1 = tr)
      \/ exists k, projectType = name k /\ tr1 = tr ++ [GetCall k projectID]).
Proof.
  intros Hrun.
  destruct (of_string projectType) as [k|] eqn:Hk.
  - apply of_string_Some in Hk. subst projectType.
    rewrite getProjectTrafficFilters_dispatch in Hrun.
    destruct (Assoc.client r) as [c|]; [|done].
    rewrite GetMembership_run in Hrun. injection Hrun as Hout <-.
    split; [|right; by exists k].
    unfold read_outcome in Hout.
    destruct (get_answer k c projectID) as [resp|err].
    + destruct (is_not_found resp).
      { injection Hout as <- <-. right. split; [done|]. by eexists _, _. }
      destruct (serverless.JSON200 resp) as [project|].
      * destruct (serverless.Project_TrafficFilters project);
          injection Hout as <- <-; by left.
      * injection Hout as <- <-. right. split; [done|]. by eexists _, _.
    + injection Hout as <- <-. right. split; [done|]. by eexists _, _.
  - rewrite (getProjectTrafficFilters_unknown _ _ _ Hk) in Hrun.
    injection Hrun as <- <- <-. split.
    + right. split; [done|]. by eexists _, _.
    + left. split; [|done]. intros Hr. apply recognized_eqb in Hr.
      unfold of_string in Hk.
      destruct (String.eqb projectType "elasticsearch"); [done|].
      destruct (String.eqb projectType "observability"); [done|].
      destruct (String.eqb projectType "security"); done.
Qed.

Lemma patchProjectTrafficFilters_run r c k projectID filters tr :
  Assoc.client r = Some c ->
  Assoc.patchProjectTrafficFilters r projectID (name k) filters tr
  = Some (patch_outcome
            (patch_answer k c projectID
               {| serverless.Patch_TrafficFilters := Some filters |}),
          tr ++ [PatchCall k projectID
                   {| serverless.Patch_TrafficFilters := Some filters |}]).
Proof.
  intros Hc.
  by rewrite patchProjectTrafficFilters_dispatch, Hc, PatchMembership_run.
Qed.

Lemma HasError_single summary detail :
  diag.HasError [diag.NewErrorDiagnostic summary detail] = true.
Proof. reflexivity. Qed.

Lemma HasError_Append_single dg summary detail :
  diag.HasError (diag.Append dg [diag.NewErrorDiagnostic summary detail])
  = true.
Proof. rewrite HasError_Append. simpl. apply orb_true_r. Qed.

Local Opaque Assoc.getProjectTrafficFilters Assoc.patchProjectTrafficFilters.


(** Create, case by case: on every exit with an error the state is the
    one it started from; the calls follow the discipline. *)
Lemma Create_exits r req resp tr resp' tr' :
  Assoc.Create r req resp tr = Some (resp', tr') ->
  (diag.HasError (resource.Diagnostics resp') = true ->
   resource.State resp' = resource.State resp)
  /\ call_discipline tr tr'.
Proof.
  intros Hrun. destruct resp as [st dg].
  unfold Assoc.Create, Assoc.resourceReady in Hrun.
  destruct (Assoc.client r) as [c|] eqn:Hc; simpl in Hrun.
  2:{ injection Hrun as <- <-. split; [done|by left]. }
  destruct (resource.Plan req) as [model|].
  2:{ unfold tfsdk.Get, resource.AppendDiagnostics in Hrun.
      cbn [resource.Diagnostics resource.State] in Hrun.
      rewrite HasError_Append_single in Hrun. injection Hrun as <- <-.
      split; [done|by left]. }
  simpl in Hrun.
  destruct (diag.HasError dg) eqn:Hno.
  { injection Hrun as <- <-. split; [done|by left]. }
  unfold op.bind at 1 in Hrun.
  destruct (Assoc.getProjectTrafficFilters _ _ _ tr)
    as [[[S d] tr1]|] eqn:Hget; [|done].
  simpl in Hrun.
  destruct (diag.HasError (diag.Append dg d)) eqn:Hd.
  { injection Hrun as <- <-. split; [done|].
    destruct (getProjectTrafficFilters_shape _ _ _ _ _ _ _ Hget)
      as [_ [[_ ->]|(k & _ & ->)]]; [by left|right; left; by eexists _, _]. }
  rewrite HasError_Append, Hno in Hd. simpl in Hd.
  destruct (getProjectTrafficFilters_ok _ _ _ _ _ _ _ Hget Hd)
    as (k & c' & Hk & _ & -> & -> & _).
  simpl in Hrun.
  destruct (existsb _ S).
  { injection Hrun as <- <-. simpl. split; [congruence|].
    right; left; by eexists _, _. }
  unfold op.bind in Hrun.
  rewrite Hk, (patchProjectTrafficFilters_run _ _ _ _ _ _ Hc) in Hrun.
  simpl in Hrun.
  split.
  - destruct (diag.HasError (diag.Append dg _)) eqn:Hd2;
      injection Hrun as <- <-; simpl; [done|congruence].
  - right; right. exists k. eexists _, _.
    destruct (diag.HasError (diag.Append dg _));
      injection Hrun as _ <-; by rewrite <- app_assoc.
Qed.

Lemma Read_exits r req resp tr resp' tr' :
  Assoc.Read r req resp tr = Some (resp', tr') ->
  (diag.HasError (resource.Diagnostics resp') = true ->
   resource.State resp' = resource.State resp)
  /\ (tr' = tr \/ exists k projectID, tr' = tr ++ [GetCall k projectID]).
Proof.
  intros Hrun. destruct resp as [st dg].
  unfold Assoc.Read, Assoc.resourceReady in Hrun.
  destruct (Assoc.client r) as [c|] eqn:Hc; simpl in Hrun.
  2:{ injection Hrun as <- <-. split; [done|by left]. }
  destruct (resource.PriorState req) as [model|].
  2:{ unfold tfsdk.Get, resource.AppendDiagnostics in Hrun.
      cbn [resource.Diagnostics resource.State] in Hrun.
      rewrite HasError_Append_single in Hrun. injection Hrun as <- <-.
      split; [done|by left]. }
  simpl in Hrun.
  destruct (diag.HasError dg) eqn:Hno.
  { injection Hrun as <- <-. split; [done|by left]. }
  unfold op.bind in Hrun.
  destruct (Assoc.getProjectTrafficFilters _ _ _ tr)
    as [[[S d] tr1]|] eqn:Hget; [|done].
  simpl in Hrun.
  assert (Htr : tr1 = tr \/ exists k projectID, tr1 = tr ++ [GetCall k projectID]).
  { destruct (getProjectTrafficFilters_shape _ _ _ _ _ _ _ Hget)
      as [_ [[_ ->]|(k & _ & ->)]]; [by left|right; by eexists _, _]. }
  destruct (diag.HasError (diag.Append dg d)) eqn:Hd.
  { by injection Hrun as <- <-. }
  destruct (negb _); injection Hrun as <- <-; simpl; (split; [congruence|done]).
Qed.

Lemma Delete_exits r req resp tr resp' tr' :
  Assoc.Delete r req resp tr = Some (resp', tr') ->
  resource.State resp' = resource.State resp
  /\ call_discipline tr tr'.
Proof.
  intros Hrun. destruct resp as [st dg].
  unfold Assoc.Delete, Assoc.resourceReady in Hrun.
  destruct (Assoc.client r) as [c|] eqn:Hc; simpl in Hrun.
  2:{ injection Hrun as <- <-. split; [done|by left]. }
  destruct (resource.PriorState req) as [model|].
  2:{ unfold tfsdk.Get, resource.AppendDiagnostics in Hrun.
      cbn [resource.Diagnostics resource.State] in Hrun.
      rewrite HasError_Append_single in Hrun. injection Hrun as <- <-.
      split; [done|by left]. }
  simpl in Hrun.
  destruct (diag.HasError dg) eqn:Hno.
  { injection Hrun as <- <-. split; [done|by left]. }
  unfold op.bind at 1 in Hrun.
  destruct (Assoc.getProjectTrafficFilters _ _ _ tr)
    as [[[S d] tr1]|] eqn:Hget; [|done].
  simpl in Hrun.
  destruct (diag.HasError (diag.Append dg d)) eqn:Hd.
  { injection Hrun as <- <-. split; [done|].
    destruct (getProjectTrafficFilters_shape _ _ _ _ _ _ _ Hget)
      as [_ [[_ ->]|(k & _ & ->)]]; [by left|right; left; by eexists _, _]. }
  rewrite HasError_Append, Hno in Hd. simpl in Hd.
  destruct (getProjectTrafficFilters_ok _ _ _ _ _ _ _ Hget Hd)
    as (k & c' & Hk & _ & -> & -> & _).
  unfold op.bind in Hrun.
  rewrite Hk, (patchProjectTrafficFilters_run _ _ _ _ _ _ Hc) in Hrun.
  injection Hrun as <- <-. split; [done|].
  right; right. exists k. eexists _, _. by rewrite <- app_assoc.
Qed.

End AssociationRuns.

Section AssociationEdges.

Import Dispatch.

Lemma getProjectTrafficFilters_total r c projectID projectType tr :
  Assoc.client r = Some c ->
  is_Some (Assoc.getProjectTrafficFilters r projectID projectType tr).
Proof.
  intros Hc. destruct (of_string projectType) as [k|] eqn:Hk.
  - apply of_string_Some in Hk. subst projectType.
    rewrite getProjectTrafficFilters_dispatch, Hc, GetMembership_run. eauto.
  - rewrite (getProjectTrafficFilters_unknown _ _ _ Hk). by eexists.
Qed.

Lemma patchProjectTrafficFilters_unknown r projectID projectType filters :
  of_string projectType = None ->
  Assoc.patchProjectTrafficFilters r projectID projectType filters
  = op.ret (diag.AddError [] "Invalid project type"
              ("Unknown project type: " ++ projectType)).
Proof.
  unfold of_string, Assoc.patchProjectTrafficFilters.
  destruct (String.eqb projectType "elasticsearch"); [done|].
  destruct (String.eqb projectType "observability"); [done|].
  destruct (String.eqb projectType "security"); done.
Qed.

Lemma patchProjectTrafficFilters_total r c projectID projectType filters tr :
  Assoc.client r = Some c ->
  is_Some (Assoc.patchProjectTrafficFilters r projectID projectType filters tr).
Proof.
  intros Hc. destruct (of_string projectType) as [k|] eqn:Hk.
  - apply of_string_Some in Hk. subst projectType.
    rewrite (patchProjectTrafficFilters_run _ _ _ _ _ _ Hc). eauto.
  - rewrite (patchProjectTrafficFilters_unknown _ _ _ _ Hk). by eexists.
Qed.

Lemma of_string_unrecognized projectType :
  ~ recognized projectType -> of_string projectType = None.
Proof.
  intros Hnot. unfold of_string.
  destruct (String.eqb_spec projectType "elasticsearch") as [->|_].
  { destruct Hnot. by left. }
  destruct (String.eqb_spec projectType "observability") as [->|_].
  { destruct Hnot. right. by left. }
  destruct (String.eqb_spec projectType "security") as [->|_]; [|done].
  destruct Hnot. right. by right.
Qed.

Local Opaque Assoc.getProjectTrafficFilters Assoc.patchProjectTrafficFilters.

(** X1. Update of an association always fails: whatever the request,
    the response ends with an error, the state is the one it started
    from and no transport call is made. *)
Theorem update_always_fails r req resp tr :
  exists resp',
    Assoc.Update r req resp tr = Some (resp', tr)
    /\ diag.HasError (resource.Diagnostics resp') = true
    /\ resource.State resp' = resource.State resp
    /\ (diag.HasError (resource.Diagnostics resp) = false ->
        resource.Diagnostics resp'
        = resource.Diagnostics resp
          ++ [diag.NewErrorDiagnostic "Update not supported"
                "All attributes of this resource require replacement. This is a bug in the provider."]).
Proof.
  eexists. split; [reflexivity|]. simpl.
  split; [apply HasError_AddError|]. split; [done|].
  intros Hno. by apply AddError_fresh.
Qed.

Lemma update_always_fails_witness :
  exists resp',
    Assoc.Update (Server.resource [])
      {| resource.PriorState :=
           Some (Fixture.association "proj1" "security" "filt1") |}
      (Fixture.fresh (Some (Fixture.association "proj1" "security" "filt1")))
      []
    = Some (resp', [])
    /\ resource.Diagnostics resp'
       = [diag.NewErrorDiagnostic "Update not supported"
            "All attributes of this resource require replacement. This is a bug in the provider."].
Proof.
  destruct (update_always_fails (Server.resource [])
              {| resource.PriorState :=
                   Some (Fixture.association "proj1" "security" "filt1") |}
              (Fixture.fresh
                 (Some (Fixture.association "proj1" "security" "filt1")))
              []) as (resp' & Hrun & _ & _ & Hdiags).
  exists resp'. split; [exact Hrun|]. apply Hdiags. reflexivity.
Defined.

(** X2. Without a configured client, Create, Read and Delete of an
    association report "Unconfigured API Client" and stop: no transport
    call, no panic, the state as it was. *)
Theorem unconfigured_client_is_reported creq sreq resp tr :
  let r := {| Assoc.client := None |} in
  let reported :=
    resource.AddError resp "Unconfigured API Client"
      "Expected configured API client. Please report this issue to the provider developers." in
  Assoc.Create r creq resp tr = Some (reported, tr)
  /\ Assoc.Read r sreq resp tr = Some (reported, tr)
  /\ Assoc.Delete r sreq resp tr = Some (reported, tr)
  /\ diag.HasError (resource.Diagnostics reported) = true
  /\ resource.State reported = resource.State resp.
Proof.
  simpl. repeat split; try reflexivity. apply HasError_AddError.
Qed.

(** X3. The association operations never panic: with any client or none,
    any request and any response to start from, Create, Read, Update,
    Delete and ImportState return. The two helpers do not have this
    guard of their own: called for a recognized kind without a client
    they panic. *)
Theorem association_never_panics :
  (forall r creq sreq ireq resp tr,
     is_Some (Assoc.Create r creq resp tr)
     /\ is_Some (Assoc.Read r sreq resp tr)
     /\ is_Some (Assoc.Update r sreq resp tr)
     /\ is_Some (Assoc.Delete r sreq resp tr)
     /\ is_Some (Assoc.ImportState r ireq resp tr))
  /\ (forall k projectID filters tr,
        Assoc.getProjectTrafficFilters {| Assoc.client := None |}
          projectID (name k) tr = None
        /\ Assoc.patchProjectTrafficFilters {| Assoc.client := None |}
             projectID (name k) filters tr = None).
Proof.
  split.
  - intros r creq sreq ireq [st dg] tr.
    assert (Hret : forall A (x : A),
              is_Some (op.ret (E := serverless.Call) x tr)) by (by eexists).
    split; [|split; [|split; [|split]]].
    + unfold Assoc.Create, Assoc.resourceReady.
      destruct (Assoc.client r) as [c|] eqn:Hc; simpl; [|done].
      destruct (tfsdk.Get _ _) as [model diags].
      destruct (diag.HasError _); [done|]. unfold op.bind at 1.
      destruct (getProjectTrafficFilters_total r c
                  (types.ValueString (Assoc.ProjectID model))
                  (types.ValueString (Assoc.ProjectType model)) tr Hc)
        as [[[S d] tr1] ->].
      destruct (diag.HasError _); [done|].
      destruct (existsb _ S); [done|]. unfold op.bind.
      match goal with
      | |- context [Assoc.patchProjectTrafficFilters r ?p ?t ?f tr1] =>
          destruct (patchProjectTrafficFilters_total r c p t f tr1 Hc)
            as [[d2 tr2] ->]
      end.
      by destruct (diag.HasError _).
    + unfold Assoc.Read, Assoc.resourceReady.
      destruct (Assoc.client r) as [c|] eqn:Hc; simpl; [|done].
      destruct (tfsdk.Get _ _) as [model diags].
      destruct (diag.HasError _); [done|]. unfold op.bind.
      destruct (getProjectTrafficFilters_total r c
                  (types.ValueString (Assoc.ProjectID model))
                  (types.ValueString (Assoc.ProjectType model)) tr Hc)
        as [[[S d] tr1] ->].
      destruct (diag.HasError _); [done|]. by destruct (negb _).
    + done.
    + unfold Assoc.Delete, Assoc.resourceReady.
      destruct (Assoc.client r) as [c|] eqn:Hc; simpl; [|done].
      destruct (tfsdk.Get _ _) as [model diags].
      destruct (diag.HasError _); [done|]. unfold op.bind at 1.
      destruct (getProjectTrafficFilters_total r c
                  (types.ValueString (Assoc.ProjectID model))
                  (types.ValueString (Assoc.ProjectType model)) tr Hc)
        as [[[S d] tr1] ->].
      destruct (diag.HasError _); [done|]. unfold op.bind.
      match goal with
      | |- context [Assoc.patchProjectTrafficFilters r ?p ?t ?f tr1] =>
          destruct (patchProjectTrafficFilters_total r c p t f tr1 Hc)
            as [[d2 tr2] ->]
      end.
      done.
    + unfold Assoc.ImportState.
      destruct (negb (Nat.eqb _ 3)); [done|]. by destruct (_ && _).
  - intros k projectID filters tr. split.
    + by rewrite getProjectTrafficFilters_dispatch.
    + by rewrite patchProjectTrafficFilters_dispatch.
Qed.

(** X4. An unrecognized project type stops Create, Read and Delete of a
    configured resource before any transport call: each reports "Invalid
    project type" with the offending value and leaves the state as it
    was. *)
Theorem unknown_project_type_is_rejected r c creq sreq resp model tr :
  let projectType := types.ValueString (Assoc.ProjectType model) in
  let rejected :=
    {| resource.State := resource.State resp;
       resource.Diagnostics :=
         resource.Diagnostics resp
         ++ [diag.NewErrorDiagnostic "Invalid project type"
               ("Unknown project type: " ++ projectType)] |} in
  Assoc.client r = Some c ->
  resource.Plan creq = Some model ->
  resource.PriorState sreq = Some model ->
  diag.HasError (resource.Diagnostics resp) = false ->
  ~ recognized projectType ->
  Assoc.Create r creq resp tr = Some (rejected, tr)
  /\ Assoc.Read r sreq resp tr = Some (rejected, tr)
  /\ Assoc.Delete r sreq resp tr = Some (rejected, tr).
Proof.
  intros projectType rejected Hc Hplan Hstate Hno Hnot.
  apply of_string_unrecognized in Hnot.
  destruct resp as [st dg]. simpl in Hno. unfold rejected. simpl.
  assert (Herr : diag.HasError
                   (dg ++ [diag.NewErrorDiagnostic "Invalid project type"
                             ("Unknown project type: " ++ projectType)])
                 = true).
  { rewrite HasError_app. simpl. apply orb_true_r. }
  split; [|split].
  - unfold Assoc.Create, Assoc.resourceReady. rewrite Hc, Hplan. simpl.
    rewrite Hno. unfold op.bind. fold projectType.
    rewrite (getProjectTrafficFilters_unknown _ _ _ Hnot). simpl.
    rewrite (Contains_fresh _ _ _ Hno), Herr.
    unfold resource.AppendDiagnostics. simpl.
    by rewrite (Contains_fresh _ _ _ Hno).
  - unfold Assoc.Read, Assoc.resourceReady. rewrite Hc, Hstate. simpl.
    rewrite Hno. unfold op.bind. fold projectType.
    rewrite (getProjectTrafficFilters_unknown _ _ _ Hnot). simpl.
    rewrite (Contains_fresh _ _ _ Hno), Herr.
    unfold resource.AppendDiagnostics. simpl.
    by rewrite (Contains_fresh _ _ _ Hno).
  - unfold Assoc.Delete, Assoc.resourceReady. rewrite Hc, Hstate. simpl.
    rewrite Hno. unfold op.bind. fold projectType.
    rewrite (getProjectTrafficFilters_unknown _ _ _ Hnot). simpl.
    rewrite (Contains_fresh _ _ _ Hno), Herr.
    unfold resource.AppendDiagnostics. simpl.
    by rewrite (Contains_fresh _ _ _ Hno).
Qed.

Lemma unknown_project_type_is_rejected_witness :
  Assoc.Create (Server.resource [])
    {| resource.Plan := Some (Fixture.association "proj1" "bogus" "filt1") |}
    (Fixture.fresh None) []
  = Some ({| resource.State := None;
             resource.Diagnostics :=
               [diag.NewErrorDiagnostic "Invalid project type"
                  "Unknown project type: bogus"] |}, []).
Proof.
  apply (unknown_project_type_is_rejected (Server.resource [])
           (Server.transport [])
           {| resource.Plan :=
                Some (Fixture.association "proj1" "bogus" "filt1") |}
           {| resource.PriorState :=
                Some (Fixture.association "proj1" "bogus" "filt1") |}
           (Fixture.fresh None)
           (Fixture.association "proj1" "bogus" "filt1") []);
    try reflexivity.
  intros [H|[H|H]]; discriminate H.
Defined.

End AssociationEdges.

Section AssociationInvariants.

Import Dispatch.

Local Opaque Assoc.getProjectTrafficFilters Assoc.patchProjectTrafficFilters.

(** X5. State is written on success only: when Create or Read of an
    association ends with an error, whatever the cause, the state is the
    one it started from; Delete never changes the state. *)
Theorem association_error_leaves_state :
  (forall r req resp tr resp' tr',
     Assoc.Create r req resp tr = Some (resp', tr') ->
     diag.HasError (resource.Diagnostics resp') = true ->
     resource.State resp' = resource.State resp)
  /\ (forall r req resp tr resp' tr',
        Assoc.Read r req resp tr = Some (resp', tr') ->
        diag.HasError (resource.Diagnostics resp') = true ->
        resource.State resp' = resource.State resp)
  /\ (forall r req resp tr resp' tr',
        Assoc.Delete r req resp tr = Some (resp', tr') ->
        resource.State resp' = resource.State resp).
Proof.
  split; [|split].
  - intros r req resp tr resp' tr' Hrun.
    apply (Create_exits _ _ _ _ _ _ Hrun).
  - intros r req resp tr resp' tr' Hrun.
    apply (Read_exits _ _ _ _ _ _ Hrun).
  - intros r req resp tr resp' tr' Hrun.
    apply (Delete_exits _ _ _ _ _ _ Hrun).
Qed.

Lemma association_error_leaves_state_witness :
  let tracked := Fixture.association "proj1" "security" "filt1" in
  resource.State
    {| resource.State := None;
       resource.Diagnostics :=
         [diag.NewErrorDiagnostic "Failed to update project"
            "permission denied"] |}
  = resource.State (Fixture.fresh (M := Assoc.modelV0) None)
  /\ resource.State
       {| resource.State := Some tracked;
          resource.Diagnostics :=
            [diag.NewErrorDiagnostic "Failed to read project"
               "connection refused"] |}
     = resource.State (Fixture.fresh (Some tracked))
  /\ resource.State (Fixture.fresh (Some tracked))
     = resource.State (Fixture.fresh (Some tracked)).
Proof.
  intros tracked. destruct association_error_leaves_state
    as (Hcreate & Hread & Hdelete).
  split; [|split].
  - apply (Hcreate
             (Fixture.projects (Fixture.ok200 None)
                (serverless.Err "permission denied"))
             {| resource.Plan := Some tracked |}
             (Fixture.fresh None) []
             _
             [serverless.GetSecurityProject "proj1";
              serverless.PatchSecurityProject "proj1"
                {| serverless.Patch_TrafficFilters :=
                     Some [Fixture.tf "filt1"] |}]);
      reflexivity.
  - apply (Hread
             (Fixture.projects (serverless.Err "connection refused")
                (Fixture.ok200 None))
             {| resource.PriorState := Some tracked |}
             (Fixture.fresh (Some tracked)) []
             _ [serverless.GetSecurityProject "proj1"]);
      reflexivity.
  - apply (Hdelete
             (Fixture.projects (Fixture.ok200 (Some [Fixture.tf "filt1"]))
                (Fixture.ok200 (Some [])))
             {| resource.PriorState := Some tracked |}
             (Fixture.fresh (Some tracked)) []
             _
             [serverless.GetSecurityProject "proj1";
              serverless.PatchSecurityProject "proj1"
                {| serverless.Patch_TrafficFilters := Some [] |}]).
    reflexivity.
Defined.

(** X6. Call discipline: a run of Create or Delete makes no call, or the
    one read, or the read followed by one write to the same project
    under the same kind; a run of Read makes at most the one read and
    never a write. *)
Theorem association_call_discipline :
  (forall r req resp tr resp' tr',
     Assoc.Create r req resp tr = Some (resp', tr') ->
     call_discipline tr tr')
  /\ (forall r req resp tr resp' tr',
        Assoc.Delete r req resp tr = Some (resp', tr') ->
        call_discipline tr tr')
  /\ (forall r req resp tr resp' tr',
        Assoc.Read r req resp tr = Some (resp', tr') ->
        (tr' = tr \/ exists k projectID, tr' = tr ++ [GetCall k projectID])
        /\ patches tr' = patches tr).
Proof.
  split; [|split].
  - intros r req resp tr resp' tr' Hrun.
    apply (Create_exits _ _ _ _ _ _ Hrun).
  - intros r req resp tr resp' tr' Hrun.
    apply (Delete_exits _ _ _ _ _ _ Hrun).
  - intros r req resp tr resp' tr' Hrun.
    destruct (Read_exits _ _ _ _ _ _ Hrun) as [_ Htr].
    split; [done|].
    destruct Htr as [->|(k & projectID & ->)]; [done|].
    by rewrite patches_app, patches_GetCall, app_nil_r.
Qed.

Lemma association_call_discipline_witness :
  let tracked := Fixture.association "proj1" "observability" "A" in
  call_discipline []
    [serverless.GetObservabilityProject "proj1";
     serverless.PatchObservabilityProject "proj1"
       {| serverless.Patch_TrafficFilters := Some [Fixture.tf "A"] |}]
  /\ call_discipline []
       [serverless.GetObservabilityProject "proj1";
        serverless.PatchObservabilityProject "proj1"
          {| serverless.Patch_TrafficFilters := Some [] |}]
  /\ patches [serverless.GetObservabilityProject "proj1"] = patches [].
Proof.
  intros tracked. destruct association_call_discipline
    as (Hcreate & Hdelete & Hread).
  split; [|split].
  - apply (Hcreate
             (Fixture.projects (Fixture.ok200 None)
                (Fixture.ok200 (Some [Fixture.tf "A"])))
             {| resource.Plan := Some tracked |}
             (Fixture.fresh None) []
             (Fixture.fresh
                (Some (Assoc.set_ID tracked (types.StringValue "proj1-A"))))).
    reflexivity.
  - apply (Hdelete
             (Fixture.projects (Fixture.ok200 (Some [Fixture.tf "A"]))
                (Fixture.ok200 (Some [])))
             {| resource.PriorState := Some tracked |}
             (Fixture.fresh (Some tracked)) []
             (Fixture.fresh (Some tracked))).
    reflexivity.
  - apply (proj2 (Hread
                    (Fixture.projects (Fixture.ok200 (Some [Fixture.tf "A"]))
                       (serverless.Err "no write expected"))
                    {| resource.PriorState := Some tracked |}
                    (Fixture.fresh (Some tracked)) []
                    (Fixture.fresh (Some tracked))
                    [serverless.GetObservabilityProject "proj1"]
                    eq_refl)).
Defined.

(** X7. A failed membership read blocks the write: when the read made by
    Create, Read or Delete ends with an error (transport failure, project
    not found, undecoded payload, unrecognized type), the operation
    returns the diagnostics of the read on top of its own, the state as
    it was, and a trace that ends with the read: nothing is patched. *)
Theorem failed_read_blocks_write r c creq sreq resp model tr S d tr1 :
  let projectID := types.ValueString (Assoc.ProjectID model) in
  let projectType := types.ValueString (Assoc.ProjectType model) in
  let failed := resource.AppendDiagnostics resp d in
  Assoc.client r = Some c ->
  resource.Plan creq = Some model ->
  resource.PriorState sreq = Some model ->
  diag.HasError (resource.Diagnostics resp) = false ->
  Assoc.getProjectTrafficFilters r projectID projectType tr
  = Some ((S, d), tr1) ->
  diag.HasError d = true ->
  Assoc.Create r creq resp tr = Some (failed, tr1)
  /\ Assoc.Read r sreq resp tr = Some (failed, tr1)
  /\ Assoc.Delete r sreq resp tr = Some (failed, tr1)
  /\ patches tr1 = patches tr
  /\ resource.State failed = resource.State resp
  /\ S = [].
Proof.
  intros projectID projectType failed Hc Hplan Hstate Hno Hget Hd.
  assert (Herr : diag.HasError (diag.Append (resource.Diagnostics resp) d)
                 = true).
  { rewrite HasError_Append, Hd. apply orb_true_r. }
  destruct (getProjectTrafficFilters_shape _ _ _ _ _ _ _ Hget)
    as [Hshape Htr].
  unfold failed. destruct resp as [st dg]. simpl in Hno, Herr.
  split; [|split; [|split; [|split; [|split; [done|]]]]].
  - unfold Assoc.Create, Assoc.resourceReady. rewrite Hc, Hplan. simpl.
    rewrite Hno. unfold op.bind. fold projectID projectType.
    rewrite Hget. simpl. by rewrite Herr.
  - unfold Assoc.Read, Assoc.resourceReady. rewrite Hc, Hstate. simpl.
    rewrite Hno. unfold op.bind. fold projectID projectType.
    rewrite Hget. simpl. by rewrite Herr.
  - unfold Assoc.Delete, Assoc.resourceReady. rewrite Hc, Hstate. simpl.
    rewrite Hno. unfold op.bind. fold projectID projectType.
    rewrite Hget. simpl. by rewrite Herr.
  - destruct Htr as [[_ ->]|(k & _ & ->)]; [done|].
    by rewrite patches_app, patches_GetCall, app_nil_r.
  - destruct Hshape as [->|[-> _]]; [discriminate Hd|done].
Qed.

Lemma failed_read_blocks_write_witness :
  Assoc.Delete
    (Fixture.projects (serverless.Err "connection refused")
       (Fixture.ok200 None))
    {| resource.PriorState :=
         Some (Fixture.association "proj1" "elasticsearch" "filt1") |}
    (Fixture.fresh (Some (Fixture.association "proj1" "elasticsearch" "filt1")))
    []
  = Some ({| resource.State :=
               Some (Fixture.association "proj1" "elasticsearch" "filt1");
             resource.Diagnostics :=
               [diag.NewErrorDiagnostic "Failed to read project"
                  "connection refused"] |},
          [serverless.GetElasticsearchProject "proj1"]).
Proof.
  refine (proj1 (proj2 (proj2
            (failed_read_blocks_write
               (Fixture.projects (serverless.Err "connection refused")
                  (Fixture.ok200 None))
               (Fixture.transport (serverless.Err "connection refused")
                  (Fixture.ok200 None) (serverless.Err "unused")
                  (serverless.Err "unused"))
               {| resource.Plan :=
                    Some (Fixture.association "proj1" "elasticsearch" "filt1") |}
               {| resource.PriorState :=
                    Some (Fixture.association "proj1" "elasticsearch" "filt1") |}
               (Fixture.fresh
                  (Some (Fixture.association "proj1" "elasticsearch" "filt1")))
               (Fixture.association "proj1" "elasticsearch" "filt1")
               [] []
               [diag.NewErrorDiagnostic "Failed to read project"
                  "connection refused"]
               [serverless.GetElasticsearchProject "proj1"]
               _ _ _ _ _ _))));
    reflexivity.
Defined.

(** X8. The membership read returns a list or an error, never both: its
    outcome is a list with no diagnostic at all, or the empty list with
    exactly one error diagnostic; it has then made no call (unrecognized
    project type) or exactly the get call of the kind, never a write. *)
Theorem membership_read_shape r projectID projectType tr S d tr1 :
  Assoc.getProjectTrafficFilters r projectID projectType tr
  = Some ((S, d), tr1) ->
  (d = [] \/ (S = [] /\ exists summary detail,
                d = [diag.NewErrorDiagnostic summary detail]))
  /\ ((~ recognized projectType /\ tr1 = tr)
      \/ exists k, projectType = name k /\ tr1 = tr ++ [GetCall k projectID])
  /\ patches tr1 = patches tr.
Proof.
  intros Hrun.
  destruct (getProjectTrafficFilters_shape _ _ _ _ _ _ _ Hrun)
    as [Hshape Htr].
  split; [done|]. split; [done|].
  destruct Htr as [[_ ->]|(k & _ & ->)]; [done|].
  by rewrite patches_app, patches_GetCall, app_nil_r.
Qed.

Lemma membership_read_shape_witness :
  patches [serverless.GetSecurityProject "proj1"] = patches [].
Proof.
  apply (proj2 (proj2
           (membership_read_shape
              (Fixture.projects (Fixture.status 500 "500 Internal Server Error" "boom")
                 (Fixture.ok200 None))
              "proj1" "security" [] []
              [diag.NewErrorDiagnostic "Failed to read project"
                 (fmt.Sprintf_request_failed 500 "500 Internal Server Error"
                    "boom")]
              [serverless.GetSecurityProject "proj1"] eq_refl))).
Defined.

End AssociationInvariants.

(** * The association operations against a server that keeps what is
    written *)

Section Composition.

Import Dispatch.

Lemma Server_get_answer k S projectID :
  get_answer k (Server.transport S) projectID = Fixture.ok200 (Some S).
Proof. by destruct k. Qed.

Lemma Server_patch_answer k S projectID body :
  patch_answer k (Server.transport S) projectID body
  = Fixture.ok200 (Some (default S (serverless.Patch_TrafficFilters body))).
Proof. by destruct k. Qed.

Lemma Server_read k S projectID tr :
  Assoc.getProjectTrafficFilters (Server.resource S) projectID (name k) tr
  = Some ((S, []), tr ++ [GetCall k projectID]).
Proof.
  rewrite getProjectTrafficFilters_dispatch. simpl.
  by rewrite GetMembership_run, Server_get_answer.
Qed.

Lemma Server_patch k S projectID filters tr :
  Assoc.patchProjectTrafficFilters (Server.resource S) projectID (name k)
    filters tr
  = Some ([], tr ++ [PatchCall k projectID
                       {| serverless.Patch_TrafficFilters := Some filters |}]).
Proof.
  rewrite (patchProjectTrafficFilters_run _ (Server.transport S)); [|done].
  by rewrite Server_patch_answer.
Qed.

Lemma stored_read k projectID S : Server.stored S [GetCall k projectID] = S.
Proof. by destruct k. Qed.

Lemma stored_read_write k projectID S L :
  Server.stored S
    [GetCall k projectID;
     PatchCall k projectID {| serverless.Patch_TrafficFilters := Some L |}]
  = L.
Proof. by destruct k. Qed.

Lemma removed_snoc F (S : list serverless.TrafficFilter) :
  List.filter (fun f => negb (String.eqb (serverless.Id f) F))
    (S ++ [ {| serverless.Id := F |} ])
  = List.filter (fun f => negb (String.eqb (serverless.Id f) F)) S.
Proof.
  rewrite List.filter_app. simpl. rewrite String.eqb_refl. simpl.
  apply app_nil_r.
Qed.

Lemma removed_twice F (S : list serverless.TrafficFilter) :
  List.filter (fun f => negb (String.eqb (serverless.Id f) F))
    (List.filter (fun f => negb (String.eqb (serverless.Id f) F)) S)
  = List.filter (fun f => negb (String.eqb (serverless.Id f) F)) S.
Proof.
  induction S as [|f S IH]; simpl; [done|].
  destruct (negb _) eqn:Hf; simpl; [|done]. by rewrite Hf, IH.
Qed.

Lemma removed_not_member F (S : list serverless.TrafficFilter) :
  F ∉ ids (List.filter (fun f => negb (String.eqb (serverless.Id f) F)) S).
Proof.
  unfold ids. rewrite list_elem_of_fmap. intros (f & Hf & Hin).
  apply removed_elem in Hin as [_ Hne]. by destruct Hne.
Qed.

Lemma ids_unique_snoc F S :
  NoDup (ids S) -> F ∉ ids S -> NoDup (ids (S ++ [ {| serverless.Id := F |} ])).
Proof.
  intros Hnd Hnotin. rewrite ids_snoc. apply NoDup_app.
  split; [done|]. split.
  - intros x Hx [->|[]]%list_elem_of_In. done.
  - apply NoDup_singleton.
Qed.

Lemma ids_unique_removed F S :
  NoDup (ids S) ->
  NoDup (ids (List.filter
                (fun f => negb (String.eqb (serverless.Id f) F)) S)).
Proof.
  unfold ids. induction S as [|f S IH]; simpl; [done|].
  intros [Hf Hnd]%NoDup_cons. destruct (negb _); [|by apply IH].
  simpl. apply NoDup_cons. split; [|by apply IH].
  rewrite list_elem_of_fmap. intros (g & Hg & Hin).
  apply removed_elem in Hin as [Hin _]. apply Hf.
  rewrite list_elem_of_fmap. by exists g.
Qed.

Local Opaque Assoc.getProjectTrafficFilters Assoc.patchProjectTrafficFilters.

Lemma Server_Create k P F S st :
  Assoc.Create (Server.resource S)
    {| resource.Plan := Some (Fixture.association P (name k) F) |}
    (Fixture.fresh st) []
  = Some (Fixture.fresh
            (Some (Assoc.set_ID (Fixture.association P (name k) F)
                     (types.StringValue (P ++ "-" ++ F)))),
          if existsb (fun f => String.eqb (serverless.Id f) F) S
          then [GetCall k P]
          else [GetCall k P;
                PatchCall k P
                  {| serverless.Patch_TrafficFilters :=
                       Some (S ++ [ {| serverless.Id := F |} ]) |}]).
Proof.
  unfold Assoc.Create. simpl. unfold op.bind at 1.
  rewrite Server_read. simpl.
  destruct (existsb _ S); [done|].
  unfold op.bind. by rewrite Server_patch.
Qed.

Lemma Server_Delete k P F S tracked :
  Assoc.ProjectID tracked = types.StringValue P ->
  Assoc.ProjectType tracked = types.StringValue (name k) ->
  Assoc.TrafficFilterID tracked = types.StringValue F ->
  Assoc.Delete (Server.resource S)
    {| resource.PriorState := Some tracked |}
    (Fixture.fresh (Some tracked)) []
  = Some (Fixture.fresh (Some tracked),
          [GetCall k P;
           PatchCall k P
             {| serverless.Patch_TrafficFilters :=
                  Some (List.filter
                          (fun f => negb (String.eqb (serverless.Id f) F))
                          S) |}]).
Proof.
  intros HP HT HF. unfold Assoc.Delete. simpl. rewrite HP, HT, HF. simpl.
  unfold op.bind at 1. rewrite Server_read. simpl.
  unfold op.bind. by rewrite Server_patch.
Qed.

Lemma Server_Read k P F S tracked :
  Assoc.ProjectID tracked = types.StringValue P ->
  Assoc.ProjectType tracked = types.StringValue (name k) ->
  Assoc.TrafficFilterID tracked = types.StringValue F ->
  Assoc.Read (Server.resource S)
    {| resource.PriorState := Some tracked |}
    (Fixture.fresh (Some tracked)) []
  = Some (Fixture.fresh
            (if existsb (fun f => String.eqb (serverless.Id f) F) S
             then Some tracked else None),
          [GetCall k P]).
Proof.
  intros HP HT HF. unfold Assoc.Read. simpl. rewrite HP, HT, HF. simpl.
  unfold op.bind. rewrite Server_read. simpl.
  by destruct (existsb _ S).
Qed.

(** X9. Create composed with itself and with Read: against a server that
    holds [S], Create succeeds and leaves the server with [S] itself when
    the filter was a member, or [S] with the filter appended otherwise;
    the filter is then a member, ids that were unique stay unique; a
    second Create against the new list succeeds with the same state and
    makes the read only, and Read keeps the tracked association. *)
Theorem create_twice_writes_once k P F S st :
  let plan := {| resource.Plan := Some (Fixture.association P (name k) F) |} in
  let tracked :=
    Assoc.set_ID (Fixture.association P (name k) F)
      (types.StringValue (P ++ "-" ++ F)) in
  exists tr1,
    Assoc.Create (Server.resource S) plan (Fixture.fresh st) []
    = Some (Fixture.fresh (Some tracked), tr1)
    /\ let S1 := Server.stored S tr1 in
       F ∈ ids S1
       /\ (if bool_decide (F ∈ ids S) then S1 = S
           else S1 = S ++ [ {| serverless.Id := F |} ])
       /\ (NoDup (ids S) -> NoDup (ids S1))
       /\ Assoc.Create (Server.resource S1) plan (Fixture.fresh st) []
          = Some (Fixture.fresh (Some tracked), [GetCall k P])
       /\ Server.stored S1 [GetCall k P] = S1
       /\ Assoc.Read (Server.resource S1)
            {| resource.PriorState := Some tracked |}
            (Fixture.fresh (Some tracked)) []
          = Some (Fixture.fresh (Some tracked), [GetCall k P]).
Proof.
  intros plan tracked. eexists. split; [apply Server_Create|].
  assert (Hmember : forall S1, F ∈ ids S1 ->
    Assoc.Create (Server.resource S1) plan (Fixture.fresh st) []
    = Some (Fixture.fresh (Some tracked), [GetCall k P])
    /\ Server.stored S1 [GetCall k P] = S1
    /\ Assoc.Read (Server.resource S1)
         {| resource.PriorState := Some tracked |}
         (Fixture.fresh (Some tracked)) []
       = Some (Fixture.fresh (Some tracked), [GetCall k P])).
  { intros S1 Hin. apply ids_existsb in Hin.
    split; [|split].
    - unfold plan. by rewrite Server_Create, Hin.
    - apply stored_read.
    - by rewrite (Server_Read k P F S1 tracked), Hin. }
  destruct (existsb _ S) eqn:Hex; cbv zeta.
  - apply ids_existsb in Hex. rewrite stored_read.
    rewrite (bool_decide_eq_true_2 _ Hex).
    split; [done|]. split; [done|]. split; [done|]. by apply Hmember.
  - apply ids_existsb_false in Hex. rewrite stored_read_write.
    rewrite (bool_decide_eq_false_2 _ Hex).
    assert (Hin : F ∈ ids (S ++ [ {| serverless.Id := F |} ])).
    { rewrite ids_snoc, elem_of_app, list_elem_of_singleton. by right. }
    split; [done|]. split; [done|].
    split; [intros Hnd; by apply ids_unique_snoc|]. by apply Hmember.
Qed.

Lemma create_twice_writes_once_witness :
  exists tr1,
    Assoc.Create (Server.resource [Fixture.tf "A"])
      {| resource.Plan := Some (Fixture.association "proj1" "security" "B") |}
      (Fixture.fresh None) []
    = Some (Fixture.fresh
              (Some (Assoc.set_ID (Fixture.association "proj1" "security" "B")
                       (types.StringValue "proj1-B"))), tr1)
    /\ NoDup (ids (Server.stored [Fixture.tf "A"] tr1)).
Proof.
  destruct (create_twice_writes_once Dispatch.Security "proj1" "B"
              [Fixture.tf "A"] None)
    as (tr1 & Hrun & _ & _ & Hunique & _).
  exists tr1. split; [exact Hrun|].
  apply Hunique. apply NoDup_singleton.
Defined.

(** X10. Delete composed with Create and with Read: against the list
    that Create left from [S], Delete succeeds and leaves the server with
    [S] without every entry of the filter id; this is [S] itself when the
    filter was no member before Create, so Delete undoes Create, and it
    is not [S] when the filter was a member before. Read against the new
    list drops the association, and a second Delete writes the same list
    again. *)
Theorem delete_undoes_create k P F S st :
  let plan := {| resource.Plan := Some (Fixture.association P (name k) F) |} in
  let tracked :=
    Assoc.set_ID (Fixture.association P (name k) F)
      (types.StringValue (P ++ "-" ++ F)) in
  let sreq := {| resource.PriorState := Some tracked |} in
  exists tr1 tr2 tr3,
    Assoc.Create (Server.resource S) plan (Fixture.fresh st) []
    = Some (Fixture.fresh (Some tracked), tr1)
    /\ let S1 := Server.stored S tr1 in
       Assoc.Delete (Server.resource S1) sreq (Fixture.fresh (Some tracked)) []
       = Some (Fixture.fresh (Some tracked), tr2)
       /\ let S2 := Server.stored S1 tr2 in
          S2 = List.filter
                 (fun f => negb (String.eqb (serverless.Id f) F)) S
          /\ (F ∉ ids S2)
          /\ (F ∉ ids S -> S2 = S)
          /\ (F ∈ ids S -> S2 <> S)
          /\ (NoDup (ids S) -> NoDup (ids S2))
          /\ Assoc.Read (Server.resource S2) sreq
               (Fixture.fresh (Some tracked)) []
             = Some (Fixture.fresh None, [GetCall k P])
          /\ Assoc.Delete (Server.resource S2) sreq
               (Fixture.fresh (Some tracked)) []
             = Some (Fixture.fresh (Some tracked), tr3)
          /\ Server.stored S2 tr3 = S2.
Proof.
  intros plan tracked sreq. eexists _, _, _.
  split; [apply Server_Create|]. cbv zeta.
  split; [by apply Server_Delete|].
  rewrite stored_read_write.
  assert (Hkept :
    List.filter (fun f => negb (String.eqb (serverless.Id f) F))
      (Server.stored S
         (if existsb (fun f => String.eqb (serverless.Id f) F) S
          then [GetCall k P]
          else [GetCall k P;
                PatchCall k P
                  {| serverless.Patch_TrafficFilters :=
                       Some (S ++ [ {| serverless.Id := F |} ]) |}]))
    = List.filter (fun f => negb (String.eqb (serverless.Id f) F)) S).
  { destruct (existsb _ S).
    - by rewrite stored_read.
    - by rewrite stored_read_write, removed_snoc. }
  rewrite Hkept.
  split; [done|]. split; [apply removed_not_member|].
  split; [apply removed_absent|].
  split.
  { intros Hin Heq. apply (removed_not_member F S). by rewrite Heq. }
  split; [apply ids_unique_removed|].
  split.
  { rewrite (Server_Read k P F _ tracked); [|done..].
    pose proof (removed_not_member F S) as Hnot.
    apply ids_existsb_false in Hnot. by rewrite Hnot. }
  split; [by apply Server_Delete|].
  by rewrite stored_read_write, removed_twice.
Qed.

Lemma delete_undoes_create_witness :
  exists tr1 tr2,
    Assoc.Delete
      (Server.resource (Server.stored [Fixture.tf "A"] tr1))
      {| resource.PriorState :=
           Some (Assoc.set_ID (Fixture.association "proj1" "security" "B")
                   (types.StringValue "proj1-B")) |}
      (Fixture.fresh
         (Some (Assoc.set_ID (Fixture.association "proj1" "security" "B")
                  (types.StringValue "proj1-B")))) []
    = Some (Fixture.fresh
              (Some (Assoc.set_ID (Fixture.association "proj1" "security" "B")
                       (types.StringValue "proj1-B"))), tr2)
    /\ Server.stored (Server.stored [Fixture.tf "A"] tr1) tr2
       = [Fixture.tf "A"].
Proof.
  destruct (delete_undoes_create Dispatch.Security "proj1" "B"
              [Fixture.tf "A"] None)
    as (tr1 & tr2 & tr3 & _ & Hdelete & _ & _ & Hundo & _).
  exists tr1, tr2. split; [exact Hdelete|].
  apply Hundo. apply ids_existsb_false. reflexivity.
Defined.

End Composition.

(** * Import keys, identities and the schema's validator *)

Section ImportComposition.

Import Dispatch.

Lemma comma_free_app s t :
  comma_free (s ++ t) = comma_free s && comma_free t.
Proof.
  induction s as [|c s IH]; simpl; [done|]. by rewrite IH, andb_assoc.
Qed.

Lemma comma_free_name k : comma_free (name k) = true.
Proof. by destruct k. Qed.

Lemma recognized_name_of k : recognized (name k).
Proof. destruct k; [by left|right; by left|right; by right]. Qed.

Lemma Split_join parts :
  parts <> [] ->
  Forall (fun part => comma_free part = true) parts ->
  strings.Split (join parts) "," = parts.
Proof.
  induction parts as [|part rest IH]; [done|]. intros _ Hfree.
  apply Forall_cons in Hfree as [Hpart Hrest].
  destruct rest as [|part' rest].
  - simpl. by apply Split_comma_free_one.
  - change (join (part :: part' :: rest))
      with (part ++ "," ++ join (part' :: rest))%string.
    rewrite (Split_app_comma _ _ Hpart). by rewrite IH.
Qed.

Lemma append_eq_self (s t : string) : (s ++ t)%string = s -> t = "".
Proof.
  induction s as [|c s IH]; simpl; [done|]. intros [= H]. by apply IH.
Qed.

Lemma string_app_assoc (s t u : string) :
  ((s ++ t) ++ u)%string = (s ++ t ++ u)%string.
Proof.
  induction s as [|c s IH]; [done|].
  change (String c ((s ++ t) ++ u) = String c (s ++ t ++ u))%string.
  by f_equal.
Qed.

Lemma string_length_app (s t : string) :
  String.length (s ++ t) = String.length s + String.length t.
Proof.
  induction s as [|c s IH]; [done|].
  change (S (String.length (s ++ t)) = S (String.length s + String.length t)).
  by f_equal.
Qed.

(** X11. Splitting and joining are inverse: the components of any string
    joined by commas give the string back, they contain no comma and
    there is one more of them than there are commas; and a non-empty
    list of comma-free components is what splitting its join returns. *)
Theorem split_join_round_trip :
  (forall s,
     join (strings.Split s ",") = s
     /\ length (strings.Split s ",") = S (commas s)
     /\ Forall (fun part => comma_free part = true) (strings.Split s ","))
  /\ (forall parts,
        parts <> [] ->
        Forall (fun part => comma_free part = true) parts ->
        strings.Split (join parts) "," = parts).
Proof.
  split.
  - intros s. split; [apply join_Split|].
    split; [apply Split_length|apply Split_comma_free].
  - apply Split_join.
Qed.

Lemma split_join_round_trip_witness :
  strings.Split (join ["proj1"; ""; "filt1"]) "," = ["proj1"; ""; "filt1"].
Proof.
  apply (proj2 split_join_round_trip ["proj1"; ""; "filt1"]).
  - discriminate.
  - repeat constructor.
Defined.

(** X12. The import key can be read back from the imported state: when
    ImportState ends without error, the state holds three known
    comma-free attributes whose join by commas is the key, the identity
    is the project id, a dash and the filter id, and the project type
    passes the validator of the schema. *)
Theorem import_key_is_recoverable r req resp tr resp' tr' :
  diag.HasError (resource.Diagnostics resp) = false ->
  Assoc.ImportState r req resp tr = Some (resp', tr') ->
  diag.HasError (resource.Diagnostics resp') = false ->
  exists m,
    resource.State resp' = Some m
    /\ resource.ID req
       = join [types.ValueString (Assoc.ProjectID m);
               types.ValueString (Assoc.ProjectType m);
               types.ValueString (Assoc.TrafficFilterID m)]
    /\ Assoc.ID m
       = types.StringValue
           (types.ValueString (Assoc.ProjectID m) ++ "-"
              ++ types.ValueString (Assoc.TrafficFilterID m))
    /\ comma_free (types.ValueString (Assoc.ProjectID m)) = true
    /\ comma_free (types.ValueString (Assoc.TrafficFilterID m)) = true
    /\ project_type_validator (Assoc.ProjectType m) = true
    /\ resource.Diagnostics resp' = resource.Diagnostics resp
    /\ tr' = tr.
Proof.
  intros Hno Hrun Hok.
  rewrite (ImportState_run _ _ _ _ Hno) in Hrun. injection Hrun as <- <-.
  assert (Herr : forall summary detail,
    diag.HasError (resource.Diagnostics resp
                   ++ [diag.NewErrorDiagnostic summary detail]) = true).
  { intros. rewrite HasError_app. simpl. apply orb_true_r. }
  destruct (strings.Split (resource.ID req) ",")
    as [|P [|T [|F [|X parts]]]] eqn:Hsplit; simpl in Hok;
    try (by rewrite Herr in Hok).
  destruct (negb (String.eqb T "elasticsearch")
            && negb (String.eqb T "observability")
            && negb (String.eqb T "security")) eqn:Hrec;
    simpl in Hok; [by rewrite Herr in Hok|].
  apply Split_three in Hsplit as (Hkey & HP & HT & HF).
  exists (imported P T F). simpl.
  repeat split; try done.
  unfold project_type_validator. simpl. rewrite orb_false_r.
  destruct (String.eqb T "elasticsearch"); [done|].
  destruct (String.eqb T "observability"); [done|].
  by destruct (String.eqb T "security").
Qed.

Lemma import_key_is_recoverable_witness :
  exists m,
    resource.State
      {| resource.State := Some (imported "proj1" "security" "filt1");
         resource.Diagnostics := [] |} = Some m
    /\ "proj1,security,filt1"
       = join [types.ValueString (Assoc.ProjectID m);
               types.ValueString (Assoc.ProjectType m);
               types.ValueString (Assoc.TrafficFilterID m)].
Proof.
  destruct (import_key_is_recoverable {| Assoc.client := None |}
              {| resource.ID := "proj1,security,filt1" |}
              (Fixture.fresh None) []
              {| resource.State := Some (imported "proj1" "security" "filt1");
                 resource.Diagnostics := [] |} []
              eq_refl eq_refl eq_refl)
    as (m & Hstate & Hkey & _).
  exists m. split; [exact Hstate|exact Hkey].
Defined.

(** X13. Import does not look at the server; Read does: an import key
    with comma-free project and filter ids and a recognized kind is
    imported as the association of its components, and Read of the
    imported state against a server that holds [S] asks for the project
    under the kind of the key once, keeps the association when the
    filter id is among the ids of [S] and drops it otherwise. *)
Theorem import_then_read k P F S :
  comma_free P = true ->
  comma_free F = true ->
  let key := (P ++ "," ++ name k ++ "," ++ F)%string in
  Assoc.ImportState {| Assoc.client := None |} {| resource.ID := key |}
    (Fixture.fresh None) []
  = Some (Fixture.fresh (Some (imported P (name k) F)), [])
  /\ Assoc.Read (Server.resource S)
       {| resource.PriorState := Some (imported P (name k) F) |}
       (Fixture.fresh (Some (imported P (name k) F))) []
     = Some (Fixture.fresh
               (if bool_decide (F ∈ ids S)
                then Some (imported P (name k) F) else None),
             [GetCall k P]).
Proof.
  intros HP HF key. split.
  - rewrite ImportState_run; [|done]. simpl. unfold key.
    rewrite (proj2 (Split_three _ P (name k) F));
      [|by rewrite comma_free_name].
    pose proof (proj2 (recognized_eqb (name k)) (recognized_name_of k)) as ->.
    reflexivity.
  - rewrite (Server_Read k P F S); [|done..].
    destruct (existsb _ S) eqn:Hex.
    + apply ids_existsb in Hex. by rewrite (bool_decide_eq_true_2 _ Hex).
    + apply ids_existsb_false in Hex.
      by rewrite (bool_decide_eq_false_2 _ Hex).
Qed.

Lemma import_then_read_witness :
  Assoc.Read (Server.resource [Fixture.tf "other"])
    {| resource.PriorState := Some (imported "proj1" "elasticsearch" "filt1") |}
    (Fixture.fresh (Some (imported "proj1" "elasticsearch" "filt1"))) []
  = Some (Fixture.fresh None, [serverless.GetElasticsearchProject "proj1"]).
Proof.
  exact (proj2 (import_then_read Elasticsearch "proj1" "filt1"
                  [Fixture.tf "other"] eq_refl eq_refl)).
Defined.

(** X14. The identity does not determine the association: two import
    keys that cut the same text at different dashes, [P-X] with filter
    [F] and [P] with filter [X-F], are both imported, as associations of
    different projects, under one and the same identity. *)
Theorem identity_is_ambiguous_at_dashes k P X F :
  comma_free P = true ->
  comma_free X = true ->
  comma_free F = true ->
  let key1 := ((P ++ "-" ++ X) ++ "," ++ name k ++ "," ++ F)%string in
  let key2 := (P ++ "," ++ name k ++ "," ++ (X ++ "-" ++ F))%string in
  exists m1 m2,
    Assoc.ImportState {| Assoc.client := None |} {| resource.ID := key1 |}
      (Fixture.fresh None) []
    = Some (Fixture.fresh (Some m1), [])
    /\ Assoc.ImportState {| Assoc.client := None |} {| resource.ID := key2 |}
         (Fixture.fresh None) []
       = Some (Fixture.fresh (Some m2), [])
    /\ Assoc.ID m1 = Assoc.ID m2
    /\ Assoc.ProjectID m1 <> Assoc.ProjectID m2
    /\ Assoc.TrafficFilterID m1 <> Assoc.TrafficFilterID m2.
Proof.
  intros HP HX HF key1 key2.
  assert (HPX : comma_free (P ++ "-" ++ X) = true).
  { rewrite !comma_free_app, HP, HX. reflexivity. }
  assert (HXF : comma_free (X ++ "-" ++ F) = true).
  { rewrite !comma_free_app, HX, HF. reflexivity. }
  pose proof (proj2 (recognized_eqb (name k)) (recognized_name_of k)) as Hrec.
  exists (imported (P ++ "-" ++ X) (name k) F),
         (imported P (name k) (X ++ "-" ++ F)).
  split; [|split; [|split; [|split]]].
  - rewrite ImportState_run; [|done]. simpl. unfold key1.
    rewrite (proj2 (Split_three _ (P ++ "-" ++ X) (name k) F));
      [|by rewrite comma_free_name].
    by rewrite Hrec.
  - rewrite ImportState_run; [|done]. simpl. unfold key2.
    rewrite (proj2 (Split_three _ P (name k) (X ++ "-" ++ F)));
      [|by rewrite comma_free_name].
    by rewrite Hrec.
  - unfold imported. cbn [Assoc.ID]. by rewrite !string_app_assoc.
  - simpl. intros [= H]. by apply append_eq_self in H.
  - simpl. intros [= H]. apply (f_equal String.length) in H.
    rewrite !string_length_app in H. simpl in H. lia.
Qed.

Lemma identity_is_ambiguous_at_dashes_witness :
  exists m1 m2,
    Assoc.ImportState {| Assoc.client := None |}
      {| resource.ID := "a-b,security,c" |} (Fixture.fresh None) []
    = Some (Fixture.fresh (Some m1), [])
    /\ Assoc.ImportState {| Assoc.client := None |}
         {| resource.ID := "a,security,b-c" |} (Fixture.fresh None) []
       = Some (Fixture.fresh (Some m2), [])
    /\ Assoc.ID m1 = Assoc.ID m2.
Proof.
  destruct (identity_is_ambiguous_at_dashes Security "a" "b" "c"
              eq_refl eq_refl eq_refl)
    as (m1 & m2 & H1 & H2 & Hid & _).
  exists m1, m2. split; [exact H1|]. split; [exact H2|exact Hid].
Defined.

(** X15. The validator of [project_type] in the schema accepts exactly
    the values the operations dispatch on: a known value passes it
    exactly when it is one of the three recognized types; a value that
    passes makes each helper call the transport once, a value that does
    not makes each helper report "Invalid project type" without a call;
    and ImportState accepts the middle component of a three-component
    key exactly when the validator does. *)
Theorem project_type_validator_matches_dispatch T :
  (project_type_validator (types.StringValue T) = true <-> recognized T)
  /\ (project_type_validator (types.StringValue T) = true ->
      forall c projectID filters tr,
        let r := {| Assoc.client := Some c |} in
        (exists k out,
           Assoc.getProjectTrafficFilters r projectID T tr
           = Some (out, tr ++ [GetCall k projectID]))
        /\ (exists k out,
              Assoc.patchProjectTrafficFilters r projectID T filters tr
              = Some (out, tr ++ [PatchCall k projectID
                                    {| serverless.Patch_TrafficFilters :=
                                         Some filters |}])))
  /\ (project_type_validator (types.StringValue T) = false ->
      forall r projectID filters tr,
        let invalid :=
          [diag.NewErrorDiagnostic "Invalid project type"
             ("Unknown project type: " ++ T)] in
        Assoc.getProjectTrafficFilters r projectID T tr
        = Some (([], invalid), tr)
        /\ Assoc.patchProjectTrafficFilters r projectID T filters tr
           = Some (invalid, tr))
  /\ (forall r req P F resp tr resp' tr',
        strings.Split (resource.ID req) "," = [P; T; F] ->
        diag.HasError (resource.Diagnostics resp) = false ->
        Assoc.ImportState r req resp tr = Some (resp', tr') ->
        (diag.HasError (resource.Diagnostics resp') = false
         <-> project_type_validator (types.StringValue T) = true)).
Proof.
  assert (Hvalid : project_type_validator (types.StringValue T)
                   = negb (negb (String.eqb T "elasticsearch")
                           && negb (String.eqb T "observability")
                           && negb (String.eqb T "security"))).
  { unfold project_type_validator. simpl. rewrite orb_false_r.
    destruct (String.eqb T "elasticsearch"); [done|].
    destruct (String.eqb T "observability"); [done|].
    by destruct (String.eqb T "security"). }
  assert (Hiff : project_type_validator (types.StringValue T) = true
                 <-> recognized T).
  { rewrite Hvalid, negb_true_iff. apply recognized_eqb. }
  split; [done|]. split; [|split].
  - intros Hok c projectID filters tr r.
    apply Hiff in Hok.
    assert (exists k, T = name k) as [k ->].
    { destruct Hok as [-> | [-> | ->]];
        [by exists Elasticsearch|by exists Observability|by exists Security]. }
    subst r. split; exists k; eexists.
    + rewrite getProjectTrafficFilters_dispatch. cbn [Assoc.client].
      by rewrite GetMembership_run.
    + by rewrite (patchProjectTrafficFilters_run _ c).
  - intros Hbad r projectID filters tr invalid.
    assert (Hnone : of_string T = None).
    { apply of_string_unrecognized. intros Hr. apply Hiff in Hr. congruence. }
    by rewrite (getProjectTrafficFilters_unknown _ _ _ Hnone),
      (patchProjectTrafficFilters_unknown _ _ _ _ Hnone).
  - intros r req P F resp tr resp' tr' Hsplit Hno Hrun.
    rewrite (ImportState_run _ _ _ _ Hno), Hsplit in Hrun.
    injection Hrun as <- _. rewrite Hvalid.
    destruct (negb (String.eqb T "elasticsearch")
              && negb (String.eqb T "observability")
              && negb (String.eqb T "security")); simpl.
    + rewrite HasError_app. simpl. rewrite orb_true_r. done.
    + by rewrite Hno.
Qed.

Lemma project_type_validator_matches_dispatch_witness :
  (exists k out,
     Assoc.getProjectTrafficFilters
       {| Assoc.client := Some (Server.transport []) |} "proj1" "security" []
     = Some (out, [] ++ [GetCall k "proj1"]))
  /\ Assoc.getProjectTrafficFilters {| Assoc.client := None |}
       "proj1" "Security" []
     = Some (([], [diag.NewErrorDiagnostic "Invalid project type"
                     "Unknown project type: Security"]), [])
  /\ (diag.HasError
        (resource.Diagnostics
           (Fixture.fresh (Some (imported "proj1" "security" "filt1"))))
      = false
      <-> project_type_validator (types.StringValue "security") = true).
Proof.
  split; [|split].
  - exact (proj1 (proj1 (proj2
             (project_type_validator_matches_dispatch "security"))
             eq_refl (Server.transport []) "proj1" [] [])).
  - exact (proj1 (proj1 (proj2 (proj2
             (project_type_validator_matches_dispatch "Security")))
             eq_refl {| Assoc.client := None |} "proj1" [] [])).
  - exact (proj2 (proj2 (proj2
             (project_type_validator_matches_dispatch "security")))
             {| Assoc.client := None |}
             {| resource.ID := "proj1,security,filt1" |}
             "proj1" "filt1" (Fixture.fresh None) []
             (Fixture.fresh (Some (imported "proj1" "security" "filt1"))) []
             eq_refl eq_refl eq_refl).
Defined.

End ImportComposition.

(** * The filter entity resource *)

Section FilterEntity.

Lemma settled_rules_round_trip rules :
  forallb settled_rule rules = true ->
  map (fun rule =>
         {| Filter.Source := Filter.stringValue (serverless.Source rule);
            Filter.Rule_Description :=
              match serverless.Rule_Description rule with
              | Some desc =>
                  if negb (String.eqb desc "") then Filter.stringValue desc
                  else types.StringNull
              | None => types.StringNull
              end |})
      (map (fun rule =>
              {| serverless.Source := types.ValueString (Filter.Source rule);
                 serverless.Rule_Description :=
                   basetypes.ValueStringPointer
                     (Filter.Rule_Description rule) |})
           rules)
  = rules.
Proof.
  induction rules as [|[source desc] rules IH]; simpl; [done|].
  intros [[Hsource Hdesc]%andb_true_iff Hrules]%andb_true_iff.
  simpl in Hsource, Hdesc. rewrite (IH Hrules). f_equal.
  destruct source as [| |s]; try done.
  destruct desc as [| |text]; try done.
  simpl. simpl in Hdesc. by rewrite Hdesc.
Qed.

(** Writing a filter model to the state: it is stored when its rules are
    a set, and refused with an error, the state kept, when two of them
    are equal. *)
Lemma SetState_distinct st dg m :
  Filter.distinct (Filter.Rules m) = true ->
  Filter.SetState {| resource.State := st; resource.Diagnostics := dg |} m
  = {| resource.State := Some m; resource.Diagnostics := dg |}.
Proof. intros H. unfold Filter.SetState, Filter.State_Set. by rewrite H. Qed.

Lemma SetState_duplicates st dg m :
  Filter.distinct (Filter.Rules m) = false ->
  exists resp',
    Filter.SetState {| resource.State := st; resource.Diagnostics := dg |} m
    = resp'
    /\ resource.State resp' = st
    /\ diag.HasError (resource.Diagnostics resp') = true.
Proof.
  intros H. eexists. split; [reflexivity|].
  unfold Filter.SetState, Filter.State_Set. rewrite H.
  unfold resource.AppendDiagnostics.
  cbn [resource.State resource.Diagnostics].
  split; [done|]. apply HasError_Append_single.
Qed.

Lemma modelFromResponse_created id m :
  settled m = true ->
  Filter.modelFromResponse
    (Server.created id
       {| FilterW.Create_Name := types.ValueString (Filter.Name m);
          FilterW.Create_Region := types.ValueString (Filter.Region m);
          FilterW.Create_Type := types.ValueString (Filter.Type_ m);
          FilterW.Create_Description :=
            basetypes.ValueStringPointer (Filter.Description m);
          FilterW.Create_IncludeByDefault :=
            basetypes.ValueBoolPointer (Filter.IncludeByDefault m);
          FilterW.Create_Rules :=
            if Nat.ltb 0 (length (Filter.Rules m)) then
              Some (map (fun rule =>
                           {| serverless.Source :=
                                types.ValueString (Filter.Source rule);
                              serverless.Rule_Description :=
                                basetypes.ValueStringPointer
                                  (Filter.Rule_Description rule) |})
                        (Filter.Rules m))
            else None |})
  = with_ID m (types.StringValue id).
Proof.
  destruct m as [mid name type region desc flag rules].
  unfold settled. cbn [Filter.Name Filter.Type_ Filter.Region
    Filter.Description Filter.IncludeByDefault Filter.Rules].
  intros [[[[[[Hname Htype]%andb_true_iff Hregion]%andb_true_iff
             Hdesc]%andb_true_iff Hflag]%andb_true_iff
             Hrules]%andb_true_iff _]%andb_true_iff.
  unfold Filter.modelFromResponse, Server.created, with_ID. simpl.
  destruct name as [| |name]; try done.
  destruct type as [| |type]; try done.
  destruct region as [| |region]; try done.
  destruct flag as [| |flag]; try done.
  f_equal.
  - destruct desc as [| |text]; try done. simpl. simpl in Hdesc.
    by rewrite Hdesc.
  - destruct rules as [|rule rules]; [done|].
    pose proof (settled_rules_round_trip (rule :: rules) Hrules) as Hrt.
    simpl in Hrt |- *. exact Hrt.
Qed.

Lemma settled_distinct m :
  settled m = true -> Filter.distinct (Filter.Rules m) = true.
Proof. unfold settled. by intros [_ H]%andb_true_iff. Qed.

(** X16. Create of a filter entity, round trip: for a settled plan,
    against a server that returns what it was sent under the id it
    assigns, Create makes one creation call, ends without diagnostic and
    stores the plan itself with the assigned id; the rules are sent
    exactly when the plan has some. *)
Theorem filter_create_round_trip id held m st :
  settled m = true ->
  exists body,
    FilterW.Create (FilterServer.resource id held)
      {| resource.Plan := Some m |} (Fixture.fresh st) []
    = Some (Fixture.fresh (Some (with_ID m (types.StringValue id))),
            [FilterW.CreateTrafficFilter body])
    /\ (FilterW.Create_Rules body = None <-> Filter.Rules m = [])
    /\ (FilterW.Create_Description body = None
        <-> Filter.Description m = types.StringNull).
Proof.
  intros Hsettled. eexists. split; [|split].
  - unfold FilterW.Create.
    cbn -[Filter.modelFromResponse Filter.SetState Server.created Nat.ltb].
    unfold op.bind.
    cbn -[Filter.modelFromResponse Filter.SetState Server.created Nat.ltb].
    rewrite (modelFromResponse_created id m Hsettled).
    unfold Fixture.fresh, resource.AppendDiagnostics.
    cbn [resource.State resource.Diagnostics diag.Append].
    rewrite SetState_distinct; [done|].
    by apply settled_distinct in Hsettled.
  - simpl. by destruct (Filter.Rules m).
  - simpl. by destruct (Filter.Description m).
Qed.

Lemma filter_create_round_trip_witness :
  exists body,
    FilterW.Create (FilterServer.resource "filt1" office_info)
      {| resource.Plan := Some (with_ID Fixture.office types.StringUnknown) |}
      (Fixture.fresh None) []
    = Some (Fixture.fresh (Some Fixture.office),
            [FilterW.CreateTrafficFilter body]).
Proof.
  destruct (filter_create_round_trip "filt1" office_info
              (with_ID Fixture.office types.StringUnknown) None eq_refl)
    as (body & Hrun & _).
  exists body. exact Hrun.
Defined.

(** X17. What a filter model loses on the way to the server and back.
    Against a server that returns what it was sent, the model Create
    writes to the state has the server's id and as many rules as the
    plan, but a description that was the empty string is null in it, and
    a null default-inclusion flag is false. When its rules are a set it
    is stored without diagnostic; when two of them are equal the write is
    refused, Create ends with an error and the state is the one it
    started from. The second case happens for a plan whose rules are a
    set: two rules of one source, one with a null description and one
    with the empty string, come back equal. *)
Theorem filter_create_normalises id held m st :
  exists written tr,
    FilterW.Create (FilterServer.resource id held)
      {| resource.Plan := Some m |} (Fixture.fresh st) []
    = Some (Filter.SetState (Fixture.fresh st) written, tr)
    /\ (Filter.Description m = types.StringValue "" ->
        Filter.Description written = types.StringNull)
    /\ (Filter.IncludeByDefault m = types.BoolNull ->
        Filter.IncludeByDefault written = types.BoolValue false)
    /\ Filter.ID written = types.StringValue id
    /\ length (Filter.Rules written) = length (Filter.Rules m)
    /\ (Filter.distinct (Filter.Rules written) = true ->
        Filter.SetState (Fixture.fresh st) written
        = Fixture.fresh (Some written))
    /\ (Filter.distinct (Filter.Rules written) = false ->
        resource.State (Filter.SetState (Fixture.fresh st) written) = st
        /\ diag.HasError
             (resource.Diagnostics
                (Filter.SetState (Fixture.fresh st) written)) = true)
    /\ (forall source,
          Filter.Rules m = twin_rules source ->
          Filter.distinct (Filter.Rules m) = true
          /\ Filter.distinct (Filter.Rules written) = false).
Proof.
  eexists _, _. split.
  - unfold FilterW.Create.
    cbn -[Filter.modelFromResponse Filter.SetState Server.created Nat.ltb].
    unfold op.bind.
    cbn -[Filter.modelFromResponse Filter.SetState Server.created Nat.ltb].
    reflexivity.
  - split; [by intros ->|]. split; [by intros ->|]. split; [done|].
    split.
    { cbn [Filter.modelFromResponse Filter.Rules Server.created
           serverless.Info_Rules FilterW.Create_Rules].
      destruct (Filter.Rules m) as [|rule rules]; [done|].
      simpl. by rewrite !length_map. }
    split; [apply SetState_distinct|].
    split.
    { intros Hdup.
      destruct (SetState_duplicates st [] _ Hdup) as (resp' & <- & H1 & H2).
      by split. }
    intros source Hrules.
    cbn [Filter.modelFromResponse Filter.Rules Server.created
         serverless.Info_Rules FilterW.Create_Rules].
    rewrite Hrules. unfold twin_rules. split.
    + simpl. by rewrite bool_decide_eq_false_2.
    + simpl. by rewrite bool_decide_eq_true_2.
Qed.

Lemma filter_create_normalises_witness :
  (exists written tr,
     FilterW.Create (FilterServer.resource "filt1" office_info)
       {| resource.Plan := Some blank_office |} (Fixture.fresh None) []
     = Some (Filter.SetState (Fixture.fresh None) written, tr)
     /\ Filter.Description written = types.StringNull
     /\ Filter.IncludeByDefault written = types.BoolValue false)
  /\ (exists written tr,
        FilterW.Create (FilterServer.resource "filt1" office_info)
          {| resource.Plan := Some twin_office |} (Fixture.fresh None) []
        = Some (Filter.SetState (Fixture.fresh None) written, tr)
        /\ Filter.distinct (Filter.Rules twin_office) = true
        /\ resource.State (Filter.SetState (Fixture.fresh None) written)
           = None
        /\ diag.HasError
             (resource.Diagnostics
                (Filter.SetState (Fixture.fresh None) written)) = true).
Proof.
  split.
  - destruct (filter_create_normalises "filt1" office_info blank_office None)
      as (written & tr & Hrun & Hdesc & Hflag & _).
    exists written, tr. split; [exact Hrun|].
    split; [by apply Hdesc|by apply Hflag].
  - destruct (filter_create_normalises "filt1" office_info twin_office None)
      as (written & tr & Hrun & _ & _ & _ & _ & _ & Hrefused & Htwin).
    exists written, tr. split; [exact Hrun|].
    destruct (Htwin (types.StringValue "192.0.2.0/24") eq_refl)
      as [Hplan Hwritten].
    split; [exact Hplan|]. exact (Hrefused Hwritten).
Defined.

End FilterEntity.

Section FilterEntityEdges.





Local Opaque Filter.SetState Filter.modelFromResponse.

(** X19. Read of a filter entity, by the answer of the transport. One get
    call is made, for the tracked id. A decoded payload that is not a 404
    has its model written to the state: when the rules of the model are a
    set, it replaces the tracked model and no diagnostic is added; when
    two of them are equal the write is refused, Read ends with an error
    and the state is left as it was. A transport error, or an answer that
    is neither a 404 nor decoded, is reported as "Failed to read traffic
    filter" and leaves the state as it was. *)
Theorem filter_read_outcomes r c req resp model tr :
  let id := types.ValueString (Filter.ID model) in
  Filter.client r = Some c ->
  resource.PriorState req = Some model ->
  diag.HasError (resource.Diagnostics resp) = false ->
  exists resp',
    Filter.Read r req resp tr
    = Some (resp', tr ++ [serverless.GetTrafficFilter id])
    /\ (forall err,
          serverless.getTrafficFilter c id = serverless.Err err ->
          resp' = {| resource.State := resource.State resp;
                     resource.Diagnostics :=
                       resource.Diagnostics resp
                       ++ [diag.NewErrorDiagnostic
                             "Failed to read traffic filter" err] |})
    /\ (forall readResp info,
          serverless.getTrafficFilter c id = serverless.Ok readResp ->
          Dispatch.is_not_found readResp = false ->
          serverless.JSON200 readResp = Some info ->
          resp' = Filter.SetState resp (Filter.modelFromResponse info)
          /\ (Filter.distinct (Filter.Rules (Filter.modelFromResponse info))
              = true ->
              resp' = {| resource.State :=
                           Some (Filter.modelFromResponse info);
                         resource.Diagnostics := resource.Diagnostics resp |})
          /\ (Filter.distinct (Filter.Rules (Filter.modelFromResponse info))
              = false ->
              resource.State resp' = resource.State resp
              /\ diag.HasError (resource.Diagnostics resp') = true))
    /\ (forall readResp,
          serverless.getTrafficFilter c id = serverless.Ok readResp ->
          Dispatch.is_not_found readResp = false ->
          serverless.JSON200 readResp = None ->
          resp' = {| resource.State := resource.State resp;
                     resource.Diagnostics :=
                       resource.Diagnostics resp
                       ++ [diag.NewErrorDiagnostic
                             "Failed to read traffic filter"
                             (fmt.Sprintf_request_failed
                                (serverless.StatusCode readResp)
                                (serverless.Status readResp)
                                (serverless.Body readResp))] |}).
Proof.
  intros id Hc Hstate Hno. destruct resp as [st dg]. simpl in Hno.
  unfold Filter.Read. rewrite Hstate. simpl. rewrite Hno, Hc.
  unfold op.bind, serverless.GetTrafficFilterWithResponse. simpl. fold id.
  unfold Dispatch.is_not_found.
  destruct (serverless.getTrafficFilter c id) as [readResp|err];
    rewrite ?(Contains_fresh _ _ _ Hno).
  - destruct (match serverless.HTTPResponse readResp with
              | Some h => Z.eqb (http.StatusCode h) http.StatusNotFound
              | None => false
              end) eqn:H404.
    + eexists. split; [reflexivity|].
      split; [done|]. split.
      * intros ? ? [= <-] H. congruence.
      * intros ? [= <-] H. congruence.
    + destruct (serverless.JSON200 readResp) as [info|] eqn:Hjson.
      * eexists. split; [reflexivity|]. split; [done|]. split.
        -- intros ? ? [= <-] _ Hj. rewrite Hjson in Hj.
           injection Hj as <-. split; [done|]. split.
           ++ intros Hset. by apply SetState_distinct.
           ++ intros Hdup.
              destruct (SetState_duplicates st dg _ Hdup)
                as (resp' & <- & H1 & H2).
              by split.
        -- intros ? [= <-] _ Hj. congruence.
      * eexists. split; [reflexivity|]. split; [done|]. split.
        -- intros ? ? [= <-] _ Hj. congruence.
        -- intros ? [= <-] _ _.
           unfold resource.AddError, resource.AppendDiagnostics.
           cbn [resource.Diagnostics resource.State diag.Append].
           by rewrite (AddError_fresh _ _ _ Hno).
  - eexists. split; [reflexivity|]. split; [|done].
    intros ? [= <-].
    unfold resource.AddError, resource.AppendDiagnostics.
    cbn [resource.Diagnostics resource.State diag.Append].
    by rewrite (AddError_fresh _ _ _ Hno).
Qed.

Local Transparent Filter.SetState Filter.modelFromResponse.

Lemma filter_read_outcomes_witness :
  let tracked := with_ID Fixture.office (types.StringValue "filt1") in
  let req := {| resource.PriorState := Some tracked |} in
  Filter.Read
    (Fixture.filters (serverless.Ok office_response) (serverless.Err "unused"))
    req (Fixture.fresh None) []
  = Some (Fixture.fresh (Some Fixture.office),
          [serverless.GetTrafficFilter "filt1"])
  /\ Filter.Read
       (Fixture.filters (serverless.Err "connection refused")
          (serverless.Err "unused"))
       req (Fixture.fresh (Some tracked)) []
     = Some ({| resource.State := Some tracked;
                resource.Diagnostics :=
                  [diag.NewErrorDiagnostic "Failed to read traffic filter"
                     "connection refused"] |},
             [serverless.GetTrafficFilter "filt1"])
  /\ Filter.Read
       (Fixture.filters (Fixture.status 500 "500 Internal Server Error" "boom")
          (serverless.Err "unused"))
       req (Fixture.fresh (Some tracked)) []
     = Some ({| resource.State := Some tracked;
                resource.Diagnostics :=
                  [diag.NewErrorDiagnostic "Failed to read traffic filter"
                     (fmt.Sprintf_request_failed 500
                        "500 Internal Server Error" "boom")] |},
             [serverless.GetTrafficFilter "filt1"])
  /\ Filter.Read
       (Fixture.filters (serverless.Ok twin_response) (serverless.Err "unused"))
       req (Fixture.fresh (Some tracked)) []
     = Some ({| resource.State := Some tracked;
                resource.Diagnostics := [duplicate_set_element] |},
             [serverless.GetTrafficFilter "filt1"]).
Proof.
  intros tracked req. split; [|split; [|split]].
  - destruct (filter_read_outcomes
                (Fixture.filters (serverless.Ok office_response)
                   (serverless.Err "unused"))
                (Fixture.transport (serverless.Err "unused")
                   (serverless.Err "unused") (serverless.Ok office_response)
                   (serverless.Err "unused"))
                req (Fixture.fresh None) tracked []
                eq_refl eq_refl eq_refl)
      as (resp' & Hrun & _ & Hok & _).
    rewrite Hrun. f_equal. f_equal.
    destruct (Hok office_response office_info eq_refl eq_refl eq_refl)
      as (_ & Hset & _).
    exact (Hset eq_refl).
  - destruct (filter_read_outcomes
                (Fixture.filters (serverless.Err "connection refused")
                   (serverless.Err "unused"))
                (Fixture.transport (serverless.Err "unused")
                   (serverless.Err "unused")
                   (serverless.Err "connection refused")
                   (serverless.Err "unused"))
                req (Fixture.fresh (Some tracked)) tracked []
                eq_refl eq_refl eq_refl)
      as (resp' & Hrun & Herr & _).
    rewrite Hrun. f_equal. f_equal.
    exact (Herr "connection refused" eq_refl).
  - destruct (filter_read_outcomes
                (Fixture.filters
                   (Fixture.status 500 "500 Internal Server Error" "boom")
                   (serverless.Err "unused"))
                (Fixture.transport (serverless.Err "unused")
                   (serverless.Err "unused")
                   (Fixture.status 500 "500 Internal Server Error" "boom")
                   (serverless.Err "unused"))
                req (Fixture.fresh (Some tracked)) tracked []
                eq_refl eq_refl eq_refl)
      as (resp' & Hrun & _ & _ & Hnone).
    rewrite Hrun. f_equal. f_equal.
    exact (Hnone (Fixture.response 500 "500 Internal Server Error" "boom")
             eq_refl eq_refl eq_refl).
  - destruct (filter_read_outcomes
                (Fixture.filters (serverless.Ok twin_response)
                   (serverless.Err "unused"))
                (Fixture.transport (serverless.Err "unused")
                   (serverless.Err "unused") (serverless.Ok twin_response)
                   (serverless.Err "unused"))
                req (Fixture.fresh (Some tracked)) tracked []
                eq_refl eq_refl eq_refl)
      as (resp' & Hrun & _ & Hok & _).
    rewrite Hrun. f_equal. f_equal.
    destruct (Hok twin_response twin_info eq_refl eq_refl eq_refl)
      as (-> & _).
    reflexivity.
Defined.


(** X20. The filter entity resource has no guard on its client: with a
    tracked state or a plan to decode and no client configured, Read,
    Delete, Create and Update panic at the client call; when there is
    nothing to decode they report the conversion error and return before
    the call. *)
Theorem filter_resource_without_client model resp tr :
  diag.HasError (resource.Diagnostics resp) = false ->
  let r := {| Filter.client := None |} in
  let w := {| FilterW.client := None |} in
  Filter.Read r {| resource.PriorState := Some model |} resp tr = None
  /\ Filter.Delete r {| resource.PriorState := Some model |} resp tr = None
  /\ (forall trw,
        FilterW.Create w {| resource.Plan := Some model |} resp trw = None
        /\ FilterW.Update w {| resource.Plan := Some model |} resp trw = None)
  /\ (exists resp',
        Filter.Read r {| resource.PriorState := None |} resp tr
        = Some (resp', tr)
        /\ Filter.Delete r {| resource.PriorState := None |} resp tr
           = Some (resp', tr)
        /\ diag.HasError (resource.Diagnostics resp') = true
        /\ resource.State resp' = resource.State resp).
Proof.
  intros Hno r w. destruct resp as [st dg]. simpl in Hno.
  split; [|split; [|split]].
  - unfold Filter.Read. simpl. by rewrite Hno.
  - unfold Filter.Delete. simpl. by rewrite Hno.
  - intros trw. split.
    + unfold FilterW.Create. simpl. by rewrite Hno.
    + unfold FilterW.Update. simpl. by rewrite Hno.
  - eexists. unfold Filter.Read, Filter.Delete.
    unfold tfsdk.Get, resource.AppendDiagnostics.
    cbn [resource.PriorState resource.Diagnostics resource.State].
    rewrite HasError_Append_single.
    split; [reflexivity|]. split; [reflexivity|].
    split; [apply HasError_Append_single|done].
Qed.

Lemma filter_resource_without_client_witness :
  Filter.Read {| Filter.client := None |}
    {| resource.PriorState := Some Fixture.office |}
    (Fixture.fresh (Some Fixture.office)) []
  = None.
Proof.
  exact (proj1 (filter_resource_without_client Fixture.office
                  (Fixture.fresh (Some Fixture.office)) [] eq_refl)).
Defined.

(** A write of a model to the state that ends with an error, after a
    response without error, has left the state as it was. *)
Lemma SetState_error st dg m :
  diag.HasError dg = false ->
  diag.HasError
    (resource.Diagnostics
       (Filter.SetState {| resource.State := st; resource.Diagnostics := dg |}
          m)) = true ->
  resource.State
    (Filter.SetState {| resource.State := st; resource.Diagnostics := dg |} m)
  = st.
Proof.
  intros Hno. unfold Filter.SetState, Filter.State_Set.
  destruct (Filter.distinct (Filter.Rules m)); [|done].
  unfold resource.AppendDiagnostics.
  cbn [resource.State resource.Diagnostics diag.Append]. congruence.
Qed.

(** X21. The filter entity is stored on success only: Delete never
    changes the state, and when Read, Create or Update ends with an
    error the state is the one it started from; this holds also when the
    error is the refusal of the model written to the state. *)
Theorem filter_error_leaves_state :
  (forall r req resp tr resp' tr',
     Filter.Delete r req resp tr = Some (resp', tr') ->
     resource.State resp' = resource.State resp)
  /\ (forall r req resp tr resp' tr',
        Filter.Read r req resp tr = Some (resp', tr') ->
        diag.HasError (resource.Diagnostics resp') = true ->
        resource.State resp' = resource.State resp)
  /\ (forall r req resp tr resp' tr',
        FilterW.Create r req resp tr = Some (resp', tr') ->
        diag.HasError (resource.Diagnostics resp') = true ->
        resource.State resp' = resource.State resp)
  /\ (forall r req resp tr resp' tr',
        FilterW.Update r req resp tr = Some (resp', tr') ->
        diag.HasError (resource.Diagnostics resp') = true ->
        resource.State resp' = resource.State resp).
Proof.
  split; [|split; [|split]].
  - intros r req [st dg] tr resp' tr' Hrun. unfold Filter.Delete in Hrun.
    destruct (tfsdk.Get _ _) as [model diags].
    cbn [resource.AppendDiagnostics resource.Diagnostics resource.State]
      in Hrun.
    destruct (diag.HasError _); [by injection Hrun as <- <-|].
    destruct (Filter.client r) as [c|]; [|done].
    unfold op.bind, serverless.DeleteTrafficFilterWithResponse in Hrun.
    simpl in Hrun.
    destruct (serverless.deleteTrafficFilter c _) as [deleteResp|err];
      [|by injection Hrun as <- <-].
    destruct (_ && _); by injection Hrun as <- <-.
  - intros r req [st dg] tr resp' tr' Hrun Herr. unfold Filter.Read in Hrun.
    destruct (tfsdk.Get _ _) as [model diags].
    cbn [resource.AppendDiagnostics resource.Diagnostics resource.State]
      in Hrun.
    destruct (diag.HasError _) eqn:Hno; [by injection Hrun as <- <-|].
    destruct (Filter.client r) as [c|]; [|done].
    unfold op.bind, serverless.GetTrafficFilterWithResponse in Hrun.
    simpl in Hrun.
    destruct (serverless.getTrafficFilter c _) as [readResp|err];
      [|by injection Hrun as <- <-].
    destruct (match serverless.HTTPResponse readResp with
              | Some _ => _ | None => _ end).
    { injection Hrun as <- <-. simpl in Herr. congruence. }
    destruct (serverless.JSON200 readResp) as [info|];
      injection Hrun as <- <-; [|done].
    by apply (SetState_error st _ (Filter.modelFromResponse info)).
  - intros r req [st dg] tr resp' tr' Hrun Herr. unfold FilterW.Create in Hrun.
    destruct (tfsdk.Get _ _) as [model diags].
    cbn [resource.AppendDiagnostics resource.Diagnostics resource.State]
      in Hrun.
    destruct (diag.HasError _) eqn:Hno; [by injection Hrun as <- <-|].
    destruct (FilterW.client r) as [c|]; [|done].
    unfold op.bind, FilterW.CreateTrafficFilterWithResponse in Hrun.
    simpl in Hrun.
    destruct (FilterW.createTrafficFilter c _) as [createResp|err];
      [|by injection Hrun as <- <-].
    destruct (FilterW.JSON201 createResp) as [info|];
      injection Hrun as <- <-; [|done].
    by apply (SetState_error st _ (Filter.modelFromResponse info)).
  - intros r req [st dg] tr resp' tr' Hrun Herr. unfold FilterW.Update in Hrun.
    destruct (tfsdk.Get _ _) as [model diags].
    cbn [resource.AppendDiagnostics resource.Diagnostics resource.State]
      in Hrun.
    destruct (diag.HasError _) eqn:Hno; [by injection Hrun as <- <-|].
    destruct (FilterW.client r) as [c|]; [|done].
    unfold op.bind, FilterW.PatchTrafficFilterWithResponse in Hrun.
    simpl in Hrun.
    destruct (FilterW.patchTrafficFilter c _ _) as [patchResp|err];
      [|by injection Hrun as <- <-].
    destruct (serverless.JSON200 patchResp) as [info|];
      injection Hrun as <- <-; [|done].
    by apply (SetState_error st _ (Filter.modelFromResponse info)).
Qed.

Lemma filter_error_leaves_state_witness :
  let failed summary :=
    {| resource.State := Some Fixture.office;
       resource.Diagnostics :=
         [diag.NewErrorDiagnostic summary "connection refused"] |} in
  resource.State (failed "Failed to delete traffic filter")
  = resource.State (Fixture.fresh (Some Fixture.office))
  /\ resource.State (failed "Failed to read traffic filter")
     = resource.State (Fixture.fresh (Some Fixture.office))
  /\ resource.State (failed "Failed to create traffic filter")
     = resource.State (Fixture.fresh (Some Fixture.office))
  /\ resource.State (failed "Failed to update traffic filter")
     = resource.State (Fixture.fresh (Some Fixture.office))
  /\ resource.State
       {| resource.State := Some Fixture.office;
          resource.Diagnostics := [duplicate_set_element] |}
     = resource.State (Fixture.fresh (Some Fixture.office)).
Proof.
  intros failed.
  destruct filter_error_leaves_state as (Hdelete & Hread & Hcreate & Hupdate).
  split; [|split; [|split; [|split]]].
  - apply (Hdelete
             (Fixture.filters (serverless.Err "unused")
                (serverless.Err "connection refused"))
             {| resource.PriorState := Some Fixture.office |}
             (Fixture.fresh (Some Fixture.office)) []
             _ [serverless.DeleteTrafficFilter "filt1"]).
    reflexivity.
  - apply (Hread
             (Fixture.filters (serverless.Err "connection refused")
                (serverless.Err "unused"))
             {| resource.PriorState := Some Fixture.office |}
             (Fixture.fresh (Some Fixture.office)) []
             _ [serverless.GetTrafficFilter "filt1"]);
      reflexivity.
  - apply (Hcreate
             {| FilterW.client :=
                  Some {| FilterW.createTrafficFilter := fun _ =>
                            serverless.Err "connection refused";
                          FilterW.patchTrafficFilter := fun _ _ =>
                            serverless.Err "connection refused" |} |}
             {| resource.Plan := Some bare_office |}
             (Fixture.fresh (Some Fixture.office)) []
             _
             [FilterW.CreateTrafficFilter
                {| FilterW.Create_Name := "office";
                   FilterW.Create_Region := "aws-us-east-1";
                   FilterW.Create_Type := "ip";
                   FilterW.Create_Description := None;
                   FilterW.Create_IncludeByDefault := Some false;
                   FilterW.Create_Rules := None |}]);
      reflexivity.
  - apply (Hupdate
             {| FilterW.client :=
                  Some {| FilterW.createTrafficFilter := fun _ =>
                            serverless.Err "connection refused";
                          FilterW.patchTrafficFilter := fun _ _ =>
                            serverless.Err "connection refused" |} |}
             {| resource.Plan := Some bare_office |}
             (Fixture.fresh (Some Fixture.office)) []
             _
             [FilterW.PatchTrafficFilter "filt1"
                {| FilterW.Patch_Name := Some "office";
                   FilterW.Patch_Description := None;
                   FilterW.Patch_IncludeByDefault := Some false;
                   FilterW.Patch_Rules := None |}]);
      reflexivity.
  - apply (Hread
             (Fixture.filters (serverless.Ok twin_response)
                (serverless.Err "unused"))
             {| resource.PriorState := Some Fixture.office |}
             (Fixture.fresh (Some Fixture.office)) []
             _ [serverless.GetTrafficFilter "filt1"]);
      reflexivity.
Defined.

End FilterEntityEdges.

(** * Inline filter sets of the project resource *)

Section ProjectFilterSets.

Lemma elements_known ids :
  mapM basetypes.element_as_string (map types.StringValue ids) = Some ids.
Proof. induction ids as [|id ids IH]; simpl; [done|]. by rewrite IH. Qed.

Lemma elements_unknown elements :
  (exists v, v ∈ elements /\ basetypes.element_as_string v = None) ->
  mapM basetypes.element_as_string elements = None.
Proof.
  intros (v & Hin & Hv).
  induction elements as [|e elements IH]; [by apply elem_of_nil in Hin|].
  simpl. apply elem_of_cons in Hin as [<-|Hin].
  - by rewrite Hv.
  - rewrite (IH Hin). by destruct (basetypes.element_as_string e).
Qed.

Lemma filters_of_ids (l : list serverless.TrafficFilter) :
  map (fun id => {| serverless.Id := id |}) (map serverless.Id l) = l.
Proof. induction l as [|[id] l IH]; simpl; [done|]. by rewrite IH. Qed.

Lemma ids_of_filters ids :
  map serverless.Id (map (fun id => {| serverless.Id := id |}) ids) = ids.
Proof. induction ids as [|id ids IH]; simpl; [done|]. by rewrite IH. Qed.

(** X22. The conversion of an inline filter set to the API: a null set,
    an unknown set and an empty set all give no filters field and no
    diagnostic; a set with a null or unknown element gives no filters
    field and an error; a non-empty set of known ids gives the filters of
    these ids, in order. *)
Theorem traffic_filters_from_model :
  projectresource.trafficFiltersFromModel basetypes.SetNull = (None, [])
  /\ projectresource.trafficFiltersFromModel basetypes.SetUnknown = (None, [])
  /\ projectresource.trafficFiltersFromModel (basetypes.SetKnown [])
     = (None, [])
  /\ (forall elements v,
        v ∈ elements ->
        basetypes.element_as_string v = None ->
        exists diags,
          projectresource.trafficFiltersFromModel (basetypes.SetKnown elements)
          = (None, diags)
          /\ diag.HasError diags = true)
  /\ (forall ids,
        ids <> [] ->
        projectresource.trafficFiltersFromModel
          (basetypes.SetKnown (map types.StringValue ids))
        = (Some (map (fun id => {| serverless.Id := id |}) ids), [])).
Proof.
  split; [done|]. split; [done|]. split; [done|]. split.
  - intros elements v Hin Hv. eexists.
    unfold projectresource.trafficFiltersFromModel. simpl.
    rewrite (elements_unknown elements); [|by exists v]. simpl. done.
  - intros ids Hne. unfold projectresource.trafficFiltersFromModel. simpl.
    rewrite elements_known. simpl. by destruct ids.
Qed.

Lemma traffic_filters_from_model_witness :
  projectresource.trafficFiltersFromModel
    (basetypes.SetKnown [types.StringValue "filt1"; types.StringValue "filt2"])
  = (Some [Fixture.tf "filt1"; Fixture.tf "filt2"], [])
  /\ exists diags,
       projectresource.trafficFiltersFromModel
         (basetypes.SetKnown [types.StringValue "filt1"; types.StringUnknown])
       = (None, diags)
       /\ diag.HasError diags = true.
Proof.
  split.
  - apply (proj2 (proj2 (proj2 (proj2 traffic_filters_from_model)))
             ["filt1"; "filt2"]).
    discriminate.
  - apply (proj1 (proj2 (proj2 (proj2 traffic_filters_from_model)))
             [types.StringValue "filt1"; types.StringUnknown]
             types.StringUnknown).
    + apply list_elem_of_In. right. by left.
    + reflexivity.
Defined.

Lemma distinct_existsb id (ids : list string) :
  existsb (String.eqb id) ids = true <-> id ∈ ids.
Proof.
  rewrite existsb_exists. split.
  - intros (x & Hin & ->%String.eqb_eq). by apply list_elem_of_In.
  - intros Hin. exists id. split; [by apply list_elem_of_In|].
    apply String.eqb_refl.
Qed.

(** [basetypes.distinct] is the absence of a repeated id. *)
Lemma distinct_NoDup (ids : list string) :
  basetypes.distinct ids = true <-> NoDup ids.
Proof.
  induction ids as [|id ids IH]; simpl.
  - split; [constructor|done].
  - rewrite andb_true_iff, negb_true_iff, NoDup_cons, IH.
    rewrite <- distinct_existsb.
    by destruct (existsb (String.eqb id) ids); intuition.
Qed.

(** X23. Round trips of the inline filter set: a non-empty list of
    filters of pairwise different ids converted to a set and back is the
    same list, and a non-empty set of known ids, pairwise different,
    converted to filters and back is the same set. A list in which an id
    repeats is not converted: the set returned is unknown and an error is
    reported. An empty list does not come back: like an absent list it
    becomes the null set, and the null set becomes an absent list. *)
Theorem traffic_filters_round_trip :
  (forall l,
     l <> [] ->
     NoDup (map serverless.Id l) ->
     exists tfSet,
       projectresource.trafficFiltersToModel (Some l) = (tfSet, [])
       /\ projectresource.trafficFiltersFromModel tfSet = (Some l, []))
  /\ (forall ids,
        ids <> [] ->
        NoDup ids ->
        exists filters,
          projectresource.trafficFiltersFromModel
            (basetypes.SetKnown (map types.StringValue ids))
          = (filters, [])
          /\ projectresource.trafficFiltersToModel filters
             = (basetypes.SetKnown (map types.StringValue ids), []))
  /\ (forall l,
        ~ NoDup (map serverless.Id l) ->
        exists diags,
          projectresource.trafficFiltersToModel (Some l)
          = (basetypes.SetUnknown, diags)
          /\ diag.HasError diags = true)
  /\ projectresource.trafficFiltersToModel (Some [])
     = (basetypes.SetNull, [])
  /\ projectresource.trafficFiltersToModel None = (basetypes.SetNull, [])
  /\ projectresource.trafficFiltersFromModel
       (fst (projectresource.trafficFiltersToModel (Some [])))
     = (None, []).
Proof.
  split; [|split; [|split; [|done]]].
  - intros l Hne Hnodup. apply distinct_NoDup in Hnodup.
    exists (basetypes.SetKnown (map types.StringValue (map serverless.Id l))).
    split.
    + unfold projectresource.trafficFiltersToModel, basetypes.SetValueFrom.
      rewrite Hnodup. by destruct l.
    + unfold projectresource.trafficFiltersFromModel. simpl.
      rewrite elements_known. simpl.
      rewrite filters_of_ids. by destruct l.
  - intros ids Hne Hnodup. apply distinct_NoDup in Hnodup.
    exists (Some (map (fun id => {| serverless.Id := id |}) ids)).
    split.
    + unfold projectresource.trafficFiltersFromModel. simpl.
      rewrite elements_known. simpl. by destruct ids.
    + unfold projectresource.trafficFiltersToModel, basetypes.SetValueFrom.
      rewrite ids_of_filters, Hnodup. by destruct ids.
  - intros l Hdup. eexists.
    unfold projectresource.trafficFiltersToModel, basetypes.SetValueFrom.
    destruct (basetypes.distinct (map serverless.Id l)) eqn:Hd.
    { by apply distinct_NoDup in Hd. }
    destruct l as [|f l]; [|done].
    exfalso. apply Hdup. constructor.
Qed.

Lemma traffic_filters_round_trip_witness :
  (exists tfSet,
     projectresource.trafficFiltersToModel
       (Some [Fixture.tf "filt1"; Fixture.tf "filt2"]) = (tfSet, [])
     /\ projectresource.trafficFiltersFromModel tfSet
        = (Some [Fixture.tf "filt1"; Fixture.tf "filt2"], []))
  /\ (exists filters,
        projectresource.trafficFiltersFromModel
          (basetypes.SetKnown (map types.StringValue ["filt1"; "filt2"]))
        = (filters, [])
        /\ projectresource.trafficFiltersToModel filters
           = (basetypes.SetKnown (map types.StringValue ["filt1"; "filt2"]),
              []))
  /\ (exists diags,
        projectresource.trafficFiltersToModel
          (Some [Fixture.tf "filt2"; Fixture.tf "filt1"; Fixture.tf "filt2"])
        = (basetypes.SetUnknown, diags)
        /\ diag.HasError diags = true).
Proof.
  split; [|split].
  - apply (proj1 traffic_filters_round_trip
             [Fixture.tf "filt1"; Fixture.tf "filt2"]).
    + discriminate.
    + apply (bool_decide_unpack _). vm_compute. reflexivity.
  - apply (proj1 (proj2 traffic_filters_round_trip) ["filt1"; "filt2"]).
    + discriminate.
    + apply (bool_decide_unpack _). vm_compute. reflexivity.
  - apply (proj1 (proj2 (proj2 traffic_filters_round_trip))
             [Fixture.tf "filt2"; Fixture.tf "filt1"; Fixture.tf "filt2"]).
    apply (bool_decide_eq_false_1 _). vm_compute. reflexivity.
Defined.

End ProjectFilterSets.
